(** * adb/contrib/high.py: a shallow embedding and its verified properties

    The embedding follows the Python source function by function.  Device
    I/O goes through an explicit world (a call history and the process-wide
    per-device cache); the answers of the device and of the host (clock,
    random generator) are functions of the history so far, which covers
    every deterministic stateful device or fake.  Python exceptions are an
    explicit outcome; unbounded recursion and [while True] loops take fuel. *)

From Stdlib Require Import ZArith QArith Lia List Bool Ascii String.
From stdpp Require Import base option list gmap strings pretty sorting.

Local Open Scope string_scope.
Local Open Scope list_scope.
Local Open Scope Z_scope.

(** ** Python built-ins on byte strings ([str]) *)

Module Py.

(** [string.whitespace] for [str]: space, \t, \n, \v, \f, \r. *)
Definition isspace (c : ascii) : bool :=
  let n := nat_of_ascii c in
  Nat.eqb n 32 || (Nat.leb 9 n && Nat.leb n 13).

Fixpoint lstrip (s : string) : string :=
  match s with
  | EmptyString => EmptyString
  | String c s' => if isspace c then lstrip s' else s
  end.

Fixpoint rstrip (s : string) : string :=
  match s with
  | EmptyString => EmptyString
  | String c s' =>
      match rstrip s' with
      | EmptyString => if isspace c then EmptyString else String c EmptyString
      | r => String c r
      end
  end.

Definition strip (s : string) : string := lstrip (rstrip s).

Definition cons_word (w : string) (ws : list string) : list string :=
  match w with EmptyString => ws | _ => w :: ws end.

(** The word under construction and the words after it. *)
Fixpoint words (s : string) : string * list string :=
  match s with
  | EmptyString => (EmptyString, [])
  | String c s' =>
      let '(w, ws) := words s' in
      if isspace c then (EmptyString, cons_word w ws) else (String c w, ws)
  end.

(** [s.split()]: split on runs of whitespace, no empty words. *)
Definition split (s : string) : list string :=
  let '(w, ws) := words s in cons_word w ws.

Definition LF : ascii := "010"%char.
Definition CR : ascii := "013"%char.

(** [s.splitlines()]: line boundaries are \n, \r and \r\n; no final
    empty line. *)
Fixpoint splitlines (s : string) : list string :=
  match s with
  | EmptyString => []
  | String c s' =>
      if Ascii.eqb c LF then EmptyString :: splitlines s'
      else if Ascii.eqb c CR then
        match s' with
        | String c' s'' =>
            if Ascii.eqb c' LF then EmptyString :: splitlines s''
            else EmptyString :: splitlines s'
        | EmptyString => [EmptyString]
        end
      else
        match splitlines s' with
        | [] => [String c EmptyString]
        | l :: ls => String c l :: ls
        end
  end.

Definition startswith (s p : string) : bool := String.prefix p s.

(** [s.split(sep, 1)] when it has two parts; [None] stands for the
    one-element list. *)
Fixpoint split_once (sep : ascii) (s : string) : option (string * string) :=
  match s with
  | EmptyString => None
  | String c s' =>
      if Ascii.eqb c sep then Some (EmptyString, s')
      else match split_once sep s' with
           | Some (k, v) => Some (String c k, v)
           | None => None
           end
  end.

Definition digit_val (c : ascii) : option Z :=
  let n := nat_of_ascii c in
  if Nat.leb 48 n && Nat.leb n 57 then Some (Z.of_nat (n - 48)) else None.

Fixpoint digits (acc : Z) (s : string) : option Z :=
  match s with
  | EmptyString => Some acc
  | String c s' =>
      match digit_val c with
      | Some d => digits (10 * acc + d) s'
      | None => None
      end
  end.

(** [int(s)] in base 10: surrounding whitespace, an optional sign, at
    least one ASCII digit; [None] stands for ValueError. *)
Definition int (s : string) : option Z :=
  match strip s with
  | EmptyString => None
  | String c rest =>
      if Ascii.eqb c "-" then
        match rest with
        | EmptyString => None
        | _ => option_map Z.opp (digits 0 rest)
        end
      else if Ascii.eqb c "+" then
        match rest with
        | EmptyString => None
        | _ => digits 0 rest
        end
      else digits 0 (String c rest)
  end.

(** [str(n)] and ['%d' % n]. *)
Definition str (n : Z) : string := pretty n.

(** [sorted] on integers and on byte strings. *)
Definition sorted_int (l : list Z) : list Z := merge_sort Z.le l.

Definition str_le (a b : string) : Prop := Is_true (String.leb a b).

Definition sorted_str (l : list string) : list string := merge_sort str_le l.

(** [x in l] *)
Definition in_str (x : string) (l : list string) : bool :=
  existsb (String.eqb x) l.

Definition in_int (x : Z) (l : list Z) : bool := existsb (Z.eqb x) l.

Definition DQUOTE : string := String "034"%char EmptyString.

Definition is_alnum (c : ascii) : bool :=
  let n := nat_of_ascii c in
  (Nat.leb 48 n && Nat.leb n 57)
  || (Nat.leb 65 n && Nat.leb n 90)
  || (Nat.leb 97 n && Nat.leb n 122).

(** [pipes._safechars] *)
Definition safechar (c : ascii) : bool :=
  is_alnum c || existsb (Ascii.eqb c) (list_ascii_of_string "@%_-+=:,./").

Fixpoint all_chars (p : ascii -> bool) (s : string) : bool :=
  match s with
  | EmptyString => true
  | String c s' => p c && all_chars p s'
  end.

(** [file.replace("'", "'\"'\"'")] *)
Fixpoint escape_squote (s : string) : string :=
  match s with
  | EmptyString => EmptyString
  | String c s' =>
      if Ascii.eqb c "'"
      then "'" +:+ DQUOTE +:+ "'" +:+ DQUOTE +:+ "'" +:+ escape_squote s'
      else String c (escape_squote s')
  end.

(** [pipes.quote] *)
Definition quote (file : string) : string :=
  if all_chars safechar file then
    match file with
    | EmptyString => "''"
    | _ => file
    end
  else "'" +:+ escape_squote file +:+ "'".

(** [string.ascii_letters + string.digits] *)
Definition ascii_letters_digits : string :=
  "abcdefghijklmnopqrstuvwxyzABCDEFGHIJKLMNOPQRSTUVWXYZ0123456789".

(** Whether a [str] decodes with the default codec of Python 2, ascii:
    [s.decode('ascii')] raises UnicodeDecodeError at a byte above 127.
    A method of a [str] given a [unicode] argument first decodes the
    [str] this way. *)
Definition is_ascii (s : string) : bool :=
  all_chars (fun c => Nat.ltb (nat_of_ascii c) 128) s.

End Py.

(** ** The fragment of [re] used by the parcel pattern *)

Module Re.

Inductive atom : Type :=
| Lit (s : string)                        (* literal text *)
| Rep (cls : ascii -> bool) (n : nat)     (* cls{n} *)
| Group (cls : ascii -> bool) (n : nat)   (* (cls{n}), capturing *)
| OptLit (s : string).                    (* literal?, greedy *)

Fixpoint take_lit (lit s : string) : option string :=
  match lit, s with
  | EmptyString, _ => Some s
  | String a lit', String c s' =>
      if Ascii.eqb a c then take_lit lit' s' else None
  | String _ _, EmptyString => None
  end.

Fixpoint take_class (cls : ascii -> bool) (n : nat) (s : string)
  : option (string * string) :=
  match n with
  | O => Some (EmptyString, s)
  | S n' =>
      match s with
      | String c s' =>
          if cls c then
            match take_class cls n' s' with
            | Some (got, rest) => Some (String c got, rest)
            | None => None
            end
          else None
      | EmptyString => None
      end
  end.

(** [re.match(pattern, s)]: anchored at the start only; the result is
    the list of captured groups. *)
Fixpoint match_ (p : list atom) (s : string) : option (list string) :=
  match p with
  | [] => Some []
  | Lit l :: p' =>
      match take_lit l s with
      | Some rest => match_ p' rest
      | None => None
      end
  | Rep cls n :: p' =>
      match take_class cls n s with
      | Some (_, rest) => match_ p' rest
      | None => None
      end
  | Group cls n :: p' =>
      match take_class cls n s with
      | Some (got, rest) => option_map (cons got) (match_ p' rest)
      | None => None
      end
  | OptLit l :: p' =>
      match take_lit l s with
      | Some rest =>
          match match_ p' rest with
          | Some gs => Some gs
          | None => match_ p' s
          end
      | None => match_ p' s
      end
  end.

(** [[0-9a-f]] *)
Definition hex (c : ascii) : bool :=
  let n := nat_of_ascii c in
  (Nat.leb 48 n && Nat.leb n 57) || (Nat.leb 97 n && Nat.leb n 102).

(** [[0-9a-f ]] *)
Definition hex_or_space (c : ascii) : bool := hex c || Ascii.eqb c " ".

(** [.] without DOTALL *)
Definition dot (c : ascii) : bool := negb (Ascii.eqb c Py.LF).

End Re.

(** ** _ParcelToList *)

Definition parcel_pattern : list Re.atom :=
  [ Re.Lit "  0x"; Re.Rep Re.hex 8; Re.Lit ": ";
    Re.Group Re.hex_or_space 8; Re.Lit " ";
    Re.Group Re.hex_or_space 8; Re.Lit " ";
    Re.Group Re.hex_or_space 8; Re.Lit " ";
    Re.Group Re.hex_or_space 8; Re.Lit " '";
    Re.Rep Re.dot 16; Re.Lit "'"; Re.OptLit ")" ].

(** [s[i:j]] *)
Definition slice (i j : nat) (s : string) : string := substring i (j - i) s.

(** The body of [for i in xrange(1, 5)] for one group. *)
Definition parcel_group (out : list string) (group : string) : list string :=
  let char := slice 4 8 group in
  let out := if String.eqb char "    " then out else out ++ [char] in
  let char := slice 0 4 group in
  if String.eqb char "    " then out else out ++ [char].

(** The [for line in lines] loop with its accumulator [out]. *)
Fixpoint _ParcelToList_loop (out : list string) (lines : list string)
  : list string :=
  match lines with
  | [] => out
  | line :: rest =>
      match Re.match_ parcel_pattern line with
      | None => out
      | Some groups => _ParcelToList_loop (fold_left parcel_group groups out) rest
      end
  end.

Definition _ParcelToList (lines : list string) : list string :=
  _ParcelToList_loop [] lines.

(** ** The world: call history, device, host, exceptions *)

Inductive exn : Type :=
| AssertionError | ValueError | TypeError | IndexError | AttributeError.

Inductive loglevel : Type := INFO | WARNING.

Inductive event : Type :=
| EShell (cmd : string)                  (* device.Shell(cmd) *)
| EPullContent (path : string)           (* device.PullContent(path) *)
| EPushContent (content path : string)   (* device.PushContent(content, path) *)
| EStat (path : string)                  (* device.Stat(path) *)
| ETime                                  (* time.time() *)
| ESleep                                 (* time.sleep(0.1) *)
| ERandom                                (* random.choice(choices) *)
| ELog (level : loglevel) (fmt : string) (* _LOG.info / _LOG.warning *).

(** Most recent call first. *)
Definition history : Type := list event.

(** The low level device (adb_commands_safe.AdbCommandsSafe or a fake):
    what high.py consumes of it.  Each answer may depend on every earlier
    call. *)
Record Device : Type := {
  port_path : string;
  is_valid : bool;
  IsShellOk : string -> bool;
  Shell_answer : history -> string -> option string * option Z;
  PullContent_answer : history -> string -> option string;
  PushContent_answer : history -> string -> string -> bool;
  Stat_answer : history -> string -> option Z * option Z * option Z
}.

(** The host: [time.time()] in seconds (exact rationals stand for the
    float readings) and the index drawn by [random.choice]. *)
Record Host : Type := {
  clock : history -> Q;
  random_index : history -> nat
}.

(** [available_frequencies] holds None, the empty content [''] or a list. *)
Inductive frequencies : Type :=
| FreqNone
| FreqEmptyStr
| FreqList (l : list Z).

Record DeviceCache : Type := {
  build_props : option (gmap string string);
  external_storage_path : option string;
  has_su : bool;
  available_frequencies : frequencies;
  available_governors : list string
}.

Definition KNOWN_CPU_SCALING_GOVERNOR_VALUES : list string :=
  [ "conservative"; "interactive"; "ondemand"; "performance"; "powersave";
    "userspace" ].

Record HighDevice : Type := {
  _device : Device;
  _cache : DeviceCache
}.

Definition cache (self : HighDevice) : DeviceCache := _cache self.
Definition hd_port_path (self : HighDevice) : string := port_path (_device self).
Definition hd_is_valid (self : HighDevice) : bool := is_valid (_device self).

(** ** _PerDeviceCache *)

Module PerDeviceCache.

Definition t : Type := gmap string DeviceCache.

Definition get (per_device : gmap string DeviceCache) (device : Device)
  : option DeviceCache :=
  per_device !! port_path device.

Definition set (per_device : gmap string DeviceCache) (device : Device)
    (cache : DeviceCache) : gmap string DeviceCache :=
  <[port_path device := cache]> per_device.

(** [{d.port_path: d for d in devices}]: a later device replaces an
    earlier one with the same port path. *)
Definition device_keys (devices : list HighDevice) : gmap string HighDevice :=
  fold_left (fun acc d => <[hd_port_path d := d]> acc) devices ∅.

(** [self._per_device.keys()]: a list, built before the loop runs. *)
Definition keys (per_device : gmap string DeviceCache) : list string :=
  (map_to_list per_device).*1.

Definition trim_step (device_keys : gmap string HighDevice)
    (per_device : gmap string DeviceCache) (port_path : string)
  : gmap string DeviceCache :=
  match device_keys !! port_path with
  | Some dev =>
      if negb (hd_is_valid dev) then delete port_path per_device
      else per_device
  | None => delete port_path per_device
  end.

Definition trim (per_device : gmap string DeviceCache)
    (devices : list HighDevice) : gmap string DeviceCache :=
  let device_keys := device_keys devices in
  fold_left (trim_step device_keys) (keys per_device) per_device.

End PerDeviceCache.

(** ** Outcomes and the monad of a run *)

Inductive outcome (A : Type) : Type :=
| Ret (a : A)       (* the call returned [a] *)
| Raise (e : exn)   (* the call raised *)
| OutOfFuel.        (* the fuel ran out before the call finished *)

Arguments Ret {A} a.
Arguments Raise {A} e.
Arguments OutOfFuel {A}.

(** [trace]: every call made so far; [per_device]: the dictionary of the
    global [_PER_DEVICE_CACHE]. *)
Record World : Type := {
  trace : history;
  per_device : gmap string DeviceCache
}.

Definition M (A : Type) : Type := World -> outcome A * World.

Definition ret {A : Type} (a : A) : M A := fun w => (Ret a, w).

Definition raise {A : Type} (e : exn) : M A := fun w => (Raise e, w).

Definition out_of_fuel {A : Type} : M A := fun w => (OutOfFuel, w).

Definition bind {A B : Type} (m : M A) (k : A -> M B) : M B :=
  fun w =>
    match m w with
    | (Ret a, w') => k a w'
    | (Raise e, w') => (Raise e, w')
    | (OutOfFuel, w') => (OutOfFuel, w')
    end.

Notation "'let*' x ':=' m 'in' k" := (bind m (fun x => k))
  (at level 10, x pattern, m at level 99, k at level 200,
   format "'[v' 'let*'  x  ':='  m  'in' '/' k ']'").

Notation "m ';;' k" := (bind m (fun _ => k))
  (at level 100, k at level 200, right associativity).

(** [try: body finally: fin]; a run that never finishes does not reach
    the finally block. *)
Definition try_finally {A : Type} (body : M A) (fin : M unit) : M A :=
  fun w =>
    match body w with
    | (OutOfFuel, w') => (OutOfFuel, w')
    | (r, w') =>
        match fin w' with
        | (Ret _, w'') => (r, w'')
        | (Raise e, w'') => (Raise e, w'')
        | (OutOfFuel, w'') => (OutOfFuel, w'')
        end
    end.

Definition assert (b : bool) : M unit :=
  if b then ret tt else raise AssertionError.

Definition from_option {A : Type} (e : exn) (o : option A) : M A :=
  match o with
  | Some a => ret a
  | None => raise e
  end.

Definition record (e : event) (w : World) : World :=
  {| trace := e :: trace w; per_device := per_device w |}.

Definition emit (e : event) : M unit := fun w => (Ret tt, record e w).

(** Only the call is recorded: whether the record is printed depends on
    the logger level. *)
Definition log (level : loglevel) (fmt : string) : M unit :=
  emit (ELog level fmt).

Definition dev_Shell (d : Device) (cmd : string)
  : M (option string * option Z) :=
  fun w => (Ret (Shell_answer d (trace w) cmd), record (EShell cmd) w).

Definition dev_PullContent (d : Device) (path : string) : M (option string) :=
  fun w => (Ret (PullContent_answer d (trace w) path),
            record (EPullContent path) w).

Definition dev_PushContent (d : Device) (content path : string) : M bool :=
  fun w => (Ret (PushContent_answer d (trace w) content path),
            record (EPushContent content path) w).

Definition dev_Stat (d : Device) (path : string)
  : M (option Z * option Z * option Z) :=
  fun w => (Ret (Stat_answer d (trace w) path), record (EStat path) w).

Definition time_time (host : Host) : M Q :=
  fun w => (Ret (clock host (trace w)), record ETime w).

Definition time_sleep : M unit := emit ESleep.

(** [random.choice(choices)] for a non-empty [choices]. *)
Definition random_choice (host : Host) (choices : string) : M ascii :=
  fun w =>
    let i := Nat.modulo (random_index host (trace w)) (String.length choices) in
    (Ret (default "a"%char (String.get i choices)), record ERandom w).

Definition PER_DEVICE_CACHE_get (device : Device) : M (option DeviceCache) :=
  fun w => (Ret (PerDeviceCache.get (per_device w) device), w).

Definition PER_DEVICE_CACHE_set (device : Device) (cache : DeviceCache)
  : M unit :=
  fun w => (Ret tt, {| trace := trace w;
                       per_device := PerDeviceCache.set (per_device w) device cache |}).

Definition PER_DEVICE_CACHE_trim (devices : list HighDevice) : M unit :=
  fun w => (Ret tt, {| trace := trace w;
                       per_device := PerDeviceCache.trim (per_device w) devices |}).

(** Truth values of the Python objects that occur. *)
Definition truthy_str (o : option string) : bool :=
  match o with
  | Some (String _ _) => true
  | _ => false
  end.

Definition truthy_int (o : option Z) : bool :=
  match o with
  | Some n => negb (n =? 0)
  | None => false
  end.

Definition truthy_freqs (f : frequencies) : bool :=
  match f with
  | FreqList (_ :: _) => true
  | _ => false
  end.

Definition truthy_list {A : Type} (l : list A) : bool :=
  match l with
  | [] => false
  | _ :: _ => true
  end.

Definition NL : string := String Py.LF EmptyString.

(** ** _InitCache *)

(** The loop over [out.splitlines()] filling [properties].  The lines
    are [str] and the first test of a turn, [line.startswith(u'#')], has a
    [unicode] argument: it decodes the line as ascii and so raises
    UnicodeDecodeError on a line with a byte above 127, be it a comment.
    [None] stands for that exception, which is a ValueError, and for the
    ValueError of unpacking a line without ['='].  On an ascii line
    [line.split(u'=', 1)] gives the same characters as [unicode]. *)
Fixpoint parse_build_prop (lines : list string)
    (properties : gmap string string) : option (gmap string string) :=
  match lines with
  | [] => Some properties
  | line :: rest =>
      if negb (Py.is_ascii line) then None
      else if Py.startswith line "#" || String.eqb line "" then
        parse_build_prop rest properties
      else if Py.startswith line "import " then
        parse_build_prop rest properties
      else
        match Py.split_once "=" line with
        | Some (key, value) => parse_build_prop rest (<[key := value]> properties)
        | None => None
        end
  end.

(** [int(i) for i in l], stopping at the first ValueError. *)
Fixpoint ints (l : list string) : option (list Z) :=
  match l with
  | [] => Some []
  | i :: rest =>
      match Py.int i with
      | Some n => option_map (cons n) (ints rest)
      | None => None
      end
  end.

(** [all(i is not None for i in cache._asdict().itervalues())] *)
Definition all_not_None (cache : DeviceCache) : bool :=
  match build_props cache, external_storage_path cache,
        available_frequencies cache with
  | Some _, Some _, FreqEmptyStr => true
  | Some _, Some _, FreqList _ => true
  | _, _, _ => false
  end.

Definition cpufreq : string := "/sys/devices/system/cpu/cpu0/cpufreq/".

Definition _InitCache (device : Device) : M DeviceCache :=
  let* cache := PER_DEVICE_CACHE_get device in
  match cache with
  | Some cache => ret cache
  | None =>
      let* (external_storage_path, exitcode) :=
        dev_Shell device "echo -n $EXTERNAL_STORAGE" in
      let external_storage_path :=
        if truthy_int exitcode then None else external_storage_path in
      let* out := dev_PullContent device "/system/build.prop" in
      let* properties :=
        match out with
        | Some (String _ _ as out) =>
            let* properties :=
              from_option ValueError (parse_build_prop (Py.splitlines out) ∅) in
            ret (Some properties)
        | _ => ret None
        end in
      let* (mode, _, _) := dev_Stat device "/system/xbin/su" in
      let has_su := truthy_int mode in
      let* out :=
        dev_PullContent device (cpufreq +:+ "scaling_available_governors") in
      let* available_governors :=
        match out with
        | Some (String _ _ as out) =>
            let available_governors := Py.sorted_str (Py.split out) in
            assert (forallb
                      (fun g => Py.in_str g KNOWN_CPU_SCALING_GOVERNOR_VALUES)
                      available_governors);;
            ret available_governors
        | _ => ret KNOWN_CPU_SCALING_GOVERNOR_VALUES
        end in
      let* available_frequencies :=
        dev_PullContent device (cpufreq +:+ "scaling_available_frequencies") in
      let* available_frequencies :=
        match available_frequencies with
        | Some (String _ _ as s) =>
            let* l := from_option ValueError (ints (Py.split (Py.strip s))) in
            ret (FreqList (Py.sorted_int l))
        | _ =>
            let* cpuinfo_min_freq :=
              dev_PullContent device (cpufreq +:+ "cpuinfo_min_freq") in
            let* cpuinfo_max_freq :=
              dev_PullContent device (cpufreq +:+ "cpuinfo_max_freq") in
            match cpuinfo_min_freq, cpuinfo_max_freq with
            | Some (String _ _ as lo), Some (String _ _ as hi) =>
                let* lo := from_option ValueError (Py.int lo) in
                let* hi := from_option ValueError (Py.int hi) in
                ret (FreqList [lo; hi])
            | _, _ =>
                ret (match available_frequencies with
                     | Some _ => FreqEmptyStr
                     | None => FreqNone
                     end)
            end
        end in
      let cache :=
        {| build_props := properties;
           external_storage_path := external_storage_path;
           has_su := has_su;
           available_frequencies := available_frequencies;
           available_governors := available_governors |} in
      (if all_not_None cache then PER_DEVICE_CACHE_set device cache else ret tt);;
      ret cache
  end.

(** ** HighDevice *)

(** What [HighDevice.Shell] returns: the tuple of the device, or the
    [False] of a [WrappedShell] that could not allocate its files. *)
Inductive shell_result : Type :=
| ShFalse
| ShTuple (out : option string) (exit_code : option Z).

(** [a, b = r] *)
Definition unpack (r : shell_result) : M (option string * option Z) :=
  match r with
  | ShTuple out exit_code => ret (out, exit_code)
  | ShFalse => raise TypeError
  end.

(** [exit_code != 0] *)
Definition nonzero (exit_code : option Z) : bool :=
  match exit_code with
  | Some 0 => false
  | _ => true
  end.

(** [(now - start) > timeout] *)
Definition elapsed (now start timeout : Q) : bool :=
  negb (Qle_bool (now - start) timeout).

Section HighDevice.

Variable host : Host.
Variable self : HighDevice.

Definition PullContent (path : string) : M (option string) :=
  dev_PullContent (_device self) path.

Definition PushContent (content path : string) : M bool :=
  dev_PushContent (_device self) content path.

Definition Stat (dest : string) : M (option Z * option Z * option Z) :=
  dev_Stat (_device self) dest.

(** [''.join(random.choice(choices) for _ in xrange(n))] *)
Fixpoint random_chars (n : nat) : M string :=
  match n with
  | O => ret EmptyString
  | S n' =>
      let* c := random_choice host Py.ascii_letters_digits in
      let* s := random_chars n' in
      ret (String c s)
  end.

(** The [for _ in xrange(attempts)] loop of Mkstemp; falling off the
    loop returns None. *)
Fixpoint Mkstemp_loop (attempts : nat) (content prefix suffix : string)
  : M (option string) :=
  match attempts with
  | O => ret None
  | S n =>
      let* r := random_chars 5 in
      let name := "/data/local/tmp/" +:+ prefix +:+ r +:+ suffix in
      let* (mode, _, _) := Stat name in
      if truthy_int mode then Mkstemp_loop n content prefix suffix
      else
        let* pushed := PushContent content name in
        if pushed then ret (Some name)
        else Mkstemp_loop n content prefix suffix
  end.

Definition Mkstemp (content prefix suffix : string) : M (option string) :=
  Mkstemp_loop 5 content prefix suffix.

(** [WrappedShell], with the [self.Shell] it calls as a parameter. *)
Definition WrappedShell_with (Shell : string -> M shell_result)
    (commands : list string) : M shell_result :=
  let content := String.concat "" (List.map (fun l => l +:+ NL) commands) in
  let* script := Mkstemp content "python-adb" ".sh" in
  match script with
  | Some (String _ _ as script) =>
      try_finally
        (let* outfile := Mkstemp "" "python-adb" ".txt" in
         match outfile with
         | Some (String _ _ as outfile) =>
             try_finally
               (let* r := Shell ("sh " +:+ script +:+ " &> " +:+ outfile) in
                let* (_, exit_code) := unpack r in
                let* out := PullContent outfile in
                ret (ShTuple out exit_code))
               (Shell ("rm " +:+ outfile);; ret tt)
         | _ => ret ShFalse
         end)
        (Shell ("rm " +:+ script);; ret tt)
  | _ => ret ShFalse
  end.

(** [Shell] and [WrappedShell] call each other; the fuel bounds the
    nesting. *)
Fixpoint Shell (fuel : nat) (cmd : string) : M shell_result :=
  match fuel with
  | O => out_of_fuel
  | S n =>
      if IsShellOk (_device self) cmd then
        let* (out, exit_code) := dev_Shell (_device self) cmd in
        ret (ShTuple out exit_code)
      else WrappedShell_with (Shell n) [cmd]
  end.

Definition WrappedShell (fuel : nat) (commands : list string)
  : M shell_result :=
  WrappedShell_with (Shell fuel) commands.

Definition GetProp_with (Shell : string -> M shell_result) (prop : string)
  : M (option string) :=
  let* r := Shell ("getprop " +:+ Py.quote prop) in
  let* (out, exit_code) := unpack r in
  if nonzero exit_code then ret None
  else
    let* out := from_option AttributeError out in
    ret (Some (Py.rstrip out)).

Definition GetProp (fuel : nat) (prop : string) : M (option string) :=
  GetProp_with (Shell fuel) prop.

(** [self.cache.available_frequencies[0]] *)
Definition first_frequency : M Z :=
  match available_frequencies (cache self) with
  | FreqNone => raise TypeError
  | FreqEmptyStr => raise IndexError
  | FreqList [] => raise IndexError
  | FreqList (f :: _) => ret f
  end.

Definition scaling_governor : string := cpufreq +:+ "scaling_governor".
Definition scaling_setspeed : string := cpufreq +:+ "scaling_setspeed".

(** [SetCPUScalingGovernor], with the [self.Shell] and the
    [self.SetCPUSpeed] it calls as parameters.  [inl] is a value returned
    before the write, [inr] the governor to write. *)
Definition SetCPUScalingGovernor_with (Shell : string -> M shell_result)
    (SetCPUSpeed : Z -> M bool) (governor : string) : M bool :=
  assert (Py.in_str governor KNOWN_CPU_SCALING_GOVERNOR_VALUES);;
  if negb (truthy_list (available_governors (cache self))) then ret false
  else
    let* target :=
      if negb (Py.in_str governor (available_governors (cache self))) then
        if String.eqb governor "powersave" then
          let* speed := first_frequency in
          let* r := SetCPUSpeed speed in
          ret (inl r)
        else if String.eqb governor "ondemand" then ret (inr "interactive")
        else if String.eqb governor "interactive" then ret (inr "ondemand")
        else
          log WARNING "%s.SetCPUScalingGovernor(): Can't switch to %s";;
          ret (inl false)
      else ret (inr governor) in
    match target with
    | inl r => ret r
    | inr governor =>
        assert (Py.in_str governor KNOWN_CPU_SCALING_GOVERNOR_VALUES);;
        let path := scaling_governor in
        let* prev := PullContent path in
        let* unchanged :=
          match prev with
          | Some (String _ _ as prev) =>
              let prev := Py.strip prev in
              if String.eqb prev governor then ret true
              else
                (if negb (Py.in_str prev (available_governors (cache self)))
                 then log WARNING
                        "%s.SetCPUScalingGovernor(): Read invalid scaling_governor: %s"
                 else ret tt);;
                ret false
          | _ =>
              log WARNING "%s.SetCPUScalingGovernor(): Failed to read %s";;
              ret false
          end in
        if unchanged then ret true
        else
          let* pushed := PushContent (governor +:+ NL) path in
          let* written :=
            if negb pushed then
              log INFO "%s.SetCPUScalingGovernor(): Failed to push %s in %s";;
              let* r :=
                Shell ("echo " +:+ Py.DQUOTE +:+ governor +:+ Py.DQUOTE
                       +:+ " > " +:+ path) in
              let* (_, exit_code) := unpack r in
              if nonzero exit_code then
                log WARNING
                  "%s.SetCPUScalingGovernor(): Writing %s failed; was %s";;
                ret false
              else ret true
            else ret true in
          if negb written then ret false
          else
            let* newval := PullContent path in
            if negb (String.eqb (Py.strip (default "" newval)) governor) then
              log WARNING
                "%s.SetCPUScalingGovernor(): Wrote %s; was %s; got %s";;
              ret false
            else ret true
    end.

(** [SetCPUSpeed], with the [self.SetCPUScalingGovernor] it calls as a
    parameter.  [speed] is an integer, so [isinstance(speed, int)] holds. *)
Definition SetCPUSpeed_with (SetCPUScalingGovernor : string -> M bool)
    (speed : Z) : M bool :=
  assert ((10000 <=? speed) && (speed <=? 10000000));;
  match available_frequencies (cache self) with
  | FreqList ((_ :: _) as frequencies) =>
      assert (Py.in_int speed frequencies);;
      let* success := SetCPUScalingGovernor "userspace" in
      let* pushed := PushContent (Py.str speed +:+ NL) scaling_setspeed in
      if negb pushed then ret false
      else
        let* val := PullContent scaling_setspeed in
        ret (success && String.eqb (Py.strip (default "" val)) (Py.str speed))
  | _ => ret false
  end.

(** The two methods call each other; the fuel bounds the nesting (and
    that of [Shell]). *)
Fixpoint SetCPUScalingGovernor (fuel : nat) (governor : string) : M bool :=
  match fuel with
  | O => out_of_fuel
  | S n =>
      SetCPUScalingGovernor_with (Shell n)
        (SetCPUSpeed_with (SetCPUScalingGovernor n)) governor
  end.

Definition SetCPUSpeed (fuel : nat) (speed : Z) : M bool :=
  SetCPUSpeed_with (SetCPUScalingGovernor fuel) speed.

(** The [while True] loop of WaitForDevice, one unit of fuel per turn. *)
Fixpoint WaitForDevice_loop (fuel : nat) (start timeout : Q) (path : string)
  : M bool :=
  match fuel with
  | O => out_of_fuel
  | S n =>
      let* now := time_time host in
      if elapsed now start timeout then
        log WARNING "%s.WaitForDevice() failed";;
        ret false
      else
        let* (mode, _, _) := Stat path in
        match mode with
        | Some _ => ret true
        | None => time_sleep;; WaitForDevice_loop n start timeout path
        end
  end.

Definition WaitForDevice (fuel : nat) (timeout : Q) : M bool :=
  match external_storage_path (cache self) with
  | Some (String _ _ as path) =>
      let* start := time_time host in
      WaitForDevice_loop fuel start timeout path
  | _ => ret false
  end.

(** The loop on [init.svc.bootanim]: [true] for the [break], [false] for
    the [return False]. *)
Fixpoint bootanim_loop (Shell : string -> M shell_result) (fuel : nat)
    (start timeout : Q) : M bool :=
  match fuel with
  | O => out_of_fuel
  | S n =>
      let* now := time_time host in
      if elapsed now start timeout then
        GetProp_with Shell "init.svc.bootanim";;
        log WARNING
          "%s.WaitUntilFullyBooted() didn't get init.svc.bootanim in time: %r";;
        ret false
      else
        let* v := GetProp_with Shell "init.svc.bootanim" in
        match v with
        | Some v' =>
            if String.eqb v' "stopped" then ret true
            else time_sleep;; bootanim_loop Shell n start timeout
        | None => time_sleep;; bootanim_loop Shell n start timeout
        end
  end.

(** The loop on [pm path], with the same convention. *)
Fixpoint package_manager_loop (Shell : string -> M shell_result) (fuel : nat)
    (start timeout : Q) : M bool :=
  match fuel with
  | O => out_of_fuel
  | S n =>
      let* now := time_time host in
      if elapsed now start timeout then
        log WARNING
          "%s.WaitUntilFullyBooted() didn't get Package Manager running in time";;
        ret false
      else
        let* r := Shell "pm path" in
        let* (out, _) := unpack r in
        if bool_decide (out = Some ("Error: no package specified" +:+ NL))
        then ret true
        else
          assert (bool_decide
                    (out = Some ("Error: Could not access the Package Manager.  Is the system running?"
                                 +:+ NL)));;
          time_sleep;;
          package_manager_loop Shell n start timeout
  end.

Definition WaitUntilFullyBooted (fuel : nat) (timeout : Q) : M bool :=
  let* start := time_time host in
  let* responsive := WaitForDevice fuel timeout in
  if negb responsive then ret false
  else
    let* stopped := bootanim_loop (Shell fuel) fuel start timeout in
    if negb stopped then ret false
    else
      let* up := package_manager_loop (Shell fuel) fuel start timeout in
      if negb up then ret false
      else ret true.

End HighDevice.

(** ** Definitions used to state the properties *)

(** A line the record pattern accepts. *)
Definition parcel_line (line : string) : Prop :=
  Re.match_ parcel_pattern line <> None.

(** The four 8-character columns of a record line, left to right: they
    start after the 14-character offset prefix and are one space apart. *)
Definition columns (line : string) : list string :=
  [ substring 14 8 line; substring 23 8 line;
    substring 32 8 line; substring 41 8 line ].

(** A half is emitted unless it is four spaces. *)
Definition nonblank (half : string) : list string :=
  if String.eqb half "    " then [] else [half].

(** Low half (characters 4..7) first, then high half (characters 0..3). *)
Definition column_units (column : string) : list string :=
  nonblank (substring 4 4 column) ++ nonblank (substring 0 4 column).

Definition line_units (line : string) : list string :=
  flat_map column_units (columns line).

(** The live device that [trim] looks at for a port path: the last one
    listed with that path. *)
Definition corresponding (devices : list HighDevice) (port_path : string)
  : option HighDevice :=
  last (List.filter (fun d => String.eqb (hd_port_path d) port_path) devices).

(** What [trim] decides for one key of the cache. *)
Definition stale (device_keys : gmap string HighDevice) (port_path : string)
  : bool :=
  match device_keys !! port_path with
  | Some dev => negb (hd_is_valid dev)
  | None => true
  end.

(** Sample lines of a [service call] answer. *)
Definition parcel_line_0 : string :=
  "  0x00000000: 00000000 0000000f 00350033 00320038 '........3.5.8.2.'".

Definition parcel_line_2 : string :=
  "  0x00000020: 00340035 00000034                   '5.4.4...        ')".

(** [speed] is a member of the cached supported-frequency list. *)
Definition supported (c : DeviceCache) (speed : Z) : Prop :=
  match available_frequencies c with
  | FreqList l => In speed l
  | _ => False
  end.

(** *** Sample devices, hosts and caches

    A device whose answers do not depend on the history. *)
Definition sample_device (path : string) (valid : bool)
    (shell : string -> option string * option Z)
    (pull : string -> option string) (mode : option Z) : Device :=
  {| port_path := path;
     is_valid := valid;
     IsShellOk := fun _ => true;
     Shell_answer := fun _ cmd => shell cmd;
     PullContent_answer := fun _ file => pull file;
     PushContent_answer := fun _ _ _ => true;
     Stat_answer := fun _ _ => (mode, None, None) |}.

(** The clock advances by one second per recorded call; the random
    generator walks through the alphabet. *)
Definition sample_host : Host :=
  {| clock := fun h => inject_Z (Z.of_nat (List.length h));
     random_index := fun h => List.length h |}.

Definition sample_cache (freqs : frequencies) (governors : list string)
  : DeviceCache :=
  {| build_props := Some ∅;
     external_storage_path := Some "/sdcard";
     has_su := false;
     available_frequencies := freqs;
     available_governors := governors |}.

Definition empty_world : World := {| trace := []; per_device := ∅ |}.

Definition shell_ok (cmd : string) : option string * option Z :=
  (Some "/sdcard", Some 0).

Definition no_file (file : string) : option string := None.

(** A Nexus-like device with two frequencies and no powersave governor. *)
Definition nexus : HighDevice :=
  {| _device := sample_device "1/2" true shell_ok
                  (fun file =>
                     if String.eqb file (cpufreq +:+ "scaling_governor")
                     then Some ("interactive" +:+ NL) else None)
                  None;
     _cache := sample_cache (FreqList [300000; 1000000])
                 ["interactive"; "performance"; "userspace"] |}.

(** The same device with an empty governor list, as cached when
    scaling_available_governors holds only a newline. *)
Definition no_governors : HighDevice :=
  {| _device := _device nexus;
     _cache := sample_cache (FreqList [300000; 1000000]) [] |}.

Definition unplugged : HighDevice :=
  {| _device := sample_device "1/3" false shell_ok no_file None;
     _cache := sample_cache FreqNone KNOWN_CPU_SCALING_GOVERNOR_VALUES |}.

(** The commands given to [device.Shell] in a history, most recent first. *)
Definition shell_calls (h : history) : list string :=
  flat_map (fun e => match e with EShell cmd => [cmd] | _ => [] end) h.

(** The remove commands among them. *)
Definition rm_calls (h : history) : list string :=
  List.filter (fun cmd => Py.startswith cmd "rm ") (shell_calls h).

(** A device on which every script fails with exit code 1, and no file
    exists yet. *)
Definition failing_scripts : HighDevice :=
  {| _device := sample_device "1/4" true (fun _ => (Some "", Some 1))
                  (fun _ => Some "sh: not found") None;
     _cache := sample_cache FreqNone KNOWN_CPU_SCALING_GOVERNOR_VALUES |}.

(** One turn of the WaitForDevice loop in which Stat does not succeed:
    the clock is read, Stat is called, the loop sleeps. *)
Definition WaitForDevice_turn (path : string) (h : history) : history :=
  ESleep :: EStat path :: ETime :: h.

(** The calls of the first phase of WaitUntilFullyBooted. *)
Definition responsive_phase_event (path : string) (e : event) : Prop :=
  e = ETime \/ e = EStat path \/ e = ESleep
  \/ e = ELog WARNING "%s.WaitForDevice() failed".

(** A device whose cache has no external storage path. *)
Definition no_storage : HighDevice :=
  {| _device := _device nexus;
     _cache := {| build_props := Some ∅;
                  external_storage_path := None;
                  has_su := false;
                  available_frequencies := FreqNone;
                  available_governors := KNOWN_CPU_SCALING_GOVERNOR_VALUES |} |}.

(** A computation only adds calls to the history. *)
Definition extends {A : Type} (m : M A) : Prop :=
  forall w, trace w `suffix_of` trace (snd (m w)).

(** The history when [_InitCache] reads scaling_available_governors, and
    what the device answers then. *)
Definition history_before_governors (h : history) : history :=
  EStat "/system/xbin/su" :: EPullContent "/system/build.prop"
  :: EShell "echo -n $EXTERNAL_STORAGE" :: h.

Definition reported_governors (device : Device) (w : World) : option string :=
  PullContent_answer device (history_before_governors (trace w))
    (cpufreq +:+ "scaling_available_governors").

(** What the device answers when [_InitCache] reads /system/build.prop,
    and whether the loop over its lines runs through. *)
Definition reported_build_prop (device : Device) (w : World) : option string :=
  PullContent_answer device
    (EShell "echo -n $EXTERNAL_STORAGE" :: trace w) "/system/build.prop".

Definition build_prop_well_formed (out : option string) : Prop :=
  match out with
  | Some (String _ _ as out) =>
      parse_build_prop (Py.splitlines out) ∅ <> None
  | _ => True
  end.

(** [wp m Q w]: the run of [m] from [w] ends in an outcome and a world
    that satisfy [Q]. *)
Definition wp {A : Type} (m : M A) (Q : outcome A -> World -> Prop)
    (w : World) : Prop :=
  Q (fst (m w)) (snd (m w)).

(** No field of the snapshot is None.  [has_su] is a bool and
    [available_governors] a list: they never are. *)
Definition complete (cache : DeviceCache) : Prop :=
  build_props cache <> None
  /\ external_storage_path cache <> None
  /\ available_frequencies cache <> FreqNone.

(** A device with complete information. *)
Definition pixel_files (file : string) : option string :=
  if String.eqb file "/system/build.prop" then
    Some ("# begin build properties" +:+ NL +:+ "ro.build.id=LMY48I" +:+ NL
          +:+ NL +:+ "import /oem/oem.prop" +:+ NL
          +:+ "ro.build.description=a=b" +:+ NL)
  else if String.eqb file (cpufreq +:+ "scaling_available_governors") then
    Some ("interactive ondemand userspace performance " +:+ NL)
  else if String.eqb file (cpufreq +:+ "scaling_available_frequencies") then
    Some ("1000000 300000 " +:+ NL)
  else None.

Definition pixel : Device :=
  sample_device "2/1" true shell_ok pixel_files (Some 33261).

(** A device without the governor and frequency files, only the minimum
    and maximum frequency. *)
Definition old_kernel_files (file : string) : option string :=
  if String.eqb file "/system/build.prop" then Some ("ro.build.id=JDQ39" +:+ NL)
  else if String.eqb file (cpufreq +:+ "cpuinfo_min_freq") then
    Some ("384000" +:+ NL)
  else if String.eqb file (cpufreq +:+ "cpuinfo_max_freq") then
    Some ("1512000" +:+ NL)
  else None.

Definition old_kernel : Device :=
  sample_device "2/2" true shell_ok old_kernel_files None.

(** A device of a build whose kernel has a governor outside the known
    list. *)
Definition custom_rom_files (file : string) : option string :=
  if String.eqb file (cpufreq +:+ "scaling_available_governors") then
    Some ("interactive schedutil performance" +:+ NL)
  else pixel_files file.

Definition custom_rom : Device :=
  sample_device "2/3" true shell_ok custom_rom_files None.

(** The Nexus-like device, currently on interactive, with a cached list
    that lacks interactive. *)
Definition narrow_cache : HighDevice :=
  {| _device := _device nexus;
     _cache := sample_cache FreqNone ["performance"; "userspace"] |}.

(** ** HighDevice: package list readers and key installation *)

(** [l.split(' ', 2)[1]]; [None] stands for IndexError. *)
Definition second_field (l : string) : option string :=
  match Py.split_once " " l with
  | None => None
  | Some (_, rest) =>
      match Py.split_once " " rest with
      | Some (field, _) => Some field
      | None => Some rest
      end
  end.

(** [int(l.split(' ', 2)[1]) for l in lines if len(l) > 2], up to the
    first exception. *)
Fixpoint uids (lines : list string) : exn + list Z :=
  match lines with
  | [] => inr []
  | l :: rest =>
      if Nat.ltb 2 (String.length l) then
        match second_field l with
        | None => inl IndexError
        | Some field =>
            match Py.int field with
            | None => inl ValueError
            | Some n =>
                match uids rest with
                | inl e => inl e
                | inr ns => inr (n :: ns)
                end
            end
        end
      else uids rest
  end.

(** [max(l)]; [None] stands for the ValueError of an empty sequence. *)
Definition py_max (l : list Z) : option Z :=
  match l with
  | [] => None
  | n :: ns => Some (fold_left Z.max ns n)
  end.

(** ['\n' in k] *)
Fixpoint has_newline (k : string) : bool :=
  match k with
  | EmptyString => false
  | String c k' => Ascii.eqb c Py.LF || has_newline k'
  end.

(** [''.join(k + '\n' for k in keys)] *)
Definition key_lines (keys : list string) : string :=
  String.concat "" (List.map (fun k => k +:+ NL) keys).

(** [r[1]] *)
Definition exit_code_of (r : shell_result) : M (option Z) :=
  match r with
  | ShTuple _ exit_code => ret exit_code
  | ShFalse => raise TypeError
  end.

Definition adb_keys : string := "/data/misc/adb/adb_keys".

Section HighDeviceKeys.

Variable host : Host.
Variable self : HighDevice.

Definition GetLastUID : M (option Z) :=
  let* out := PullContent self "/data/system/packages.list" in
  match out with
  | Some (String _ _ as out) =>
      match uids (Py.splitlines out) with
      | inl e => raise e
      | inr ns =>
          let* m := from_option ValueError (py_max ns) in
          ret (Some m)
      end
  | _ => ret None
  end.

(** [PushKeys]; [public_keys] is [self._device.public_keys].  [inl] is
    the value returned before any write, [inr] the set of keys to write. *)
Definition PushKeys (fuel : nat) (public_keys : list string) : M bool :=
  let keys : gset string := list_to_set public_keys in
  let* old_content := PullContent self adb_keys in
  let* keys :=
    match old_content with
    | Some (String _ _ as old_content) =>
        let old_keys : gset string :=
          list_to_set (Py.splitlines (Py.strip old_content)) in
        if decide (keys ⊆ old_keys) then ret (inl true)
        else ret (inr (keys ∪ old_keys))
    | _ => ret (inr keys)
    end in
  match keys with
  | inl r => ret r
  | inr keys =>
      assert (forallb (fun k => negb (has_newline k)) (elements keys));;
      let* r := Shell host self fuel "mkdir -p /data/misc/adb" in
      let* exit_code := exit_code_of r in
      if nonzero exit_code then ret false
      else
        let* r := Shell host self fuel "restorecon /data/misc/adb" in
        let* exit_code := exit_code_of r in
        if nonzero exit_code then ret false
        else
          let* pushed :=
            PushContent self (key_lines (Py.sorted_str (elements keys)))
              adb_keys in
          if negb pushed then ret false
          else
            let* r :=
              Shell host self fuel "restorecon /data/misc/adb/adb_keys" in
            let* exit_code := exit_code_of r in
            if nonzero exit_code then ret false
            else ret true
  end.

End HighDeviceKeys.

(** *** More samples *)

(** A device that already trusts two keys. *)
Definition trusting : HighDevice :=
  {| _device := sample_device "3/1" true shell_ok
                  (fun file =>
                     if String.eqb file adb_keys
                     then Some ("key-b host" +:+ NL +:+ "key-a host" +:+ NL)
                     else if String.eqb file "/data/system/packages.list"
                     then Some ("com.a 10001 0 /data/data/com.a" +:+ NL
                                +:+ "x" +:+ NL
                                +:+ "com.b 10057 1 /data/data/com.b" +:+ NL
                                +:+ "com.c 10012" +:+ NL)
                     else None)
                  None;
     _cache := sample_cache FreqNone KNOWN_CPU_SCALING_GOVERNOR_VALUES |}.

(** A decoded unit: four characters of [[0-9a-f ]], not four spaces. *)
Definition code_unit (u : string) : Prop :=
  String.length u = 4%nat
  /\ Py.all_chars Re.hex_or_space u = true
  /\ u <> "    ".

(** The history when [_InitCache] reads scaling_available_frequencies,
    and what the device answers then. *)
Definition reported_frequencies (device : Device) (w : World) : option string :=
  PullContent_answer device
    (EPullContent (cpufreq +:+ "scaling_available_governors")
     :: history_before_governors (trace w))
    (cpufreq +:+ "scaling_available_frequencies").

(** What the device answers when [_InitCache], having found no frequency
    list, reads cpuinfo_min_freq and then cpuinfo_max_freq. *)
Definition reported_min_freq (device : Device) (w : World) : option string :=
  PullContent_answer device
    (EPullContent (cpufreq +:+ "scaling_available_frequencies")
     :: EPullContent (cpufreq +:+ "scaling_available_governors")
     :: history_before_governors (trace w))
    (cpufreq +:+ "cpuinfo_min_freq").

Definition reported_max_freq (device : Device) (w : World) : option string :=
  PullContent_answer device
    (EPullContent (cpufreq +:+ "cpuinfo_min_freq")
     :: EPullContent (cpufreq +:+ "scaling_available_frequencies")
     :: EPullContent (cpufreq +:+ "scaling_available_governors")
     :: history_before_governors (trace w))
    (cpufreq +:+ "cpuinfo_max_freq").

(** The frequency texts that [_InitCache] hands to [int] are numbers: the
    words of the frequency list when there is one, else the minimum and
    the maximum when both are there. *)
Definition frequencies_well_formed (device : Device) (w : World) : Prop :=
  match reported_frequencies device w with
  | Some (String _ _ as s) => ints (Py.split (Py.strip s)) <> None
  | _ =>
      match reported_min_freq device w, reported_max_freq device w with
      | Some (String _ _ as lo), Some (String _ _ as hi) =>
          Py.int lo <> None /\ Py.int hi <> None
      | _, _ => True
      end
  end.

(** The mode that [device.Stat('/system/xbin/su')] gives [_InitCache];
    None when the call failed. *)
Definition reported_su_mode (device : Device) (w : World) : option Z :=
  fst (fst (Stat_answer device
              (EPullContent "/system/build.prop"
               :: EShell "echo -n $EXTERNAL_STORAGE" :: trace w)
              "/system/xbin/su")).

(** A device like [pixel] whose governor file cannot be read. *)
Definition no_governor_file : Device :=
  sample_device "2/5" true shell_ok
    (fun file =>
       if String.eqb file (cpufreq +:+ "scaling_available_governors")
       then None
       else pixel_files file)
    (Some 33261).

(** A line of build.prop that the loop of [_InitCache] does not skip:
    not empty, not a comment, not an import. *)
Definition property_line (line : string) : bool :=
  negb (Py.startswith line "#" || String.eqb line "")
  && negb (Py.startswith line "import ").

(** [sep not in s] *)
Definition lacks (sep : ascii) (s : string) : bool :=
  Py.all_chars (fun c => negb (Ascii.eqb c sep)) s.

(** A line the loop does not skip and cannot unpack. *)
Definition malformed_line (line : string) : bool :=
  property_line line && lacks "=" line.

(** Counting the calls of one kind in a history. *)
Definition is_stat (e : event) : bool :=
  match e with EStat _ => true | _ => false end.

Definition is_push (e : event) : bool :=
  match e with EPushContent _ _ => true | _ => false end.

Definition is_random (e : event) : bool :=
  match e with ERandom => true | _ => false end.

Definition count (p : event -> bool) (h : history) : nat :=
  List.length (List.filter p h).

(** A device on which build.prop has a line without ['=']. *)
Definition broken_prop : Device :=
  sample_device "2/4" true shell_ok
    (fun file =>
       if String.eqb file "/system/build.prop"
       then Some ("ro.build.id=LMY48I" +:+ NL +:+ "nonsense" +:+ NL)
       else None)
    None.

(** The governor that [SetCPUScalingGovernor] writes for a request:
    the request itself when the device has it, else the other one of
    ondemand and interactive. *)
Definition written_governor (c : DeviceCache) (governor : string) : string :=
  if Py.in_str governor (available_governors c) then governor
  else if String.eqb governor "ondemand" then "interactive"
  else if String.eqb governor "interactive" then "ondemand"
  else governor.

(** The content last pushed to [path] in a history. *)
Fixpoint last_pushed (h : history) (path : string) : option string :=
  match h with
  | [] => None
  | EPushContent content p :: h' =>
      if String.eqb p path then Some content else last_pushed h' path
  | _ :: h' => last_pushed h' path
  end.

(** A device that keeps what is pushed to it: a read returns the last
    content pushed to the path. *)
Definition writable : HighDevice :=
  {| _device :=
       {| port_path := "4/1";
          is_valid := true;
          IsShellOk := fun _ => true;
          Shell_answer := fun _ _ => (Some "", Some 0);
          PullContent_answer := last_pushed;
          PushContent_answer := fun _ _ _ => true;
          Stat_answer := fun _ _ => (Some 16877, None, None) |};
     _cache := sample_cache (FreqList [300000; 1000000])
                 ["interactive"; "performance"; "userspace"] |}.

(** The two answers of [pm path] that WaitUntilFullyBooted knows. *)
Definition pm_up : string := "Error: no package specified" +:+ NL.

(** A booted device: Stat succeeds, the boot animation has stopped and
    the package manager answers. *)
Definition booted : HighDevice :=
  {| _device :=
       sample_device "4/2" true
         (fun cmd =>
            if String.eqb cmd "pm path" then (Some pm_up, Some 1)
            else (Some ("stopped" +:+ NL), Some 0))
         no_file (Some 16877);
     _cache := sample_cache FreqNone KNOWN_CPU_SCALING_GOVERNOR_VALUES |}.

(** The keys already in the adb_keys file, as [PushKeys] reads them. *)
Definition trusted_keys (old_content : option string) : list string :=
  match old_content with
  | Some (String _ _ as old_content) => Py.splitlines (Py.strip old_content)
  | _ => []
  end.

(** ** _ParcelToList: proofs *)

Lemma append_cons c a b : String c a +:+ b = String c (a +:+ b).
Proof. reflexivity. Qed.

Lemma append_nil b : "" +:+ b = b.
Proof. reflexivity. Qed.

Lemma take_lit_app lit s rest :
  Re.take_lit lit s = Some rest -> s = lit +:+ rest.
Proof.
  revert s; induction lit as [|a lit IH]; intros s H; simpl in H.
  - destruct s; inversion H; reflexivity.
  - destruct s as [|c s]; [discriminate|].
    destruct (Ascii.eqb_spec a c); [|discriminate].
    subst; rewrite append_cons, (IH _ H); reflexivity.
Qed.

Lemma take_class_app cls n s got rest :
  Re.take_class cls n s = Some (got, rest) ->
  s = got +:+ rest /\ String.length got = n.
Proof.
  revert s got; induction n as [|n IH]; intros s got H; simpl in H.
  - inversion H; subst; auto.
  - destruct s as [|c s]; [discriminate|].
    destruct (cls c); [|discriminate].
    destruct (Re.take_class cls n s) as [[g r]|] eqn:E; [|discriminate].
    inversion H; subst.
    destruct (IH _ _ E) as [-> <-]; auto.
Qed.

Lemma substring_skip a n m s :
  substring (String.length a + n) m (a +:+ s) = substring n m s.
Proof.
  induction a; [reflexivity|].
  rewrite append_cons; simpl; auto.
Qed.

Lemma substring_whole g r : substring 0 (String.length g) (g +:+ r) = g.
Proof.
  induction g.
  - rewrite append_nil; destruct r; reflexivity.
  - rewrite append_cons; simpl; f_equal; auto.
Qed.

Lemma substring_at a g r n m :
  String.length a = n -> String.length g = m ->
  substring n m (a +:+ g +:+ r) = g.
Proof.
  intros <- <-.
  replace (String.length a) with (String.length a + 0)%nat by lia.
  rewrite substring_skip; apply substring_whole.
Qed.

Lemma length_app_str a b :
  String.length (a +:+ b) = (String.length a + String.length b)%nat.
Proof.
  induction a; [reflexivity|].
  rewrite append_cons; simpl; auto.
Qed.

Lemma app_assoc_str a b c : (a +:+ b) +:+ c = a +:+ (b +:+ c).
Proof.
  induction a; [reflexivity|].
  rewrite !append_cons; f_equal; auto.
Qed.

(** The groups the pattern captures are the four fixed columns. *)
Lemma match_groups line groups :
  Re.match_ parcel_pattern line = Some groups -> groups = columns line.
Proof.
  unfold parcel_pattern; cbn [Re.match_].
  destruct (Re.take_lit "  0x" line) as [r0|] eqn:E0; [|discriminate].
  destruct (Re.take_class Re.hex 8 r0) as [[h r1]|] eqn:E1; [|discriminate].
  destruct (Re.take_lit ": " r1) as [r2|] eqn:E2; [|discriminate].
  destruct (Re.take_class Re.hex_or_space 8 r2) as [[g1 r3]|] eqn:E3;
    [|discriminate].
  destruct (Re.take_lit " " r3) as [r4|] eqn:E4; [|discriminate].
  destruct (Re.take_class Re.hex_or_space 8 r4) as [[g2 r5]|] eqn:E5;
    [|discriminate].
  destruct (Re.take_lit " " r5) as [r6|] eqn:E6; [|discriminate].
  destruct (Re.take_class Re.hex_or_space 8 r6) as [[g3 r7]|] eqn:E7;
    [|discriminate].
  destruct (Re.take_lit " " r7) as [r8|] eqn:E8; [|discriminate].
  destruct (Re.take_class Re.hex_or_space 8 r8) as [[g4 r9]|] eqn:E9;
    [|discriminate].
  destruct (Re.take_lit " '" r9) as [r10|] eqn:E10; [|discriminate].
  destruct (Re.take_class Re.dot 16 r10) as [[pv r11]|] eqn:E11;
    [|discriminate].
  destruct (Re.take_lit "'" r11) as [r12|] eqn:E12; [|discriminate].
  intros H.
  assert (Hg : groups = [g1; g2; g3; g4]).
  { destruct (Re.take_lit ")" r12); simpl in H; congruence. }
  subst groups; clear H.
  apply take_lit_app in E0, E2, E4, E6, E8.
  apply take_class_app in E1, E3, E5, E7, E9.
  destruct E1 as [E1 L1], E3 as [E3 L3], E5 as [E5 L5], E7 as [E7 L7],
           E9 as [E9 L9].
  unfold columns.
  assert (P1 : line = ("  0x" +:+ h +:+ ": ") +:+ g1 +:+ r3)
    by (subst; rewrite !app_assoc_str; reflexivity).
  assert (P2 : line = ("  0x" +:+ h +:+ ": " +:+ g1 +:+ " ") +:+ g2 +:+ r5)
    by (subst; rewrite !app_assoc_str; reflexivity).
  assert (P3 : line = ("  0x" +:+ h +:+ ": " +:+ g1 +:+ " " +:+ g2 +:+ " ")
                        +:+ g3 +:+ r7)
    by (subst; rewrite !app_assoc_str; reflexivity).
  assert (P4 : line = ("  0x" +:+ h +:+ ": " +:+ g1 +:+ " " +:+ g2 +:+ " "
                        +:+ g3 +:+ " ") +:+ g4 +:+ r9)
    by (subst; rewrite !app_assoc_str; reflexivity).
  f_equal; [|f_equal; [|f_equal; [|f_equal]]]; symmetry.
  - rewrite P1 at 1; apply substring_at; auto.
    rewrite !length_app_str, L1; reflexivity.
  - rewrite P2 at 1; apply substring_at; auto.
    rewrite !length_app_str, L1, L3; reflexivity.
  - rewrite P3 at 1; apply substring_at; auto.
    rewrite !length_app_str, L1, L3, L5; reflexivity.
  - rewrite P4 at 1; apply substring_at; auto.
    rewrite !length_app_str, L1, L3, L5, L7; reflexivity.
Qed.

Lemma parcel_group_units out group :
  parcel_group out group = out ++ column_units group.
Proof.
  unfold parcel_group, column_units, nonblank, slice; simpl Nat.sub.
  destruct (String.eqb (substring 4 4 group) "    ");
    destruct (String.eqb (substring 0 4 group) "    ");
    simpl; rewrite ?app_nil_r, <- ?app_assoc; reflexivity.
Qed.

Lemma fold_parcel_group groups out :
  fold_left parcel_group groups out = out ++ flat_map column_units groups.
Proof.
  revert out; induction groups as [|g gs IH]; intros out; simpl.
  - rewrite app_nil_r; reflexivity.
  - rewrite IH, parcel_group_units, <- app_assoc; reflexivity.
Qed.

Lemma ParcelToList_loop_cons out line rest :
  _ParcelToList_loop out (line :: rest) =
  match Re.match_ parcel_pattern line with
  | None => out
  | Some groups => _ParcelToList_loop (fold_left parcel_group groups out) rest
  end.
Proof. reflexivity. Qed.

(** Every accepted line adds its units; the first rejected line ends the
    loop, whatever follows it. *)
Lemma ParcelToList_loop_prefix valid rest out :
  Forall parcel_line valid ->
  (rest = [] \/ exists bad later, rest = bad :: later /\ ~ parcel_line bad) ->
  _ParcelToList_loop out (valid ++ rest) = out ++ flat_map line_units valid.
Proof.
  intros Hv Hr; revert out.
  induction Hv as [|line valid Hl Hv IH]; intros out.
  - cbn [app flat_map]; rewrite app_nil_r.
    destruct Hr as [->|(bad & later & -> & Hb)]; [reflexivity|].
    rewrite ParcelToList_loop_cons.
    destruct (Re.match_ parcel_pattern bad) eqn:E; [|reflexivity].
    exfalso; apply Hb; unfold parcel_line; congruence.
  - rewrite <- app_comm_cons, ParcelToList_loop_cons.
    destruct (Re.match_ parcel_pattern line) as [groups|] eqn:E.
    + rewrite IH, fold_parcel_group, (match_groups _ _ E), <- app_assoc.
      reflexivity.
    + exfalso; apply Hl; exact E.
Qed.

(** C5. [_ParcelToList] decodes the lines before the first one the record
    pattern rejects and nothing after it; each decoded line has four
    captured columns, the fixed 8-character fields, and contributes for each
    column, left to right, its low half then its high half, a half of four
    spaces being skipped. *)
Theorem ParcelToList_stops_at_first_mismatch valid bad later :
  Forall parcel_line valid ->
  ~ parcel_line bad ->
  _ParcelToList (valid ++ bad :: later) = flat_map line_units valid
  /\ _ParcelToList valid = flat_map line_units valid
  /\ Forall (fun line => Re.match_ parcel_pattern line = Some (columns line))
            valid.
Proof.
  intros Hv Hb; unfold _ParcelToList; split; [|split].
  - rewrite (ParcelToList_loop_prefix valid (bad :: later) []); eauto.
  - rewrite <- (app_nil_r valid) at 1.
    rewrite (ParcelToList_loop_prefix valid [] []); auto.
  - eapply Forall_impl; [exact Hv|].
    intros line Hl; cbv beta.
    destruct (Re.match_ parcel_pattern line) as [groups|] eqn:E.
    + f_equal; apply (match_groups _ _ E).
    + exfalso; apply Hl; exact E.
Qed.

Example ParcelToList_example :
  _ParcelToList [parcel_line_0; parcel_line_2; "garbage"; parcel_line_0] =
  [ "0000"; "0000"; "000f"; "0000"; "0033"; "0035"; "0038"; "0032";
    "0035"; "0034"; "0034"; "0000" ].
Proof. vm_compute; reflexivity. Qed.

Lemma ParcelToList_stops_at_first_mismatch_witness :
  Forall parcel_line [parcel_line_0; parcel_line_2]
  /\ ~ parcel_line "garbage"
  /\ _ParcelToList ([parcel_line_0; parcel_line_2] ++ "garbage" :: [parcel_line_0])
     = flat_map line_units [parcel_line_0; parcel_line_2].
Proof.
  assert (Hv : Forall parcel_line [parcel_line_0; parcel_line_2])
    by (repeat constructor; vm_compute; discriminate).
  assert (Hb : ~ parcel_line "garbage")
    by (intros H; apply H; vm_compute; reflexivity).
  split; [exact Hv|split; [exact Hb|]].
  exact (proj1 (ParcelToList_stops_at_first_mismatch
                  [parcel_line_0; parcel_line_2] "garbage" [parcel_line_0]
                  Hv Hb)).
Defined.

(** ** _PerDeviceCache.trim: proofs *)

Lemma trim_step_lookup dk (m : gmap string DeviceCache) a k :
  PerDeviceCache.trim_step dk m a !! k =
  if decide (a = k) then (if stale dk k then None else m !! k) else m !! k.
Proof.
  unfold PerDeviceCache.trim_step, stale.
  destruct (decide (a = k)) as [->|Hne].
  - destruct (dk !! k) as [dev|]; [destruct (hd_is_valid dev)|]; simpl;
      rewrite ?lookup_delete_eq; reflexivity.
  - destruct (dk !! a) as [dev|]; [destruct (hd_is_valid dev)|]; simpl;
      rewrite ?lookup_delete_ne by assumption; reflexivity.
Qed.

Lemma trim_fold_lookup dk (ks : list string) (m : gmap string DeviceCache) k :
  fold_left (PerDeviceCache.trim_step dk) ks m !! k =
  if decide (k ∈ ks) then (if stale dk k then None else m !! k) else m !! k.
Proof.
  revert m; induction ks as [|a ks IH]; intros m; simpl.
  - destruct (decide (k ∈ [])) as [H|_]; [inversion H|reflexivity].
  - rewrite IH, trim_step_lookup.
    destruct (decide (a = k)) as [->|Hne].
    + destruct (decide (k ∈ k :: ks)) as [_|H]; [|exfalso; apply H; left].
      destruct (decide (k ∈ ks)); destruct (stale dk k); reflexivity.
    + destruct (decide (k ∈ ks)) as [Hin|Hni];
        destruct (decide (k ∈ a :: ks)) as [Hin'|Hni']; try reflexivity.
      * exfalso; apply Hni'; right; exact Hin.
      * apply elem_of_cons in Hin' as [->|?]; [congruence|contradiction].
Qed.

Lemma keys_spec (m : gmap string DeviceCache) k :
  k ∈ PerDeviceCache.keys m <-> is_Some (m !! k).
Proof.
  unfold PerDeviceCache.keys; rewrite list_elem_of_fmap; split.
  - intros ([k' v] & -> & H); apply elem_of_map_to_list in H; eauto.
  - intros [v H]; exists (k, v); split; [reflexivity|].
    apply elem_of_map_to_list; exact H.
Qed.

Lemma device_keys_fold devices (acc : gmap string HighDevice) k :
  fold_left (fun acc d => <[hd_port_path d := d]> acc) devices acc !! k =
  match corresponding devices k with
  | Some d => Some d
  | None => acc !! k
  end.
Proof.
  unfold corresponding; revert acc.
  induction devices as [|d ds IH]; intros acc; simpl; [reflexivity|].
  rewrite IH.
  destruct (String.eqb_spec (hd_port_path d) k) as [->|Hne].
  - destruct (List.filter _ ds) as [|d' l] eqn:E; simpl.
    + apply lookup_insert_eq.
    + change (last (d :: d' :: l)) with (last (d' :: l)).
      destruct (last (d' :: l)) eqn:El; [reflexivity|].
      apply last_None in El; discriminate.
  - destruct (last (List.filter _ ds)); [reflexivity|].
    apply lookup_insert_ne; exact Hne.
Qed.

Lemma device_keys_lookup devices k :
  PerDeviceCache.device_keys devices !! k = corresponding devices k.
Proof.
  unfold PerDeviceCache.device_keys; rewrite device_keys_fold.
  destruct (corresponding devices k); [reflexivity|apply lookup_empty].
Qed.

(** C6. [trim] keeps an entry exactly when a live device has its port path
    and the device [trim] looks at for that path (the last one listed) is
    valid, and a kept entry keeps its value; with no live device the cache
    becomes empty, and [get] on a live valid device returns what it returned
    before. *)
Theorem trim_removes_exactly_stale_entries
    (per_device : gmap string DeviceCache) (devices : list HighDevice) :
  (forall port_path,
      PerDeviceCache.trim per_device devices !! port_path =
      match corresponding devices port_path with
      | Some dev => if hd_is_valid dev then per_device !! port_path else None
      | None => None
      end)
  /\ (forall port_path,
        corresponding devices port_path = None <->
        forall d, d ∈ devices -> hd_port_path d <> port_path)
  /\ (forall port_path dev,
        corresponding devices port_path = Some dev ->
        dev ∈ devices /\ hd_port_path dev = port_path)
  /\ (NoDup (hd_port_path <$> devices) ->
      forall d, d ∈ devices -> corresponding devices (hd_port_path d) = Some d)
  /\ PerDeviceCache.trim per_device [] = ∅
  /\ (forall d,
        corresponding devices (hd_port_path d) = Some d ->
        hd_is_valid d = true ->
        PerDeviceCache.get (PerDeviceCache.trim per_device devices) (_device d)
        = PerDeviceCache.get per_device (_device d)).
Proof.
  assert (Htrim : forall devs port_path,
             PerDeviceCache.trim per_device devs !! port_path =
             match corresponding devs port_path with
             | Some dev =>
                 if hd_is_valid dev then per_device !! port_path else None
             | None => None
             end).
  { intros devs k; unfold PerDeviceCache.trim.
    rewrite trim_fold_lookup; unfold stale; rewrite device_keys_lookup.
    destruct (decide (k ∈ PerDeviceCache.keys per_device)) as [Hin|Hni].
    - destruct (corresponding devs k) as [dev|]; [|reflexivity].
      destruct (hd_is_valid dev); reflexivity.
    - assert (per_device !! k = None) as ->.
      { destruct (per_device !! k) eqn:E; [|reflexivity].
        exfalso; apply Hni, keys_spec; eauto. }
      destruct (corresponding devs k) as [dev|]; [|reflexivity].
      destruct (hd_is_valid dev); reflexivity. }
  assert (Hsome : forall port_path dev,
             corresponding devices port_path = Some dev ->
             dev ∈ devices /\ hd_port_path dev = port_path).
  { intros k dev H; unfold corresponding in H.
    apply last_Some in H as [l' H].
    assert (Hin : In dev (List.filter
                            (fun d => String.eqb (hd_port_path d) k) devices))
      by (rewrite H; apply in_or_app; right; left; reflexivity).
    apply filter_In in Hin as [Hin Heq].
    split; [apply list_elem_of_In; exact Hin|].
    apply String.eqb_eq; exact Heq. }
  assert (Hnone : forall port_path,
             corresponding devices port_path = None <->
             forall d, d ∈ devices -> hd_port_path d <> port_path).
  { intros k; unfold corresponding; rewrite last_None; split.
    - intros H d Hd Heq.
      assert (Hin : In d (List.filter
                            (fun d => String.eqb (hd_port_path d) k) devices)).
      { apply filter_In; split; [apply list_elem_of_In; exact Hd|].
        apply String.eqb_eq; exact Heq. }
      rewrite H in Hin; exact Hin.
    - intros H.
      destruct (List.filter _ devices) as [|d l] eqn:E; [reflexivity|].
      assert (Hin : In d (List.filter
                            (fun d => String.eqb (hd_port_path d) k) devices))
        by (rewrite E; left; reflexivity).
      apply filter_In in Hin as [Hin Heq].
      exfalso; apply (H d); [apply list_elem_of_In; exact Hin|].
      apply String.eqb_eq; exact Heq. }
  split; [apply Htrim|].
  split; [exact Hnone|].
  split; [exact Hsome|].
  split; [|split].
  - intros Hnd d Hd.
    destruct (corresponding devices (hd_port_path d)) as [d'|] eqn:E.
    + destruct (Hsome _ _ E) as [Hd' Heq].
      f_equal; symmetry.
      apply list_elem_of_lookup in Hd as [i Hi], Hd' as [j Hj].
      assert (i = j).
      { eapply NoDup_lookup; [exact Hnd| |];
          rewrite list_lookup_fmap; [rewrite Hi|rewrite Hj]; simpl;
          [reflexivity|congruence]. }
      congruence.
    + exfalso; exact (proj1 (Hnone _) E d Hd eq_refl).
  - apply map_eq; intros k; rewrite Htrim, lookup_empty; reflexivity.
  - intros d Hc Hv; unfold PerDeviceCache.get.
    change (port_path (_device d)) with (hd_port_path d).
    rewrite Htrim, Hc, Hv; reflexivity.
Qed.

Lemma trim_removes_exactly_stale_entries_witness :
  corresponding [nexus; unplugged] (hd_port_path nexus) = Some nexus
  /\ hd_is_valid nexus = true
  /\ PerDeviceCache.get
       (PerDeviceCache.trim
          (<[hd_port_path nexus := cache nexus]>
             (<[hd_port_path unplugged := cache unplugged]> ∅))
          [nexus; unplugged]) (_device nexus)
     = PerDeviceCache.get
         (<[hd_port_path nexus := cache nexus]>
            (<[hd_port_path unplugged := cache unplugged]> ∅))
         (_device nexus).
Proof.
  split; [reflexivity|split; [reflexivity|]].
  exact (proj2 (proj2 (proj2 (proj2 (proj2
           (trim_removes_exactly_stale_entries
              (<[hd_port_path nexus := cache nexus]>
                 (<[hd_port_path unplugged := cache unplugged]> ∅))
              [nexus; unplugged])))))
           nexus eq_refl eq_refl).
Defined.

Example trim_example :
  PerDeviceCache.trim
    (<[hd_port_path nexus := cache nexus]>
       (<[hd_port_path unplugged := cache unplugged]>
          (<["9/9" := cache nexus]> ∅)))
    [nexus; unplugged]
  = <[hd_port_path nexus := cache nexus]> ∅.
Proof. vm_compute; reflexivity. Qed.

(** ** Running the monad: equations *)

Lemma in_int_spec x l : Py.in_int x l = true <-> In x l.
Proof.
  unfold Py.in_int; rewrite existsb_exists; split.
  - intros (y & Hy & E); apply Z.eqb_eq in E; subst; exact Hy.
  - intros H; exists x; split; [exact H|apply Z.eqb_refl].
Qed.

Lemma in_str_spec x l : Py.in_str x l = true <-> In x l.
Proof.
  unfold Py.in_str; rewrite existsb_exists; split.
  - intros (y & Hy & E); apply String.eqb_eq in E; subst; exact Hy.
  - intros H; exists x; split; [exact H|apply String.eqb_refl].
Qed.

Lemma not_in_int x l : ~ In x l -> Py.in_int x l = false.
Proof.
  intros H; destruct (Py.in_int x l) eqn:E; [|reflexivity].
  exfalso; apply H, in_int_spec, E.
Qed.

Lemma not_in_str x l : ~ In x l -> Py.in_str x l = false.
Proof.
  intros H; destruct (Py.in_str x l) eqn:E; [|reflexivity].
  exfalso; apply H, in_str_spec, E.
Qed.

(** ** SetCPUSpeed and SetCPUScalingGovernor: proofs *)

(** C1 (as amended). For a speed in range that is not in the cached
    frequency list, [SetCPUSpeed] makes no call at all, so no write: it
    returns False when the list is absent or empty, and raises
    AssertionError when the list is not empty. *)
Theorem SetCPUSpeed_unsupported_speed host self fuel speed w :
  10000 <= speed <= 10000000 ->
  ~ supported (cache self) speed ->
  SetCPUSpeed host self fuel speed w =
  (if truthy_freqs (available_frequencies (cache self))
   then Raise AssertionError else Ret false, w).
Proof.
  intros [Hlo Hhi] Hns.
  unfold SetCPUSpeed, SetCPUSpeed_with, supported in *.
  unfold bind at 1; unfold assert.
  replace ((10000 <=? speed) && (speed <=? 10000000)) with true
    by (symmetry; apply andb_true_intro; split; apply Z.leb_le; assumption).
  cbv beta iota delta [ret].
  destruct (available_frequencies (cache self)) as [| |[|f l]];
    try reflexivity.
  unfold bind at 1; rewrite (not_in_int _ _ Hns); reflexivity.
Qed.

Lemma SetCPUSpeed_unsupported_speed_witness :
  10000 <= 500000 <= 10000000
  /\ ~ supported (cache nexus) 500000
  /\ SetCPUSpeed sample_host nexus 1 500000 empty_world =
     (Raise AssertionError, empty_world).
Proof.
  assert (Hr : 10000 <= 500000 <= 10000000) by lia.
  assert (Hn : ~ supported (cache nexus) 500000).
  { simpl; intros [H|[H|[]]]; discriminate H. }
  split; [exact Hr|split; [exact Hn|]].
  exact (SetCPUSpeed_unsupported_speed sample_host nexus 1 500000 empty_world
           Hr Hn).
Defined.

(** C1, as stated, fails: 500000 is in range and not in [300000, 1000000],
    and the call raises instead of returning a failure result. *)
Lemma SetCPUSpeed_unsupported_speed_raises :
  10000 <= 500000 <= 10000000
  /\ ~ supported (cache nexus) 500000
  /\ fst (SetCPUSpeed sample_host nexus 1 500000 empty_world)
     = Raise AssertionError
  /\ fst (SetCPUSpeed sample_host nexus 1 500000 empty_world) <> Ret false.
Proof.
  split; [lia|split; [|split]].
  - simpl; intros [H|[H|[]]]; discriminate H.
  - reflexivity.
  - discriminate.
Qed.

Lemma SetCPUScalingGovernor_S host self n governor :
  SetCPUScalingGovernor host self (S n) governor =
  SetCPUScalingGovernor_with self (Shell host self n)
    (SetCPUSpeed host self n) governor.
Proof. reflexivity. Qed.

Lemma known_governor_nonempty x :
  In x KNOWN_CPU_SCALING_GOVERNOR_VALUES -> x <> "".
Proof.
  unfold KNOWN_CPU_SCALING_GOVERNOR_VALUES; simpl.
  intros H; repeat (destruct H as [<-|H]; [discriminate|]); destruct H.
Qed.

(** C3 (as amended). With a non-empty cached governor list that lacks
    powersave and a non-empty ascending frequency list,
    [SetCPUScalingGovernor('powersave')] is the call
    [SetCPUSpeed(available_frequencies[0])], with its result, its exception
    and its device calls, and that frequency is the minimum of the list. *)
Theorem SetCPUScalingGovernor_powersave_fallback host self n w f rest :
  available_governors (cache self) <> [] ->
  ~ In "powersave" (available_governors (cache self)) ->
  available_frequencies (cache self) = FreqList (f :: rest) ->
  Sorted Z.le (f :: rest) ->
  SetCPUScalingGovernor host self (S n) "powersave" w =
  SetCPUSpeed host self n f w
  /\ Forall (Z.le f) rest.
Proof.
  intros Hne Hnp Hf Hs; split.
  - rewrite SetCPUScalingGovernor_S; unfold SetCPUScalingGovernor_with.
    unfold bind at 1; simpl (assert _ w).
    destruct (available_governors (cache self)) as [|g gs] eqn:Hg;
      [congruence|].
    cbn [truthy_list negb].
    rewrite (not_in_str _ _ Hnp); cbn [negb]; rewrite String.eqb_refl.
    unfold first_frequency; rewrite Hf.
    unfold bind, ret.
    destruct (SetCPUSpeed host self n f w) as [[r|e|] w']; reflexivity.
  - apply Sorted_StronglySorted in Hs; [|intros x y z; apply Z.le_trans].
    apply StronglySorted_inv in Hs; apply Hs.
Qed.

Lemma SetCPUScalingGovernor_powersave_fallback_witness :
  available_governors (cache nexus) <> []
  /\ ~ In "powersave" (available_governors (cache nexus))
  /\ SetCPUScalingGovernor sample_host nexus 2 "powersave" empty_world =
     SetCPUSpeed sample_host nexus 1 300000 empty_world.
Proof.
  assert (H1 : available_governors (cache nexus) <> []) by discriminate.
  assert (H2 : ~ In "powersave" (available_governors (cache nexus))).
  { simpl; intros [H|[H|[H|[]]]]; discriminate H. }
  assert (H3 : Sorted Z.le [300000; 1000000]).
  { repeat constructor; lia. }
  split; [exact H1|split; [exact H2|]].
  exact (proj1 (SetCPUScalingGovernor_powersave_fallback sample_host nexus 1
                  empty_world 300000 [1000000] H1 H2 eq_refl H3)).
Defined.

Example powersave_pins_minimum :
  rev (trace (snd (SetCPUScalingGovernor sample_host nexus 2 "powersave"
                     empty_world))) =
  [ EPullContent (cpufreq +:+ "scaling_governor");
    EPushContent ("userspace" +:+ NL) (cpufreq +:+ "scaling_governor");
    EPullContent (cpufreq +:+ "scaling_governor");
    ELog WARNING "%s.SetCPUScalingGovernor(): Wrote %s; was %s; got %s";
    EPushContent ("300000" +:+ NL) (cpufreq +:+ "scaling_setspeed");
    EPullContent (cpufreq +:+ "scaling_setspeed") ].
Proof. vm_compute; reflexivity. Qed.

(** C3, as stated, fails when the cached governor list is empty: it does
    not contain powersave, the frequency list is [300000, 1000000], and the
    call returns False without any device call, while
    [SetCPUSpeed(300000)] writes to the device. *)
Lemma SetCPUScalingGovernor_powersave_empty_governors :
  ~ In "powersave" (available_governors (cache no_governors))
  /\ available_frequencies (cache no_governors) = FreqList [300000; 1000000]
  /\ Sorted Z.le [300000; 1000000]
  /\ SetCPUScalingGovernor sample_host no_governors 2 "powersave" empty_world
     = (Ret false, empty_world)
  /\ rev (trace (snd (SetCPUSpeed sample_host no_governors 1 300000
                        empty_world))) =
     [ EPushContent ("300000" +:+ NL) (cpufreq +:+ "scaling_setspeed");
       EPullContent (cpufreq +:+ "scaling_setspeed") ]
  /\ SetCPUScalingGovernor sample_host no_governors 2 "powersave" empty_world
     <> SetCPUSpeed sample_host no_governors 1 300000 empty_world.
Proof.
  split; [intros []|].
  split; [reflexivity|].
  split; [repeat constructor; lia|].
  split; [reflexivity|].
  split; [vm_compute; reflexivity|].
  intros H; apply (f_equal (fun r => List.length (trace (snd r)))) in H.
  vm_compute in H; discriminate H.
Qed.

(** C4. For a known governor [x] of the cached list, when the
    scaling_governor file reads as [x] up to surrounding whitespace,
    [SetCPUScalingGovernor(x)] returns True and its only device call is that
    read: no PushContent, no Shell. *)
Theorem SetCPUScalingGovernor_already_set host self n x w prev :
  In x KNOWN_CPU_SCALING_GOVERNOR_VALUES ->
  In x (available_governors (cache self)) ->
  PullContent_answer (_device self) (trace w) scaling_governor = Some prev ->
  Py.strip prev = x ->
  SetCPUScalingGovernor host self (S n) x w =
  (Ret true, record (EPullContent scaling_governor) w).
Proof.
  intros Hk Ha Hp Hs.
  rewrite SetCPUScalingGovernor_S; unfold SetCPUScalingGovernor_with.
  pose proof (proj2 (in_str_spec _ _) Hk) as Hk'.
  pose proof (proj2 (in_str_spec _ _) Ha) as Ha'.
  unfold bind at 1; rewrite Hk'; cbn [assert ret].
  destruct (available_governors (cache self)) as [|g gs] eqn:Hg;
    [destruct Ha|].
  cbn [truthy_list negb]; rewrite Ha'; cbn [negb].
  unfold bind at 1; cbn [ret].
  unfold bind at 1; rewrite Hk'; cbn [assert ret].
  unfold bind at 1; unfold PullContent, dev_PullContent; rewrite Hp.
  destruct prev as [|c prev'].
  - exfalso; apply (known_governor_nonempty x Hk); rewrite <- Hs; reflexivity.
  - unfold bind at 1; rewrite Hs, String.eqb_refl; reflexivity.
Qed.

Lemma SetCPUScalingGovernor_already_set_witness :
  In "interactive" KNOWN_CPU_SCALING_GOVERNOR_VALUES
  /\ In "interactive" (available_governors (cache nexus))
  /\ SetCPUScalingGovernor sample_host nexus 1 "interactive" empty_world =
     (Ret true, record (EPullContent scaling_governor) empty_world).
Proof.
  assert (H1 : In "interactive" KNOWN_CPU_SCALING_GOVERNOR_VALUES)
    by (right; left; reflexivity).
  assert (H2 : In "interactive" (available_governors (cache nexus)))
    by (left; reflexivity).
  split; [exact H1|split; [exact H2|]].
  exact (SetCPUScalingGovernor_already_set sample_host nexus 0 "interactive"
           empty_world ("interactive" +:+ NL) H1 H2 eq_refl eq_refl).
Defined.

(** ** Mkstemp and WrappedShell: proofs *)

Lemma random_chars_spec host n w :
  exists s w',
    random_chars host n w = (Ret s, w')
    /\ shell_calls (trace w') = shell_calls (trace w)
    /\ per_device w' = per_device w.
Proof.
  revert w; induction n as [|n IH]; intros w.
  - exists "", w; repeat split.
  - cbn [random_chars]; unfold bind at 1; unfold random_choice.
    destruct (IH (record ERandom w)) as (s & w' & E & Hc & Hp).
    unfold bind at 1; rewrite E.
    eexists _, w'; split; [reflexivity|]; split; assumption.
Qed.

(** Mkstemp always returns, makes no Shell call, and a name it returns is
    not empty. *)
Lemma Mkstemp_loop_spec host self attempts content prefix suffix w :
  exists r w',
    Mkstemp_loop host self attempts content prefix suffix w = (Ret r, w')
    /\ shell_calls (trace w') = shell_calls (trace w)
    /\ per_device w' = per_device w
    /\ r <> Some "".
Proof.
  revert w; induction attempts as [|n IH]; intros w.
  - exists None, w; repeat split; discriminate.
  - cbn [Mkstemp_loop]; unfold bind at 1.
    destruct (random_chars_spec host 5 w) as (s & w1 & E & Hc & Hp).
    rewrite E; unfold bind at 1; unfold Stat, dev_Stat.
    destruct (Stat_answer (_device self) (trace w1) _) as [[mode sz] mt].
    destruct (truthy_int mode).
    + destruct (IH (record (EStat ("/data/local/tmp/" +:+ prefix +:+ s +:+ suffix)) w1))
        as (r & w' & E' & Hc' & Hp' & Hr).
      exists r, w'; split; [exact E'|]; split; [|split; [|exact Hr]].
      * rewrite Hc'; exact Hc.
      * rewrite Hp'; exact Hp.
    + unfold bind at 1; unfold PushContent, dev_PushContent.
      destruct (PushContent_answer _ _ _ _).
      * eexists _, _; split; [reflexivity|]; split; [exact Hc|].
        split; [exact Hp|discriminate].
      * match goal with
        | |- context [Mkstemp_loop _ _ _ _ _ _ ?w0] =>
            destruct (IH w0) as (r & w' & E' & Hc' & Hp' & Hr)
        end.
        exists r, w'; split; [exact E'|]; split; [|split; [|exact Hr]].
        -- rewrite Hc'; exact Hc.
        -- rewrite Hp'; exact Hp.
Qed.

Lemma Shell_direct host self fuel cmd w :
  IsShellOk (_device self) cmd = true ->
  Shell host self (S fuel) cmd w =
  (Ret (ShTuple (fst (Shell_answer (_device self) (trace w) cmd))
                (snd (Shell_answer (_device self) (trace w) cmd))),
   record (EShell cmd) w).
Proof.
  intros H; cbn [Shell]; rewrite H.
  unfold bind, dev_Shell.
  destruct (Shell_answer (_device self) (trace w) cmd); reflexivity.
Qed.

(** C8. [WrappedShell] when the device takes the short sh and rm commands
    directly (IsShellOk).  With both files allocated it runs the script,
    reads the output file, then issues exactly two removes, first of the
    output file and then of the script, and returns the output with the exit
    code of the script whatever that code is.  When the output file cannot
    be allocated it returns False after removing the script, and when the
    script cannot be allocated it returns False at once; in both cases the
    command is not run. *)
Theorem WrappedShell_cleanup host self fuel commands w :
  let content := String.concat "" (List.map (fun l => l +:+ NL) commands) in
  (forall w1,
      Mkstemp host self content "python-adb" ".sh" w = (Ret None, w1) ->
      WrappedShell host self fuel commands w = (Ret ShFalse, w1)
      /\ shell_calls (trace w1) = shell_calls (trace w))
  /\ (forall script w1 w2,
        Mkstemp host self content "python-adb" ".sh" w = (Ret (Some script), w1) ->
        Mkstemp host self "" "python-adb" ".txt" w1 = (Ret None, w2) ->
        IsShellOk (_device self) ("rm " +:+ script) = true ->
        WrappedShell host self (S fuel) commands w =
        (Ret ShFalse, record (EShell ("rm " +:+ script)) w2)
        /\ shell_calls (trace (record (EShell ("rm " +:+ script)) w2)) =
           ("rm " +:+ script) :: shell_calls (trace w))
  /\ (forall script outfile w1 w2,
        Mkstemp host self content "python-adb" ".sh" w = (Ret (Some script), w1) ->
        Mkstemp host self "" "python-adb" ".txt" w1 = (Ret (Some outfile), w2) ->
        IsShellOk (_device self) ("sh " +:+ script +:+ " &> " +:+ outfile) = true ->
        IsShellOk (_device self) ("rm " +:+ outfile) = true ->
        IsShellOk (_device self) ("rm " +:+ script) = true ->
        exists out exit_code w',
          WrappedShell host self (S fuel) commands w =
          (Ret (ShTuple out exit_code), w')
          /\ exit_code =
             snd (Shell_answer (_device self) (trace w2)
                    ("sh " +:+ script +:+ " &> " +:+ outfile))
          /\ trace w' =
             EShell ("rm " +:+ script) :: EShell ("rm " +:+ outfile)
             :: EPullContent outfile
             :: EShell ("sh " +:+ script +:+ " &> " +:+ outfile) :: trace w2
          /\ shell_calls (trace w') =
             ("rm " +:+ script) :: ("rm " +:+ outfile)
             :: ("sh " +:+ script +:+ " &> " +:+ outfile)
             :: shell_calls (trace w)
          /\ rm_calls (trace w') =
             ("rm " +:+ script) :: ("rm " +:+ outfile) :: rm_calls (trace w)).
Proof.
  intros content; split; [|split].
  - intros w1 H1.
    unfold WrappedShell, WrappedShell_with; fold content.
    unfold bind at 1; rewrite H1; split; [reflexivity|].
    destruct (Mkstemp_loop_spec host self 5 content "python-adb" ".sh" w)
      as (r & w' & E & Hc & _).
    unfold Mkstemp in H1; rewrite E in H1; inversion H1; subst; exact Hc.
  - intros script w1 w2 H1 H2 Hrm.
    destruct (Mkstemp_loop_spec host self 5 content "python-adb" ".sh" w)
      as (r & w' & E & Hc & _ & Hr).
    unfold Mkstemp in H1; rewrite E in H1; inversion H1; subst r w'.
    destruct (Mkstemp_loop_spec host self 5 "" "python-adb" ".txt" w1)
      as (r & w' & E2 & Hc2 & _).
    unfold Mkstemp in H2; rewrite E2 in H2; inversion H2; subst r w'.
    destruct script as [|c script]; [congruence|].
    split.
    + unfold WrappedShell, WrappedShell_with; fold content.
      unfold bind at 1; unfold Mkstemp at 1; rewrite E.
      unfold try_finally at 1.
      unfold bind at 1; unfold Mkstemp at 1; rewrite E2.
      cbv beta iota delta [ret].
      unfold bind at 1; rewrite (Shell_direct _ _ _ _ _ Hrm); reflexivity.
    + cbn [record trace shell_calls flat_map app].
      fold (shell_calls (trace w2)); rewrite Hc2, Hc; reflexivity.
  - intros script outfile w1 w2 H1 H2 Hsh Hrmo Hrms.
    destruct (Mkstemp_loop_spec host self 5 content "python-adb" ".sh" w)
      as (r & w' & E & Hc & _ & Hr).
    unfold Mkstemp in H1; rewrite E in H1; inversion H1; subst r w'.
    destruct (Mkstemp_loop_spec host self 5 "" "python-adb" ".txt" w1)
      as (r & w' & E2 & Hc2 & _ & Hr2).
    unfold Mkstemp in H2; rewrite E2 in H2; inversion H2; subst r w'.
    destruct script as [|c script]; [congruence|].
    destruct outfile as [|c' outfile]; [congruence|].
    eexists _, _, _; split.
    { unfold WrappedShell, WrappedShell_with; fold content.
      unfold bind at 1; unfold Mkstemp at 1; rewrite E.
      unfold try_finally at 1.
      unfold bind at 1; unfold Mkstemp at 1; rewrite E2.
      unfold try_finally at 1.
      unfold bind at 1; rewrite (Shell_direct _ _ _ _ _ Hsh).
      cbv beta iota delta [unpack ret bind PullContent dev_PullContent].
      rewrite (Shell_direct _ _ _ _ _ Hrmo).
      rewrite (Shell_direct _ _ _ _ _ Hrms).
      reflexivity. }
    split; [reflexivity|split; [reflexivity|]].
    unfold rm_calls; cbn [record trace shell_calls flat_map app].
    fold (shell_calls (trace w2)); rewrite Hc2, Hc.
    split; reflexivity.
Qed.

Lemma WrappedShell_cleanup_witness :
  exists out w',
    WrappedShell sample_host failing_scripts 1 ["exit 1"] empty_world =
    (Ret (ShTuple out (Some 1)), w')
    /\ rm_calls (trace w') =
       [ "rm /data/local/tmp/python-adbabcde.sh";
         "rm /data/local/tmp/python-adbhijkl.txt" ].
Proof.
  pose (w1 := snd (Mkstemp sample_host failing_scripts ("exit 1" +:+ NL)
                     "python-adb" ".sh" empty_world)).
  pose (w2 := snd (Mkstemp sample_host failing_scripts "" "python-adb" ".txt"
                     w1)).
  destruct (proj2 (proj2 (WrappedShell_cleanup sample_host failing_scripts 0
                            ["exit 1"] empty_world))
              "/data/local/tmp/python-adbabcde.sh"
              "/data/local/tmp/python-adbhijkl.txt" w1 w2
              eq_refl eq_refl eq_refl eq_refl eq_refl)
    as (out & exit_code & w' & E & Hcode & _ & _ & Hrm).
  exists out, w'; split.
  - rewrite E, Hcode; reflexivity.
  - rewrite Hrm; reflexivity.
Defined.

(** ** WaitForDevice and WaitUntilFullyBooted: proofs *)

Ltac phase_events :=
  repeat (apply List.Forall_cons; [unfold responsive_phase_event; auto 6|]);
  try apply List.Forall_nil.

Lemma iter_turn_shift path k h :
  Nat.iter k (WaitForDevice_turn path) (WaitForDevice_turn path h) =
  Nat.iter (S k) (WaitForDevice_turn path) h.
Proof. rewrite Nat.iter_swap; reflexivity. Qed.

(** If Stat has not succeeded when the deadline passes, the loop returns
    False and has made only the calls of the first phase. *)
Lemma WaitForDevice_loop_times_out host self start timeout path k :
  forall w fuel,
    (k < fuel)%nat ->
    (forall j, (j < k)%nat ->
       fst (fst (Stat_answer (_device self)
                   (ETime :: Nat.iter j (WaitForDevice_turn path) (trace w))
                   path)) = None) ->
    elapsed (clock host (Nat.iter k (WaitForDevice_turn path) (trace w)))
            start timeout = true ->
    exists evs w',
      WaitForDevice_loop host self fuel start timeout path w = (Ret false, w')
      /\ trace w' = evs ++ trace w
      /\ Forall (responsive_phase_event path) evs
      /\ per_device w' = per_device w.
Proof.
  induction k as [|k IH]; intros w fuel Hfuel Hstat Hclock;
    (destruct fuel as [|n]; [lia|]); cbn [WaitForDevice_loop];
    unfold bind at 1; unfold time_time.
  - cbn [Nat.iter nat_rect] in Hclock; rewrite Hclock.
    eexists [ELog WARNING "%s.WaitForDevice() failed"; ETime], _.
    split; [reflexivity|]; split; [reflexivity|]; split; [|reflexivity].
    phase_events.
  - destruct (elapsed (clock host (trace w)) start timeout).
    + eexists [ELog WARNING "%s.WaitForDevice() failed"; ETime], _.
      split; [reflexivity|]; split; [reflexivity|]; split; [|reflexivity].
      phase_events.
    + unfold bind at 1; unfold Stat, dev_Stat.
      pose proof (Hstat 0%nat ltac:(lia)) as H0.
      cbn [Nat.iter nat_rect record trace] in H0 |- *.
      destruct (Stat_answer (_device self) (ETime :: trace w) path)
        as [[mode sz] mt]; cbn [fst] in H0; subst mode.
      unfold bind at 1; unfold time_sleep, emit.
      destruct (IH (record ESleep (record (EStat path) (record ETime w))) n)
        as (evs & w' & E & Ht & Hev & Hp).
      * lia.
      * intros j Hj.
        change (trace (record ESleep (record (EStat path) (record ETime w))))
          with (WaitForDevice_turn path (trace w)).
        rewrite iter_turn_shift; apply Hstat; lia.
      * change (trace (record ESleep (record (EStat path) (record ETime w))))
          with (WaitForDevice_turn path (trace w)).
        rewrite iter_turn_shift; exact Hclock.
      * exists (evs ++ [ESleep; EStat path; ETime]), w'.
        split; [exact E|]; split; [|split; [|exact Hp]].
        -- rewrite Ht, <- app_assoc; reflexivity.
        -- apply Forall_app; split; [exact Hev|].
           phase_events.
Qed.

(** C7. [WaitUntilFullyBooted] returns False when the cached external
    storage path is missing, having only read the clock; and when Stat on
    that path has not succeeded by the time the deadline passes, having made
    only the calls of the first phase: no getprop and no pm call, direct or
    wrapped. *)
Theorem WaitUntilFullyBooted_unresponsive host self timeout w :
  (truthy_str (external_storage_path (cache self)) = false ->
   forall fuel,
     WaitUntilFullyBooted host self fuel timeout w = (Ret false, record ETime w))
  /\ (forall path k,
        external_storage_path (cache self) = Some path ->
        path <> "" ->
        (forall j, (j < k)%nat ->
           fst (fst (Stat_answer (_device self)
                       (ETime :: Nat.iter j (WaitForDevice_turn path)
                                   (ETime :: ETime :: trace w))
                       path)) = None) ->
        elapsed (clock host (Nat.iter k (WaitForDevice_turn path)
                               (ETime :: ETime :: trace w)))
                (clock host (ETime :: trace w)) timeout = true ->
        forall fuel, (k < fuel)%nat ->
          exists evs w',
            WaitUntilFullyBooted host self fuel timeout w = (Ret false, w')
            /\ trace w' = evs ++ trace w
            /\ Forall (responsive_phase_event path) evs
            /\ shell_calls (trace w') = shell_calls (trace w)).
Proof.
  split.
  - intros Hp fuel; unfold WaitUntilFullyBooted, WaitForDevice.
    unfold bind at 1; unfold time_time.
    unfold bind at 1.
    destruct (external_storage_path (cache self)) as [[|c p]|];
      try discriminate Hp; reflexivity.
  - intros path k Hp Hne Hstat Hclock fuel Hfuel.
    unfold WaitUntilFullyBooted, WaitForDevice; rewrite Hp.
    destruct path as [|c p]; [congruence|].
    unfold bind at 1; unfold time_time at 1.
    unfold bind at 1; unfold bind at 1; unfold time_time at 1.
    destruct (WaitForDevice_loop_times_out host self
                (clock host (trace (record ETime w))) timeout (String c p) k
                (record ETime (record ETime w)) fuel Hfuel Hstat Hclock)
      as (evs & w' & E & Ht & Hev & _).
    rewrite E; cbn [negb].
    exists (evs ++ [ETime; ETime]), w'.
    split; [reflexivity|]; split; [|split].
    + rewrite Ht, <- app_assoc; reflexivity.
    + apply Forall_app; split; [exact Hev|].
      phase_events.
    + rewrite Ht; cbn [record trace].
      assert (Hno : forall l, Forall (responsive_phase_event (String c p)) l ->
                              shell_calls l = []).
      { induction 1 as [|e l He _ IHl]; [reflexivity|].
        cbn [shell_calls flat_map]; fold (shell_calls l); rewrite IHl.
        destruct He as [->|[->|[->| ->]]]; reflexivity. }
      unfold shell_calls at 1; rewrite flat_map_app.
      fold (shell_calls evs); rewrite (Hno _ Hev); reflexivity.
Qed.

Lemma WaitUntilFullyBooted_unresponsive_witness :
  WaitUntilFullyBooted sample_host no_storage 0 (inject_Z 5) empty_world =
  (Ret false, record ETime empty_world)
  /\ exists evs w',
       WaitUntilFullyBooted sample_host nexus 3 (inject_Z 5) empty_world =
       (Ret false, w')
       /\ trace w' = evs ++ trace empty_world
       /\ Forall (responsive_phase_event "/sdcard") evs
       /\ shell_calls (trace w') = shell_calls (trace empty_world).
Proof.
  split.
  - exact (proj1 (WaitUntilFullyBooted_unresponsive sample_host no_storage
                    (inject_Z 5) empty_world) eq_refl 0%nat).
  - refine (proj2 (WaitUntilFullyBooted_unresponsive sample_host nexus
                     (inject_Z 5) empty_world)
              "/sdcard" 2%nat eq_refl _ _ eq_refl 3%nat _).
    + discriminate.
    + intros j _; reflexivity.
    + lia.
Defined.

Example WaitUntilFullyBooted_unresponsive_trace :
  WaitUntilFullyBooted sample_host nexus 3 (inject_Z 5) empty_world =
  (Ret false,
   {| trace := [ ELog WARNING "%s.WaitForDevice() failed"; ETime;
                 ESleep; EStat "/sdcard"; ETime;
                 ESleep; EStat "/sdcard"; ETime; ETime; ETime ];
      per_device := ∅ |}).
Proof. vm_compute; reflexivity. Qed.

(** ** Every run only extends the history *)

Lemma extends_ret {A : Type} (a : A) : extends (ret a).
Proof. intros w; reflexivity. Qed.

Lemma extends_raise {A : Type} (e : exn) : extends (@raise A e).
Proof. intros w; reflexivity. Qed.

Lemma extends_out_of_fuel {A : Type} : extends (@out_of_fuel A).
Proof. intros w; reflexivity. Qed.

Lemma extends_bind {A B : Type} (m : M A) (k : A -> M B) :
  extends m -> (forall a, extends (k a)) -> extends (bind m k).
Proof.
  intros Hm Hk w; unfold bind.
  specialize (Hm w); destruct (m w) as [[a|e|] w1]; cbn [snd] in *; auto.
  etransitivity; [exact Hm|apply Hk].
Qed.

Lemma extends_try_finally {A : Type} (body : M A) (fin : M unit) :
  extends body -> extends fin -> extends (try_finally body fin).
Proof.
  intros Hb Hf w; unfold try_finally.
  specialize (Hb w); destruct (body w) as [[a|e|] w1]; cbn [snd] in *; auto;
    specialize (Hf w1); destruct (fin w1) as [[[]|e'|] w2]; cbn [snd] in *;
    etransitivity; eauto.
Qed.

Lemma extends_emit e : extends (emit e).
Proof. intros w; apply suffix_cons_r; reflexivity. Qed.

Lemma extends_assert b : extends (assert b).
Proof. destruct b; [apply extends_ret|apply extends_raise]. Qed.

Lemma extends_from_option {A : Type} e (o : option A) :
  extends (from_option e o).
Proof. destruct o; [apply extends_ret|apply extends_raise]. Qed.

Lemma extends_unpack r : extends (unpack r).
Proof. destruct r; [apply extends_raise|apply extends_ret]. Qed.

Lemma extends_dev_Shell d cmd : extends (dev_Shell d cmd).
Proof. intros w; apply suffix_cons_r; reflexivity. Qed.

Lemma extends_dev_PullContent d path : extends (dev_PullContent d path).
Proof. intros w; apply suffix_cons_r; reflexivity. Qed.

Lemma extends_dev_PushContent d content path :
  extends (dev_PushContent d content path).
Proof. intros w; apply suffix_cons_r; reflexivity. Qed.

Lemma extends_dev_Stat d path : extends (dev_Stat d path).
Proof. intros w; apply suffix_cons_r; reflexivity. Qed.

Lemma extends_time_time host : extends (time_time host).
Proof. intros w; apply suffix_cons_r; reflexivity. Qed.

Lemma extends_random_choice host choices : extends (random_choice host choices).
Proof. intros w; apply suffix_cons_r; reflexivity. Qed.

Lemma extends_cache_get d : extends (PER_DEVICE_CACHE_get d).
Proof. intros w; reflexivity. Qed.

Lemma extends_cache_set d c : extends (PER_DEVICE_CACHE_set d c).
Proof. intros w; reflexivity. Qed.

Create HintDb extends.

#[export] Hint Resolve extends_ret extends_raise extends_out_of_fuel
  extends_emit extends_assert extends_from_option extends_unpack
  extends_dev_Shell extends_dev_PullContent extends_dev_PushContent
  extends_dev_Stat extends_time_time extends_random_choice
  extends_cache_get extends_cache_set : extends.

(** One step through the syntax of a computation. *)
Ltac extends_step :=
  match goal with
  | |- extends (bind _ _) => apply extends_bind; [|intros ?]
  | |- extends (try_finally _ _) => apply extends_try_finally
  | |- extends (match ?x with _ => _ end) => destruct x
  | |- extends (log _ _) => apply extends_emit
  | |- extends time_sleep => apply extends_emit
  | |- extends (PullContent _ _) => apply extends_dev_PullContent
  | |- extends (PushContent _ _ _) => apply extends_dev_PushContent
  | |- extends (Stat _ _) => apply extends_dev_Stat
  | |- extends _ => solve [auto with extends]
  end.

Ltac extends_auto := repeat extends_step.

Lemma extends_random_chars host n : extends (random_chars host n).
Proof. induction n; cbn [random_chars]; extends_auto. Qed.

Lemma extends_Mkstemp host self content prefix suffix :
  extends (Mkstemp host self content prefix suffix).
Proof.
  unfold Mkstemp; generalize 5%nat as attempts.
  induction attempts; cbn [Mkstemp_loop]; extends_auto;
    apply extends_random_chars.
Qed.

Lemma extends_WrappedShell_with host self shell commands :
  (forall cmd, extends (shell cmd)) ->
  extends (WrappedShell_with host self shell commands).
Proof.
  intros H; unfold WrappedShell_with; extends_auto;
    apply extends_Mkstemp.
Qed.

Lemma extends_Shell host self fuel cmd : extends (Shell host self fuel cmd).
Proof.
  revert cmd; induction fuel as [|n IH]; intros cmd; cbn [Shell].
  - apply extends_out_of_fuel.
  - destruct (IsShellOk (_device self) cmd).
    + extends_auto.
    + apply extends_WrappedShell_with; exact IH.
Qed.

#[export] Hint Resolve extends_Shell extends_Mkstemp extends_random_chars
  : extends.

(** ** Stepping through a run *)

Lemma wp_bind {A B : Type} (m : M A) (k : A -> M B) Q w :
  wp m (fun r w1 =>
          match r with
          | Ret a => wp (k a) Q w1
          | Raise e => Q (Raise e) w1
          | OutOfFuel => Q OutOfFuel w1
          end) w ->
  wp (bind m k) Q w.
Proof. unfold wp, bind; destruct (m w) as [[a|e|] w1]; auto. Qed.

Lemma wp_ret {A : Type} (a : A) Q w : Q (Ret a) w -> wp (ret a) Q w.
Proof. auto. Qed.

Lemma wp_raise {A : Type} e (Q : outcome A -> World -> Prop) w :
  Q (Raise e) w -> wp (raise e) Q w.
Proof. auto. Qed.

Lemma wp_dev_Shell d cmd Q w :
  Q (Ret (Shell_answer d (trace w) cmd)) (record (EShell cmd) w) ->
  wp (dev_Shell d cmd) Q w.
Proof. auto. Qed.

Lemma wp_dev_PullContent d path Q w :
  Q (Ret (PullContent_answer d (trace w) path)) (record (EPullContent path) w) ->
  wp (dev_PullContent d path) Q w.
Proof. auto. Qed.

Lemma wp_dev_Stat d path Q w :
  Q (Ret (Stat_answer d (trace w) path)) (record (EStat path) w) ->
  wp (dev_Stat d path) Q w.
Proof. auto. Qed.

Lemma wp_cache_set d c Q w :
  Q (Ret tt) {| trace := trace w;
                per_device := PerDeviceCache.set (per_device w) d c |} ->
  wp (PER_DEVICE_CACHE_set d c) Q w.
Proof. auto. Qed.

Ltac wp_step :=
  match goal with
  | |- wp (bind _ _) _ _ => apply wp_bind
  | |- wp (match ?x with _ => _ end) _ _ => destruct x eqn:?
  | |- wp (ret _) _ _ => apply wp_ret; cbv beta iota
  | |- wp (raise _) _ _ => apply wp_raise; cbv beta iota
  | |- wp (assert ?b) _ _ => unfold assert at 1
  | |- wp (from_option _ ?o) _ _ => unfold from_option at 1
  | |- wp (dev_Shell _ _) _ _ => apply wp_dev_Shell; cbv beta iota
  | |- wp (dev_PullContent _ _) _ _ => apply wp_dev_PullContent; cbv beta iota
  | |- wp (dev_Stat _ _) _ _ => apply wp_dev_Stat; cbv beta iota
  | |- wp (PER_DEVICE_CACHE_set _ _) _ _ => apply wp_cache_set; cbv beta iota
  end;
  cbn [trace per_device record].

(** ** _InitCache: proofs *)

(** On a cache miss [_InitCache] always finishes, and the stored
    dictionary changes only by the entry of a complete snapshot. *)
Lemma InitCache_store device w :
  PerDeviceCache.get (per_device w) device = None ->
  wp (_InitCache device)
     (fun r w' =>
        match r with
        | Ret cache =>
            per_device w' =
            if all_not_None cache
            then <[port_path device := cache]> (per_device w)
            else per_device w
        | Raise _ => per_device w' = per_device w
        | OutOfFuel => False
        end) w.
Proof.
  intros Hmiss; unfold _InitCache.
  apply wp_bind; unfold wp at 1, PER_DEVICE_CACHE_get; cbn [fst snd].
  rewrite Hmiss.
  repeat wp_step.
  all: try reflexivity.
  all: match goal with
       | H : all_not_None ?c = _ |- context [all_not_None ?c] => rewrite H
       end; reflexivity.
Qed.

Lemma all_not_None_complete cache :
  all_not_None cache = true <-> complete cache.
Proof.
  unfold all_not_None, complete.
  destruct (build_props cache), (external_storage_path cache),
    (available_frequencies cache); split;
    try discriminate; try reflexivity;
    try (intros (H1 & H2 & H3); congruence);
    intros _; repeat split; discriminate.
Qed.

(** A cached snapshot is returned without any device call. *)
Lemma InitCache_hit device w cache :
  PerDeviceCache.get (per_device w) device = Some cache ->
  _InitCache device w = (Ret cache, w).
Proof.
  intros H; unfold _InitCache, bind, PER_DEVICE_CACHE_get.
  rewrite H; reflexivity.
Qed.

(** On a cache miss the retrieval starts: the first call asks the device
    for $EXTERNAL_STORAGE. *)
Lemma InitCache_miss_retrieves device w :
  PerDeviceCache.get (per_device w) device = None ->
  EShell "echo -n $EXTERNAL_STORAGE" :: trace w
    `suffix_of` trace (snd (_InitCache device w)).
Proof.
  intros H; unfold _InitCache; unfold bind at 1.
  unfold PER_DEVICE_CACHE_get; rewrite H.
  unfold bind at 1; unfold dev_Shell at 1.
  match goal with
  | |- _ `suffix_of` trace (snd (?k ?w0)) =>
      assert (Hext : extends k); [|exact (Hext w0)]
  end.
  extends_auto.
Qed.

Example InitCache_complete :
  fst (_InitCache pixel empty_world) =
  Ret {| build_props :=
           Some (<["ro.build.id" := "LMY48I"]>
                   (<["ro.build.description" := "a=b"]> ∅));
         external_storage_path := Some "/sdcard";
         has_su := true;
         available_frequencies := FreqList [300000; 1000000];
         available_governors :=
           ["interactive"; "ondemand"; "performance"; "userspace"] |}
  /\ per_device (snd (_InitCache pixel empty_world)) =
     PerDeviceCache.set ∅ pixel
       {| build_props :=
            Some (<["ro.build.id" := "LMY48I"]>
                    (<["ro.build.description" := "a=b"]> ∅));
          external_storage_path := Some "/sdcard";
          has_su := true;
          available_frequencies := FreqList [300000; 1000000];
          available_governors :=
            ["interactive"; "ondemand"; "performance"; "userspace"] |}.
Proof. split; vm_compute; reflexivity. Qed.

Example InitCache_incomplete :
  _InitCache (_device nexus) empty_world =
  (Ret {| build_props := None;
          external_storage_path := Some "/sdcard";
          has_su := false;
          available_frequencies := FreqNone;
          available_governors := KNOWN_CPU_SCALING_GOVERNOR_VALUES |},
   {| trace :=
        [ EPullContent (cpufreq +:+ "cpuinfo_max_freq");
          EPullContent (cpufreq +:+ "cpuinfo_min_freq");
          EPullContent (cpufreq +:+ "scaling_available_frequencies");
          EPullContent (cpufreq +:+ "scaling_available_governors");
          EStat "/system/xbin/su";
          EPullContent "/system/build.prop";
          EShell "echo -n $EXTERNAL_STORAGE" ];
      per_device := ∅ |}).
Proof. vm_compute; reflexivity. Qed.

(** With a known governor of the cached list, the first device call of
    [SetCPUScalingGovernor] is the read of scaling_governor. *)
Lemma SetCPUScalingGovernor_reads_first host self n governor w :
  In governor KNOWN_CPU_SCALING_GOVERNOR_VALUES ->
  In governor (available_governors (cache self)) ->
  EPullContent scaling_governor :: trace w
    `suffix_of`
    trace (snd (SetCPUScalingGovernor host self (S n) governor w)).
Proof.
  intros Hk Ha.
  rewrite SetCPUScalingGovernor_S; unfold SetCPUScalingGovernor_with.
  pose proof (proj2 (in_str_spec _ _) Hk) as Hk'.
  pose proof (proj2 (in_str_spec _ _) Ha) as Ha'.
  unfold bind at 1; rewrite Hk'; cbn [assert ret].
  destruct (available_governors (cache self)) as [|g gs] eqn:Hg;
    [destruct Ha|].
  cbn [truthy_list negb]; rewrite Ha'; cbn [negb].
  unfold bind at 1; cbn [ret].
  unfold bind at 1; rewrite Hk'; cbn [assert ret].
  unfold bind at 1; unfold PullContent at 1, dev_PullContent at 1.
  match goal with
  | |- _ `suffix_of` trace (snd (?k ?w0)) =>
      assert (Hext : extends k); [|exact (Hext w0)]
  end.
  extends_auto.
Qed.

(** A current governor that is not in the cached list is logged, and the
    write is attempted all the same. *)
Lemma SetCPUScalingGovernor_logs_unlisted host self n governor w prev :
  In governor KNOWN_CPU_SCALING_GOVERNOR_VALUES ->
  In governor (available_governors (cache self)) ->
  PullContent_answer (_device self) (trace w) scaling_governor = Some prev ->
  prev <> "" ->
  ~ In (Py.strip prev) (available_governors (cache self)) ->
  EPushContent (governor +:+ NL) scaling_governor
    :: ELog WARNING
         "%s.SetCPUScalingGovernor(): Read invalid scaling_governor: %s"
    :: EPullContent scaling_governor :: trace w
    `suffix_of`
    trace (snd (SetCPUScalingGovernor host self (S n) governor w)).
Proof.
  intros Hk Ha Hp Hne Hni.
  rewrite SetCPUScalingGovernor_S; unfold SetCPUScalingGovernor_with.
  pose proof (proj2 (in_str_spec _ _) Hk) as Hk'.
  pose proof (proj2 (in_str_spec _ _) Ha) as Ha'.
  assert (Hd : String.eqb (Py.strip prev) governor = false).
  { apply String.eqb_neq; intros E; apply Hni; rewrite E; exact Ha. }
  unfold bind at 1; rewrite Hk'; cbn [assert ret].
  destruct (available_governors (cache self)) as [|g gs] eqn:Hg;
    [destruct Ha|].
  cbn [truthy_list negb]; rewrite Ha'; cbn [negb].
  unfold bind at 1; cbn [ret].
  unfold bind at 1; rewrite Hk'; cbn [assert ret].
  unfold bind at 1; unfold PullContent at 1, dev_PullContent at 1.
  rewrite Hp; destruct prev as [|c prev']; [congruence|].
  unfold bind at 1; cbv zeta; rewrite Hd, (not_in_str _ _ Hni); cbn [negb].
  unfold bind at 1; unfold log at 1, emit at 1; cbn [ret].
  unfold bind at 1; unfold PushContent at 1, dev_PushContent at 1.
  match goal with
  | |- _ `suffix_of` trace (snd (?k ?w0)) =>
      assert (Hext : extends k); [|exact (Hext w0)]
  end.
  extends_auto.
Qed.

(** When the governor file yields nothing, the governor list of the
    snapshot is the known list; only a ValueError of the other parsers can
    prevent the snapshot. *)
Lemma InitCache_governors_default device w :
  PerDeviceCache.get (per_device w) device = None ->
  truthy_str (reported_governors device w) = false ->
  wp (_InitCache device)
     (fun r _ =>
        match r with
        | Ret cache =>
            available_governors cache = KNOWN_CPU_SCALING_GOVERNOR_VALUES
        | Raise e => e = ValueError
        | OutOfFuel => False
        end) w.
Proof.
  intros Hmiss Hgov; unfold _InitCache.
  unfold reported_governors, history_before_governors in Hgov.
  apply wp_bind; unfold wp at 1, PER_DEVICE_CACHE_get; cbn [fst snd].
  rewrite Hmiss.
  repeat wp_step.
  all: try reflexivity.
  all: cbv in Hgov; discriminate Hgov.
Qed.

(** With well-formed build properties and frequency texts, a run whose
    governor file yields nothing returns a snapshot, with the known list. *)
Lemma InitCache_governors_default_returns device w :
  PerDeviceCache.get (per_device w) device = None ->
  truthy_str (reported_governors device w) = false ->
  build_prop_well_formed (reported_build_prop device w) ->
  frequencies_well_formed device w ->
  wp (_InitCache device)
     (fun r _ =>
        match r with
        | Ret cache =>
            available_governors cache = KNOWN_CPU_SCALING_GOVERNOR_VALUES
        | _ => False
        end) w.
Proof.
  intros Hmiss Hgov Hbp Hfreq; unfold _InitCache.
  unfold reported_governors, history_before_governors in Hgov.
  unfold build_prop_well_formed, reported_build_prop in Hbp.
  unfold frequencies_well_formed, reported_frequencies, reported_min_freq,
    reported_max_freq, history_before_governors in Hfreq.
  apply wp_bind; unfold wp at 1, PER_DEVICE_CACHE_get; cbn [fst snd].
  rewrite Hmiss.
  repeat wp_step.
  all: try reflexivity.
  all: cbv beta iota in Hbp, Hfreq.
  all: try congruence.
  all: try (destruct Hfreq; congruence).
  all: cbv in Hgov; discriminate Hgov.
Qed.

(** C9. On a cache miss [_InitCache] finishes.  What is then stored for
    the device is the snapshot returned, and it has no None field.  When a
    field of the snapshot is None, or the call raises, the stored
    dictionary is unchanged, the device still has no entry, and the next
    [_InitCache] for it starts the retrieval again.  A governor file that
    yields nothing is not such a failure: the snapshot lists the known
    governors, and when the su Stat gave a mode, a frequency list was
    obtained and no field is None, it is stored. *)
Theorem InitCache_stores_no_None_field device w :
  PerDeviceCache.get (per_device w) device = None ->
  exists r w',
    _InitCache device w = (r, w')
    /\ (forall stored,
          PerDeviceCache.get (per_device w') device = Some stored ->
          r = Ret stored /\ complete stored)
    /\ ((exists cache, r = Ret cache /\ ~ complete cache)
        \/ (exists e, r = Raise e) ->
        per_device w' = per_device w
        /\ PerDeviceCache.get (per_device w') device = None
        /\ EShell "echo -n $EXTERNAL_STORAGE" :: trace w'
             `suffix_of` trace (snd (_InitCache device w')))
    /\ (truthy_str (reported_governors device w) = false ->
        reported_su_mode device w <> None ->
        forall cache l,
          r = Ret cache ->
          complete cache ->
          available_frequencies cache = FreqList l ->
          available_governors cache = KNOWN_CPU_SCALING_GOVERNOR_VALUES
          /\ PerDeviceCache.get (per_device w') device = Some cache).
Proof.
  intros Hmiss.
  pose proof (InitCache_store device w Hmiss) as H; unfold wp in H.
  pose proof (InitCache_governors_default device w Hmiss) as Hdef.
  unfold wp in Hdef.
  destruct (_InitCache device w) as [r w'] eqn:E; cbn [fst snd] in H, Hdef.
  exists r, w'; split; [reflexivity|].
  assert (Hsame : per_device w' = per_device w ->
                  per_device w' = per_device w
                  /\ PerDeviceCache.get (per_device w') device = None
                  /\ EShell "echo -n $EXTERNAL_STORAGE" :: trace w'
                       `suffix_of` trace (snd (_InitCache device w'))).
  { intros Hp.
    assert (Hm : PerDeviceCache.get (per_device w') device = None)
      by (rewrite Hp; exact Hmiss).
    split; [exact Hp|split; [exact Hm|]].
    apply InitCache_miss_retrieves; exact Hm. }
  destruct r as [cache|e|]; [|split; [|split]|destruct H].
  - destruct (all_not_None cache) eqn:Ha.
    + pose proof (proj1 (all_not_None_complete cache) Ha) as Hc.
      assert (Hget : PerDeviceCache.get (per_device w') device = Some cache)
        by (unfold PerDeviceCache.get; rewrite H; apply lookup_insert_eq).
      split; [|split].
      * intros stored Hs; rewrite Hget in Hs.
        injection Hs as <-; split; [reflexivity|exact Hc].
      * intros [(c & Hr & Hn)|(e & Hr)]; [|discriminate Hr].
        injection Hr as <-; contradiction.
      * intros Hgov _ c l Hr _ _; injection Hr as <-.
        split; [exact (Hdef Hgov)|exact Hget].
    + assert (Hn : ~ complete cache)
        by (intros Hc; apply all_not_None_complete in Hc; congruence).
      split; [|split].
      * intros stored Hs.
        destruct (Hsame H) as (_ & Hnone & _); congruence.
      * intros _; exact (Hsame H).
      * intros _ _ c l Hr Hc; injection Hr as <-; contradiction.
  - intros stored Hs.
    destruct (Hsame H) as (_ & Hnone & _); congruence.
  - intros _; exact (Hsame H).
  - intros _ _ c l Hr; discriminate Hr.
Qed.

Lemma InitCache_stores_no_None_field_witness :
  PerDeviceCache.get (per_device empty_world) no_governor_file = None
  /\ exists cache w',
       _InitCache no_governor_file empty_world = (Ret cache, w')
       /\ available_governors cache = KNOWN_CPU_SCALING_GOVERNOR_VALUES
       /\ PerDeviceCache.get (per_device w') no_governor_file = Some cache.
Proof.
  assert (Hmiss : PerDeviceCache.get (per_device empty_world) no_governor_file
                  = None) by reflexivity.
  split; [exact Hmiss|].
  destruct (InitCache_stores_no_None_field no_governor_file empty_world Hmiss)
    as (r & w' & E & _ & _ & Hstored).
  assert (Hr : fst (_InitCache no_governor_file empty_world) =
               Ret {| build_props :=
                        Some (<["ro.build.id" := "LMY48I"]>
                                (<["ro.build.description" := "a=b"]> ∅));
                      external_storage_path := Some "/sdcard";
                      has_su := true;
                      available_frequencies := FreqList [300000; 1000000];
                      available_governors :=
                        KNOWN_CPU_SCALING_GOVERNOR_VALUES |})
    by (vm_compute; reflexivity).
  rewrite E in Hr; cbn [fst] in Hr.
  eexists; exists w'; split; [rewrite E, Hr; reflexivity|].
  refine (Hstored eq_refl _ _ [300000; 1000000] Hr _ eq_refl).
  - vm_compute; discriminate.
  - repeat split; discriminate.
Defined.

(** C9, as stated, fails: the read of scaling_available_governors fails
    on this device, and the snapshot is cached all the same. *)
Lemma InitCache_caches_after_failed_read :
  reported_governors no_governor_file empty_world = None
  /\ exists cache,
       fst (_InitCache no_governor_file empty_world) = Ret cache
       /\ PerDeviceCache.get
            (per_device (snd (_InitCache no_governor_file empty_world)))
            no_governor_file = Some cache.
Proof.
  split; [reflexivity|].
  eexists; split; vm_compute; reflexivity.
Qed.

(** C10. On a cache miss, when the read of scaling_available_governors
    yields None or the empty content, and the build properties and the
    frequency texts are well formed, [_InitCache] returns a snapshot that
    lists the six known governors; with that snapshot
    [SetCPUScalingGovernor] of any known governor goes on to read
    scaling_governor instead of returning at once. *)
Theorem InitCache_default_governors device w :
  PerDeviceCache.get (per_device w) device = None ->
  truthy_str (reported_governors device w) = false ->
  build_prop_well_formed (reported_build_prop device w) ->
  frequencies_well_formed device w ->
  exists cache w',
    _InitCache device w = (Ret cache, w')
    /\ available_governors cache =
       [ "conservative"; "interactive"; "ondemand"; "performance";
         "powersave"; "userspace" ]
    /\ forall host n governor w0,
        In governor KNOWN_CPU_SCALING_GOVERNOR_VALUES ->
        EPullContent scaling_governor :: trace w0
          `suffix_of`
          trace (snd (SetCPUScalingGovernor host
                        {| _device := device; _cache := cache |}
                        (S n) governor w0)).
Proof.
  intros Hmiss Hgov Hbp Hfreq.
  pose proof (InitCache_governors_default_returns device w
                Hmiss Hgov Hbp Hfreq) as H.
  unfold wp in H.
  destruct (_InitCache device w) as [r w'] eqn:E; cbn [fst snd] in H.
  destruct r as [c|e|]; [|destruct H|destruct H].
  exists c, w'; split; [reflexivity|split; [exact H|]].
  intros host n governor w0 Hk.
  apply SetCPUScalingGovernor_reads_first; [exact Hk|].
  change (In governor (available_governors c)); rewrite H; exact Hk.
Qed.

Lemma InitCache_default_governors_witness :
  PerDeviceCache.get (per_device empty_world) old_kernel = None
  /\ truthy_str (reported_governors old_kernel empty_world) = false
  /\ exists cache w',
      _InitCache old_kernel empty_world = (Ret cache, w')
      /\ available_governors cache =
         [ "conservative"; "interactive"; "ondemand"; "performance";
           "powersave"; "userspace" ]
      /\ forall host n governor w0,
          In governor KNOWN_CPU_SCALING_GOVERNOR_VALUES ->
          EPullContent scaling_governor :: trace w0
            `suffix_of`
            trace (snd (SetCPUScalingGovernor host
                          {| _device := old_kernel; _cache := cache |}
                          (S n) governor w0)).
Proof.
  split; [reflexivity|split; [reflexivity|]].
  refine (InitCache_default_governors old_kernel empty_world
            eq_refl eq_refl _ _).
  - vm_compute; discriminate.
  - vm_compute; split; discriminate.
Defined.

Example InitCache_old_kernel :
  fst (_InitCache old_kernel empty_world) =
  Ret {| build_props := Some (<["ro.build.id" := "JDQ39"]> ∅);
         external_storage_path := Some "/sdcard";
         has_su := false;
         available_frequencies := FreqList [384000; 1512000];
         available_governors := KNOWN_CPU_SCALING_GOVERNOR_VALUES |}.
Proof. vm_compute; reflexivity. Qed.

Lemma sorted_str_In g l : In g l -> In g (Py.sorted_str l).
Proof.
  intros H; apply list_elem_of_In.
  unfold Py.sorted_str.
  rewrite (merge_sort_Permutation Py.str_le l).
  apply list_elem_of_In; exact H.
Qed.

(** When a reported governor is not a known one, the assertion of
    [_InitCache] fails and nothing is stored. *)
Lemma InitCache_unknown_governor device w out g :
  PerDeviceCache.get (per_device w) device = None ->
  build_prop_well_formed (reported_build_prop device w) ->
  reported_governors device w = Some out ->
  out <> "" ->
  In g (Py.split out) ->
  ~ In g KNOWN_CPU_SCALING_GOVERNOR_VALUES ->
  wp (_InitCache device)
     (fun r w' => r = Raise AssertionError /\ per_device w' = per_device w) w.
Proof.
  intros Hmiss Hbp Hgov Hne Hg Hu; unfold _InitCache.
  unfold reported_governors, history_before_governors in Hgov.
  unfold build_prop_well_formed, reported_build_prop in Hbp.
  apply wp_bind; unfold wp at 1, PER_DEVICE_CACHE_get; cbn [fst snd].
  rewrite Hmiss.
  repeat wp_step.
  all: cbv beta iota in Hbp.
  all: try congruence.
  all: try (split; reflexivity).
  all: exfalso; apply Hu; inversion Hgov; subst out;
    match goal with
    | H : forallb _ _ = true |- _ =>
        rewrite forallb_forall in H;
        apply in_str_spec, H, sorted_str_In; exact Hg
    end.
Qed.

(** C2 (as amended). [_InitCache] asserts on the governors the device
    reports: on a cache miss with well-formed build properties, if
    scaling_available_governors lists a name outside the known set the call
    raises AssertionError and stores nothing.  A current governor read from
    scaling_governor by [SetCPUScalingGovernor] that is not in the cached
    list is only logged as a warning, and the write goes ahead. *)
Theorem InitCache_asserts_known_governors :
  (forall device w out g,
      PerDeviceCache.get (per_device w) device = None ->
      build_prop_well_formed (reported_build_prop device w) ->
      reported_governors device w = Some out ->
      out <> "" ->
      In g (Py.split out) ->
      ~ In g KNOWN_CPU_SCALING_GOVERNOR_VALUES ->
      exists w',
        _InitCache device w = (Raise AssertionError, w')
        /\ per_device w' = per_device w)
  /\ (forall host self n governor w prev,
        In governor KNOWN_CPU_SCALING_GOVERNOR_VALUES ->
        In governor (available_governors (cache self)) ->
        PullContent_answer (_device self) (trace w) scaling_governor
        = Some prev ->
        prev <> "" ->
        ~ In (Py.strip prev) (available_governors (cache self)) ->
        EPushContent (governor +:+ NL) scaling_governor
          :: ELog WARNING
               "%s.SetCPUScalingGovernor(): Read invalid scaling_governor: %s"
          :: EPullContent scaling_governor :: trace w
          `suffix_of`
          trace (snd (SetCPUScalingGovernor host self (S n) governor w))).
Proof.
  split.
  - intros device w out g Hmiss Hbp Hgov Hne Hg Hu.
    pose proof (InitCache_unknown_governor device w out g
                  Hmiss Hbp Hgov Hne Hg Hu) as H.
    unfold wp in H.
    destruct (_InitCache device w) as [r w'] eqn:E; cbn [fst snd] in H.
    destruct H as [-> Hp]; exists w'; split; [reflexivity|exact Hp].
  - intros host self n governor w prev.
    apply SetCPUScalingGovernor_logs_unlisted.
Qed.

Lemma InitCache_asserts_known_governors_witness :
  (exists w',
      _InitCache custom_rom empty_world = (Raise AssertionError, w')
      /\ per_device w' = per_device empty_world)
  /\ EPushContent ("performance" +:+ NL) scaling_governor
       :: ELog WARNING
            "%s.SetCPUScalingGovernor(): Read invalid scaling_governor: %s"
       :: EPullContent scaling_governor :: trace empty_world
       `suffix_of`
       trace (snd (SetCPUScalingGovernor sample_host narrow_cache
                     1 "performance" empty_world)).
Proof.
  split.
  - refine (proj1 InitCache_asserts_known_governors custom_rom empty_world
              ("interactive schedutil performance" +:+ NL) "schedutil"
              eq_refl _ eq_refl _ _ _).
    + vm_compute; discriminate.
    + discriminate.
    + vm_compute; right; left; reflexivity.
    + unfold KNOWN_CPU_SCALING_GOVERNOR_VALUES; simpl.
      intros H; repeat (destruct H as [H|H]; [discriminate H|]); destruct H.
  - refine (proj2 InitCache_asserts_known_governors sample_host narrow_cache
              0%nat
              "performance" empty_world ("interactive" +:+ NL) _ _ eq_refl _ _).
    + do 3 right; left; reflexivity.
    + left; reflexivity.
    + discriminate.
    + vm_compute; intros [H|[H|[]]]; discriminate H.
Defined.

(** C2, as stated, fails: the device reports the governor schedutil,
    which is not a known one, and [_InitCache] raises AssertionError. *)
Lemma InitCache_unknown_governor_raises :
  reported_governors custom_rom empty_world
  = Some ("interactive schedutil performance" +:+ NL)
  /\ In "schedutil" (Py.split ("interactive schedutil performance" +:+ NL))
  /\ ~ In "schedutil" KNOWN_CPU_SCALING_GOVERNOR_VALUES
  /\ fst (_InitCache custom_rom empty_world) = Raise AssertionError
  /\ rev (trace (snd (_InitCache custom_rom empty_world))) =
     [ EShell "echo -n $EXTERNAL_STORAGE";
       EPullContent "/system/build.prop";
       EStat "/system/xbin/su";
       EPullContent (cpufreq +:+ "scaling_available_governors") ].
Proof.
  split; [reflexivity|].
  split; [vm_compute; right; left; reflexivity|].
  split.
  - unfold KNOWN_CPU_SCALING_GOVERNOR_VALUES; simpl.
    intros H; repeat (destruct H as [H|H]; [discriminate H|]); destruct H.
  - split; vm_compute; reflexivity.
Qed.

(** Every snapshot [_InitCache] builds lists known governors only, so a
    governor of the cached list passes the assertion that opens
    [SetCPUScalingGovernor]. *)
Lemma InitCache_governors_known device w :
  PerDeviceCache.get (per_device w) device = None ->
  wp (_InitCache device)
     (fun r _ =>
        match r with
        | Ret cache =>
            forall g, In g (available_governors cache) ->
                      In g KNOWN_CPU_SCALING_GOVERNOR_VALUES
        | _ => True
        end) w.
Proof.
  intros Hmiss; unfold _InitCache.
  apply wp_bind; unfold wp at 1, PER_DEVICE_CACHE_get; cbn [fst snd].
  rewrite Hmiss.
  repeat wp_step.
  all: try exact I.
  all: cbn [available_governors]; try (intros x Hx; exact Hx).
  all: intros x Hx;
    match goal with
    | H : forallb _ _ = true |- _ =>
        rewrite forallb_forall in H; apply in_str_spec, H; exact Hx
    end.
Qed.

(** * Further properties of the code *)

(** ** _ParcelToList: shape of the output *)

Lemma take_class_all cls n s got rest :
  Re.take_class cls n s = Some (got, rest) -> Py.all_chars cls got = true.
Proof.
  revert s got; induction n as [|n IH]; intros s got H; simpl in H.
  - inversion H; reflexivity.
  - destruct s as [|c s]; [discriminate|].
    destruct (cls c) eqn:Hc; [|discriminate].
    destruct (Re.take_class cls n s) as [[g r]|] eqn:E; [|discriminate].
    inversion H; subst; simpl; rewrite Hc; eauto.
Qed.

(** An accepted line has at least 68 characters, and its four groups are
    8 characters of [[0-9a-f ]] each. *)
Lemma match_shape line groups :
  Re.match_ parcel_pattern line = Some groups ->
  (68 <= String.length line)%nat
  /\ List.length groups = 4%nat
  /\ Forall (fun g => String.length g = 8%nat
                      /\ Py.all_chars Re.hex_or_space g = true) groups.
Proof.
  unfold parcel_pattern; cbn [Re.match_].
  destruct (Re.take_lit "  0x" line) as [r0|] eqn:E0; [|discriminate].
  destruct (Re.take_class Re.hex 8 r0) as [[h r1]|] eqn:E1; [|discriminate].
  destruct (Re.take_lit ": " r1) as [r2|] eqn:E2; [|discriminate].
  destruct (Re.take_class Re.hex_or_space 8 r2) as [[g1 r3]|] eqn:E3;
    [|discriminate].
  destruct (Re.take_lit " " r3) as [r4|] eqn:E4; [|discriminate].
  destruct (Re.take_class Re.hex_or_space 8 r4) as [[g2 r5]|] eqn:E5;
    [|discriminate].
  destruct (Re.take_lit " " r5) as [r6|] eqn:E6; [|discriminate].
  destruct (Re.take_class Re.hex_or_space 8 r6) as [[g3 r7]|] eqn:E7;
    [|discriminate].
  destruct (Re.take_lit " " r7) as [r8|] eqn:E8; [|discriminate].
  destruct (Re.take_class Re.hex_or_space 8 r8) as [[g4 r9]|] eqn:E9;
    [|discriminate].
  destruct (Re.take_lit " '" r9) as [r10|] eqn:E10; [|discriminate].
  destruct (Re.take_class Re.dot 16 r10) as [[pv r11]|] eqn:E11;
    [|discriminate].
  destruct (Re.take_lit "'" r11) as [r12|] eqn:E12; [|discriminate].
  intros H.
  assert (Hg : groups = [g1; g2; g3; g4]).
  { destruct (Re.take_lit ")" r12); simpl in H; congruence. }
  subst groups; clear H.
  pose proof (take_class_all _ _ _ _ _ E3) as A3.
  pose proof (take_class_all _ _ _ _ _ E5) as A5.
  pose proof (take_class_all _ _ _ _ _ E7) as A7.
  pose proof (take_class_all _ _ _ _ _ E9) as A9.
  apply take_lit_app in E0, E2, E4, E6, E8, E10, E12.
  apply take_class_app in E1, E3, E5, E7, E9, E11.
  destruct E1 as [E1 L1], E3 as [E3 L3], E5 as [E5 L5], E7 as [E7 L7],
           E9 as [E9 L9], E11 as [E11 L11].
  split; [|split; [reflexivity|]].
  - subst line r0 r1 r2 r3 r4 r5 r6 r7 r8 r9 r10 r11.
    rewrite !length_app_str, L1, L3, L5, L7, L9, L11; simpl; lia.
  - repeat (apply List.Forall_cons; [split; assumption|]).
    apply List.Forall_nil.
Qed.

Lemma substring_length n m s :
  (n + m <= String.length s)%nat -> String.length (substring n m s) = m.
Proof.
  revert n m; induction s as [|c s IH]; intros n m H; simpl in H.
  - assert (n = 0%nat) by lia; assert (m = 0%nat) by lia; subst.
    reflexivity.
  - destruct n as [|n]; simpl.
    + destruct m as [|m]; [reflexivity|]; simpl; f_equal.
      apply IH; simpl; lia.
    + apply IH; lia.
Qed.

Lemma substring_all cls n m s :
  Py.all_chars cls s = true -> Py.all_chars cls (substring n m s) = true.
Proof.
  revert n m; induction s as [|c s IH]; intros n m H.
  - destruct n, m; reflexivity.
  - simpl in H; apply andb_true_iff in H as [Hc Hs].
    destruct n as [|n]; simpl.
    + destruct m as [|m]; [reflexivity|]; simpl; rewrite Hc; apply IH, Hs.
    + apply IH, Hs.
Qed.

Lemma matching_prefix lines :
  exists valid rest,
    lines = valid ++ rest
    /\ Forall parcel_line valid
    /\ (rest = [] \/ exists bad later, rest = bad :: later /\ ~ parcel_line bad).
Proof.
  induction lines as [|l lines (valid & rest & -> & Hv & Hr)].
  - exists [], []; auto.
  - destruct (Re.match_ parcel_pattern l) as [groups|] eqn:E.
    + exists (l :: valid), rest; split; [reflexivity|]; split; [|exact Hr].
      apply List.Forall_cons; [unfold parcel_line; congruence|exact Hv].
    + exists [], (l :: valid ++ rest); split; [reflexivity|].
      split; [apply List.Forall_nil|].
      right; exists l, (valid ++ rest); split; [reflexivity|].
      intros H; apply H; exact E.
Qed.

Lemma ParcelToList_prefix lines :
  exists valid rest,
    lines = valid ++ rest
    /\ Forall parcel_line valid
    /\ _ParcelToList lines = flat_map line_units valid.
Proof.
  destruct (matching_prefix lines) as (valid & rest & -> & Hv & Hr).
  exists valid, rest; split; [reflexivity|]; split; [exact Hv|].
  unfold _ParcelToList.
  rewrite (ParcelToList_loop_prefix valid rest [] Hv Hr); reflexivity.
Qed.

Lemma column_units_spec g :
  String.length g = 8%nat ->
  Py.all_chars Re.hex_or_space g = true ->
  Forall code_unit (column_units g) /\ (List.length (column_units g) <= 2)%nat.
Proof.
  intros Hl Ha; unfold column_units, nonblank.
  assert (H4 : code_unit (substring 4 4 g) \/ substring 4 4 g = "    ").
  { destruct (String.eqb_spec (substring 4 4 g) "    ") as [E|E];
      [right; exact E|left].
    split; [apply substring_length; lia|].
    split; [apply substring_all; exact Ha|exact E]. }
  assert (H0 : code_unit (substring 0 4 g) \/ substring 0 4 g = "    ").
  { destruct (String.eqb_spec (substring 0 4 g) "    ") as [E|E];
      [right; exact E|left].
    split; [apply substring_length; lia|].
    split; [apply substring_all; exact Ha|exact E]. }
  destruct (String.eqb_spec (substring 4 4 g) "    ") as [E4|E4];
    destruct (String.eqb_spec (substring 0 4 g) "    ") as [E0|E0];
    cbn [app List.length]; (split; [|lia]).
  - apply List.Forall_nil.
  - destruct H0 as [H0|H0]; [|contradiction].
    apply List.Forall_cons; [exact H0|apply List.Forall_nil].
  - destruct H4 as [H4|H4]; [|contradiction].
    apply List.Forall_cons; [exact H4|apply List.Forall_nil].
  - destruct H4 as [H4|H4]; [|contradiction].
    destruct H0 as [H0|H0]; [|contradiction].
    apply List.Forall_cons; [exact H4|].
    apply List.Forall_cons; [exact H0|apply List.Forall_nil].
Qed.

Lemma line_units_spec line :
  parcel_line line ->
  Forall code_unit (line_units line) /\ (List.length (line_units line) <= 8)%nat.
Proof.
  intros Hl; unfold parcel_line in Hl.
  destruct (Re.match_ parcel_pattern line) as [groups|] eqn:E; [|congruence].
  destruct (match_shape _ _ E) as (_ & _ & Hg).
  rewrite (match_groups _ _ E) in Hg; unfold columns in Hg.
  unfold line_units, columns.
  inversion Hg as [|g1 l1 [L1 A1] Hg1]; subst.
  inversion Hg1 as [|g2 l2 [L2 A2] Hg2]; subst.
  inversion Hg2 as [|g3 l3 [L3 A3] Hg3]; subst.
  inversion Hg3 as [|g4 l4 [L4 A4] Hg4]; subst.
  destruct (column_units_spec _ L1 A1) as [F1 N1].
  destruct (column_units_spec _ L2 A2) as [F2 N2].
  destruct (column_units_spec _ L3 A3) as [F3 N3].
  destruct (column_units_spec _ L4 A4) as [F4 N4].
  cbn [flat_map]; rewrite app_nil_r; split.
  - rewrite !Forall_app; repeat split; assumption.
  - rewrite !length_app; lia.
Qed.

Lemma ParcelToList_output lines :
  Forall code_unit (_ParcelToList lines)
  /\ (List.length (_ParcelToList lines) <= 8 * List.length lines)%nat.
Proof.
  destruct (ParcelToList_prefix lines) as (valid & rest & -> & Hv & ->).
  rewrite length_app.
  induction Hv as [|line valid Hl Hv [IH1 IH2]].
  - split; [apply List.Forall_nil|simpl; lia].
  - destruct (line_units_spec line Hl) as [F N].
    cbn [flat_map List.length]; split.
    + apply Forall_app; split; assumption.
    + rewrite length_app; lia.
Qed.

(** X1. Whatever the lines, every element of the list that
    [_ParcelToList] returns has four characters, all of them hexadecimal
    digits or spaces, and is not four spaces; and a line contributes at most
    eight elements. *)
Theorem ParcelToList_units lines :
  Forall code_unit (_ParcelToList lines)
  /\ (List.length (_ParcelToList lines) <= 8 * List.length lines)%nat.
Proof. exact (ParcelToList_output lines). Qed.

Lemma short_line_rejected line :
  (String.length line < 68)%nat -> Re.match_ parcel_pattern line = None.
Proof.
  intros H; destruct (Re.match_ parcel_pattern line) as [groups|] eqn:E;
    [|reflexivity].
  destruct (match_shape _ _ E) as (Hlen & _); lia.
Qed.

(** X2. Feeding the output of [_ParcelToList] back to it gives the empty
    list: a decoded unit has four characters and an accepted line at least
    68. *)
Theorem ParcelToList_of_output lines :
  _ParcelToList (_ParcelToList lines) = [].
Proof.
  destruct (ParcelToList_output lines) as [Hu _].
  destruct (_ParcelToList lines) as [|u us]; [reflexivity|].
  inversion Hu as [|? ? (Hlen & _) _]; subst.
  unfold _ParcelToList; rewrite ParcelToList_loop_cons.
  rewrite short_line_rejected; [reflexivity|lia].
Qed.

(** ** _PerDeviceCache: further properties *)

Lemma trim_lookup (per_device : gmap string DeviceCache) devices k :
  PerDeviceCache.trim per_device devices !! k =
  match corresponding devices k with
  | Some dev => if hd_is_valid dev then per_device !! k else None
  | None => None
  end.
Proof.
  unfold PerDeviceCache.trim.
  rewrite trim_fold_lookup; unfold stale; rewrite device_keys_lookup.
  destruct (decide (k ∈ PerDeviceCache.keys per_device)) as [Hin|Hni].
  - destruct (corresponding devices k) as [dev|]; [|reflexivity].
    destruct (hd_is_valid dev); reflexivity.
  - assert (per_device !! k = None) as ->.
    { destruct (per_device !! k) eqn:E; [|reflexivity].
      exfalso; apply Hni, keys_spec; eauto. }
    destruct (corresponding devices k) as [dev|]; [|reflexivity].
    destruct (hd_is_valid dev); reflexivity.
Qed.

(** X3. [trim] never adds an entry nor changes the value of one, and
    trimming twice against the same devices is trimming once. *)
Theorem trim_shrinks_and_is_idempotent
    (per_device : gmap string DeviceCache) (devices : list HighDevice) :
  PerDeviceCache.trim per_device devices ⊆ per_device
  /\ PerDeviceCache.trim (PerDeviceCache.trim per_device devices) devices
     = PerDeviceCache.trim per_device devices.
Proof.
  split.
  - apply map_subseteq_spec; intros k c; rewrite trim_lookup.
    destruct (corresponding devices k) as [dev|]; [|discriminate].
    destruct (hd_is_valid dev); [auto|discriminate].
  - apply map_eq; intros k; rewrite !trim_lookup.
    destruct (corresponding devices k) as [dev|]; [|reflexivity].
    destruct (hd_is_valid dev); reflexivity.
Qed.

(** X4. What [set] stores for a device is what [get] returns for it,
    other port paths are not affected, and a following [trim] keeps the
    entry exactly when the live device found for that port path is valid. *)
Theorem set_then_get_and_trim
    (per_device : gmap string DeviceCache) (device : Device)
    (snapshot : DeviceCache) :
  PerDeviceCache.get (PerDeviceCache.set per_device device snapshot) device
  = Some snapshot
  /\ (forall other,
        port_path other <> port_path device ->
        PerDeviceCache.get (PerDeviceCache.set per_device device snapshot) other
        = PerDeviceCache.get per_device other)
  /\ (forall devices live,
        corresponding devices (port_path device) = Some live ->
        PerDeviceCache.get
          (PerDeviceCache.trim
             (PerDeviceCache.set per_device device snapshot) devices) device
        = if hd_is_valid live then Some snapshot else None)
  /\ (forall devices,
        corresponding devices (port_path device) = None ->
        PerDeviceCache.get
          (PerDeviceCache.trim
             (PerDeviceCache.set per_device device snapshot) devices) device
        = None).
Proof.
  unfold PerDeviceCache.get, PerDeviceCache.set.
  split; [apply lookup_insert_eq|].
  split; [intros other Hne; apply lookup_insert_ne; congruence|].
  split.
  - intros devices live Hc; rewrite trim_lookup, Hc, lookup_insert_eq.
    reflexivity.
  - intros devices Hc; rewrite trim_lookup, Hc; reflexivity.
Qed.

Lemma set_then_get_and_trim_witness :
  corresponding [nexus; unplugged] (port_path (_device unplugged))
  = Some unplugged
  /\ PerDeviceCache.get
       (PerDeviceCache.trim
          (PerDeviceCache.set ∅ (_device unplugged) (cache unplugged))
          [nexus; unplugged]) (_device unplugged)
     = None.
Proof.
  split; [reflexivity|].
  exact (proj1 (proj2 (proj2 (set_then_get_and_trim ∅ (_device unplugged)
                                (cache unplugged))))
           [nexus; unplugged] unplugged eq_refl).
Defined.

(** ** _InitCache: further properties *)

(** X5. Once [_InitCache] has returned a snapshot with no None field,
    calling it again for the same device makes no device call and returns
    the same snapshot. *)
Theorem InitCache_twice device w snapshot w' :
  _InitCache device w = (Ret snapshot, w') ->
  complete snapshot ->
  _InitCache device w' = (Ret snapshot, w').
Proof.
  intros E Hc.
  destruct (PerDeviceCache.get (per_device w) device) as [cached|] eqn:Hget.
  - rewrite (InitCache_hit _ _ _ Hget) in E; inversion E; subst.
    apply InitCache_hit; exact Hget.
  - pose proof (InitCache_store device w Hget) as H; unfold wp in H.
    rewrite E in H; cbn [fst snd] in H.
    rewrite (proj2 (all_not_None_complete snapshot) Hc) in H.
    apply InitCache_hit; unfold PerDeviceCache.get; rewrite H.
    apply lookup_insert_eq.
Qed.

Lemma InitCache_twice_witness :
  exists snapshot w',
    _InitCache pixel empty_world = (Ret snapshot, w')
    /\ complete snapshot
    /\ _InitCache pixel w' = (Ret snapshot, w').
Proof.
  destruct (_InitCache pixel empty_world) as [r w'] eqn:E.
  assert (Hr : exists snapshot, r = Ret snapshot /\ complete snapshot).
  { assert (Hf : fst (_InitCache pixel empty_world) = r) by (rewrite E; reflexivity).
    vm_compute in Hf; subst r; eexists; split; [reflexivity|].
    repeat split; discriminate. }
  destruct Hr as (snapshot & -> & Hc).
  exists snapshot, w'; split; [reflexivity|split; [exact Hc|]].
  exact (InitCache_twice pixel empty_world snapshot w' E Hc).
Defined.

Lemma str_le_total : Total Py.str_le.
Proof.
  intros a b; unfold Py.str_le.
  destruct (String.leb_total a b) as [H|H]; rewrite H; [left|right]; exact I.
Qed.

#[local] Existing Instance str_le_total.

Lemma known_governors_sorted :
  Sorted Py.str_le KNOWN_CPU_SCALING_GOVERNOR_VALUES.
Proof.
  unfold KNOWN_CPU_SCALING_GOVERNOR_VALUES.
  repeat (apply Sorted_cons; [|first [apply HdRel_nil
                                     |apply HdRel_cons; exact I]]).
  apply Sorted_nil.
Qed.

(** The lists of a snapshot: the governors are sorted and known, and the
    frequencies read from scaling_available_frequencies are sorted. *)
Lemma InitCache_sorted device w :
  PerDeviceCache.get (per_device w) device = None ->
  wp (_InitCache device)
     (fun r _ =>
        match r with
        | Ret snapshot =>
            Sorted Py.str_le (available_governors snapshot)
            /\ Forall (fun g => In g KNOWN_CPU_SCALING_GOVERNOR_VALUES)
                      (available_governors snapshot)
            /\ (truthy_str (reported_frequencies device w) = true ->
                exists l, available_frequencies snapshot = FreqList l
                          /\ Sorted Z.le l)
        | _ => True
        end) w.
Proof.
  intros Hmiss; unfold _InitCache.
  unfold reported_frequencies, history_before_governors.
  apply wp_bind; unfold wp at 1, PER_DEVICE_CACHE_get; cbn [fst snd].
  rewrite Hmiss.
  repeat wp_step.
  all: try exact I.
  all: cbn [available_governors available_frequencies].
  all: split;
    [first [apply known_governors_sorted
           |apply (Sorted_merge_sort Py.str_le)]
    |split].
  all: try (apply List.Forall_forall; intros x Hx; exact Hx).
  all: try (apply List.Forall_forall; intros x Hx;
            match goal with
            | H : forallb _ _ = true |- _ =>
                rewrite forallb_forall in H; apply in_str_spec, H; exact Hx
            end).
  all: try (intros Hf; cbv in Hf; discriminate Hf).
  all: intros _; eexists; split; [reflexivity|];
    apply (Sorted_merge_sort Z.le).
Qed.

(** X6. In every snapshot that [_InitCache] builds, the governor list is
    sorted and holds known governor names only; and when the device has a
    scaling_available_frequencies file with content, the frequency list is
    sorted in ascending order. *)
Theorem InitCache_lists_sorted device w snapshot w' :
  PerDeviceCache.get (per_device w) device = None ->
  _InitCache device w = (Ret snapshot, w') ->
  Sorted Py.str_le (available_governors snapshot)
  /\ Forall (fun g => In g KNOWN_CPU_SCALING_GOVERNOR_VALUES)
            (available_governors snapshot)
  /\ (truthy_str (reported_frequencies device w) = true ->
      exists l, available_frequencies snapshot = FreqList l /\ Sorted Z.le l).
Proof.
  intros Hmiss E.
  pose proof (InitCache_sorted device w Hmiss) as H; unfold wp in H.
  rewrite E in H; exact H.
Qed.

Lemma InitCache_lists_sorted_witness :
  PerDeviceCache.get (per_device empty_world) pixel = None
  /\ truthy_str (reported_frequencies pixel empty_world) = true
  /\ exists snapshot l,
      fst (_InitCache pixel empty_world) = Ret snapshot
      /\ available_frequencies snapshot = FreqList l
      /\ Sorted Z.le l.
Proof.
  split; [reflexivity|split; [reflexivity|]].
  destruct (_InitCache pixel empty_world) as [r w'] eqn:E.
  assert (Hr : exists snapshot, r = Ret snapshot).
  { assert (Hf : fst (_InitCache pixel empty_world) = r)
      by (rewrite E; reflexivity).
    vm_compute in Hf; subst r; eexists; reflexivity. }
  destruct Hr as (snapshot & ->).
  destruct (InitCache_lists_sorted pixel empty_world snapshot w' eq_refl E)
    as (_ & _ & Hf).
  destruct (Hf eq_refl) as (l & Hl & Hs).
  exists snapshot, l; split; [reflexivity|split; assumption].
Defined.

(** ** build.prop: proofs *)

Lemma split_once_spec sep s k v :
  Py.split_once sep s = Some (k, v) ->
  s = k +:+ String sep v /\ lacks sep k = true.
Proof.
  revert k; induction s as [|c s IH]; intros k H; simpl in H; [discriminate|].
  destruct (Ascii.eqb_spec c sep) as [->|Hne].
  - inversion H; subst; split; reflexivity.
  - destruct (Py.split_once sep s) as [[k' v']|]; [|discriminate].
    inversion H; subst.
    destruct (IH k' eq_refl) as [-> Hl]; split; [reflexivity|].
    unfold lacks in *; simpl; rewrite Hl.
    destruct (Ascii.eqb_spec c sep); [contradiction|reflexivity].
Qed.

Lemma split_once_None sep s :
  Py.split_once sep s = None <-> lacks sep s = true.
Proof.
  unfold lacks; induction s as [|c s IH]; simpl; [split; reflexivity|].
  destruct (Ascii.eqb c sep); simpl; [split; discriminate|].
  destruct (Py.split_once sep s) as [[k v]|].
  - split; [discriminate|].
    intros H; apply IH in H; discriminate.
  - split; [intros _; apply IH; reflexivity|reflexivity].
Qed.

Lemma split_once_join sep k v :
  lacks sep k = true -> Py.split_once sep (k +:+ String sep v) = Some (k, v).
Proof.
  unfold lacks; induction k as [|c k IH]; intros H.
  - rewrite append_nil; simpl; rewrite Ascii.eqb_refl; reflexivity.
  - simpl in H; apply andb_true_iff in H as [Hc Hk].
    rewrite append_cons; simpl.
    destruct (Ascii.eqb c sep); [discriminate|].
    rewrite (IH Hk); reflexivity.
Qed.

Lemma parse_build_prop_cons line rest properties :
  parse_build_prop (line :: rest) properties =
  if Py.is_ascii line then
    if property_line line then
      match Py.split_once "=" line with
      | Some (key, value) => parse_build_prop rest (<[key := value]> properties)
      | None => None
      end
    else parse_build_prop rest properties
  else None.
Proof.
  unfold property_line; cbn [parse_build_prop].
  destruct (Py.is_ascii line); cbn [negb]; [|reflexivity].
  destruct (Py.startswith line "#" || String.eqb line ""); [reflexivity|].
  destruct (Py.startswith line "import "); reflexivity.
Qed.

Lemma parse_build_prop_sound lines properties result :
  parse_build_prop lines properties = Some result ->
  forall k v,
    result !! k = Some v ->
    properties !! k = Some v
    \/ (In (k +:+ "=" +:+ v) lines /\ lacks "=" k = true
        /\ Py.is_ascii (k +:+ "=" +:+ v) = true).
Proof.
  revert properties; induction lines as [|line rest IH]; intros properties H k v Hk.
  - inversion H; subst; left; exact Hk.
  - rewrite parse_build_prop_cons in H.
    destruct (Py.is_ascii line) eqn:Hascii; [|discriminate].
    destruct (property_line line).
    + destruct (Py.split_once "=" line) as [[key value]|] eqn:E; [|discriminate].
      destruct (IH _ H k v Hk) as [Hin|(Hin & Hl & Ha)].
      * destruct (decide (key = k)) as [->|Hne].
        -- rewrite lookup_insert_eq in Hin; inversion Hin; subst.
           destruct (split_once_spec _ _ _ _ E) as [-> Hl].
           right; split; [left; reflexivity|split; [exact Hl|exact Hascii]].
        -- rewrite lookup_insert_ne in Hin by exact Hne; left; exact Hin.
      * right; split; [right; exact Hin|split; [exact Hl|exact Ha]].
    + destruct (IH _ H k v Hk) as [Hin|(Hin & Hl & Ha)]; [left; exact Hin|].
      right; split; [right; exact Hin|split; [exact Hl|exact Ha]].
Qed.

Lemma parse_build_prop_app l1 l2 properties :
  parse_build_prop (l1 ++ l2) properties =
  match parse_build_prop l1 properties with
  | Some m => parse_build_prop l2 m
  | None => None
  end.
Proof.
  revert properties; induction l1 as [|line l1 IH]; intros properties;
    [reflexivity|].
  rewrite <- app_comm_cons, !parse_build_prop_cons.
  destruct (Py.is_ascii line); [|reflexivity].
  destruct (property_line line); [|apply IH].
  destruct (Py.split_once "=" line) as [[key value]|]; [apply IH|reflexivity].
Qed.

Lemma parse_build_prop_fails lines properties :
  parse_build_prop lines properties = None <->
  Exists (fun line => Py.is_ascii line = false \/ malformed_line line = true)
         lines.
Proof.
  revert properties; induction lines as [|line rest IH]; intros properties.
  - split; [discriminate|intros H; inversion H].
  - rewrite parse_build_prop_cons, Exists_cons; unfold malformed_line.
    destruct (Py.is_ascii line);
      [|split; [intros _; left; left; reflexivity|reflexivity]].
    destruct (property_line line); cbn [andb].
    + destruct (Py.split_once "=" line) as [[key value]|] eqn:E.
      * rewrite IH; split; [right; assumption|].
        intros [[H|H]|H]; [discriminate H| |exact H].
        apply split_once_None in H; congruence.
      * split; [|reflexivity].
        intros _; left; right; apply split_once_None; exact E.
    + rewrite IH; split; [right; assumption|].
      intros [[H|H]|H]; [discriminate H|discriminate H|exact H].
Qed.

(** A line the loop cannot unpack stops it, ascii or not. *)
Lemma parse_build_prop_malformed lines properties :
  Exists (fun line => malformed_line line = true) lines ->
  parse_build_prop lines properties = None.
Proof.
  intros H; apply parse_build_prop_fails.
  apply (Exists_impl _ _ _ H); intros line Hl; right; exact Hl.
Qed.

(** X7. The dictionary built from build.prop: when the loop runs
    through, every entry [k: v] comes from an ascii line [k=v] whose key
    has no ['='] (the value may have some); an ascii property line [k=v] at
    the end of the file sets [k] to [v] whatever came before; and the loop
    stops on an exception exactly when some line has a byte above 127
    (UnicodeDecodeError, be the line a comment) or is not empty, not a
    comment, not an import and has no ['='] (ValueError). *)
Theorem parse_build_prop_entries lines :
  (forall result k v,
      parse_build_prop lines ∅ = Some result ->
      result !! k = Some v ->
      In (k +:+ "=" +:+ v) lines /\ lacks "=" k = true
      /\ Py.is_ascii (k +:+ "=" +:+ v) = true)
  /\ (forall result k v,
        parse_build_prop lines ∅ = Some result ->
        Py.is_ascii (k +:+ "=" +:+ v) = true ->
        property_line (k +:+ "=" +:+ v) = true ->
        lacks "=" k = true ->
        parse_build_prop (lines ++ [k +:+ "=" +:+ v]) ∅
        = Some (<[k := v]> result))
  /\ (parse_build_prop lines ∅ = None <->
      Exists (fun line =>
                Py.is_ascii line = false \/ malformed_line line = true)
             lines).
Proof.
  split; [|split].
  - intros result k v H Hk.
    destruct (parse_build_prop_sound _ _ _ H k v Hk) as [Hin|Hin];
      [rewrite lookup_empty in Hin; discriminate|exact Hin].
  - intros result k v H Ha Hp Hl.
    rewrite parse_build_prop_app, H, parse_build_prop_cons, Ha, Hp.
    change (k +:+ "=" +:+ v) with (k +:+ String "=" v).
    rewrite (split_once_join _ _ _ Hl); reflexivity.
  - apply parse_build_prop_fails.
Qed.

Lemma parse_build_prop_entries_witness :
  parse_build_prop ["# header"; "ro.a=1"; ""; "import /x"] ∅
  = Some (<["ro.a" := "1"]> ∅)
  /\ parse_build_prop (["# header"; "ro.a=1"; ""; "import /x"] ++ ["ro.a=2=3"]) ∅
     = Some (<["ro.a" := "2=3"]> (<["ro.a" := "1"]> ∅)).
Proof.
  assert (H : parse_build_prop ["# header"; "ro.a=1"; ""; "import /x"] ∅
              = Some (<["ro.a" := "1"]> ∅)) by (vm_compute; reflexivity).
  split; [exact H|].
  exact (proj1 (proj2 (parse_build_prop_entries
                         ["# header"; "ro.a=1"; ""; "import /x"]))
           _ "ro.a" "2=3" H eq_refl eq_refl eq_refl).
Defined.

(** A comment with a byte above 127 stops the loop. *)
Example parse_build_prop_latin1_comment :
  parse_build_prop
    [ "ro.a=1";
      String "#" (String " " (String (ascii_of_nat 233) EmptyString)) ] ∅
  = None.
Proof. vm_compute; reflexivity. Qed.

(** X8. On a cache miss, when /system/build.prop has content and one of
    its lines is neither empty, a comment nor an import and has no ['='],
    [_InitCache] raises ValueError after its first two device calls and
    stores nothing. *)
Theorem InitCache_malformed_build_prop device w out :
  PerDeviceCache.get (per_device w) device = None ->
  reported_build_prop device w = Some out ->
  out <> "" ->
  Exists (fun line => malformed_line line = true) (Py.splitlines out) ->
  _InitCache device w =
  (Raise ValueError,
   {| trace := EPullContent "/system/build.prop"
               :: EShell "echo -n $EXTERNAL_STORAGE" :: trace w;
      per_device := per_device w |}).
Proof.
  intros Hmiss Hbp Hne Hbad.
  apply parse_build_prop_malformed with (properties := ∅) in Hbad.
  unfold reported_build_prop in Hbp.
  unfold _InitCache; unfold bind at 1.
  unfold PER_DEVICE_CACHE_get; rewrite Hmiss.
  unfold bind at 1; unfold dev_Shell at 1.
  destruct (Shell_answer device (trace w) "echo -n $EXTERNAL_STORAGE")
    as [esp exitcode].
  unfold bind at 1; unfold dev_PullContent at 1.
  cbn [trace record]; rewrite Hbp.
  destruct out as [|c out]; [congruence|].
  unfold bind at 1; unfold bind at 1; rewrite Hbad; reflexivity.
Qed.

Lemma InitCache_malformed_build_prop_witness :
  PerDeviceCache.get (per_device empty_world) broken_prop = None
  /\ Exists (fun line => malformed_line line = true)
            (Py.splitlines ("ro.build.id=LMY48I" +:+ NL +:+ "nonsense" +:+ NL))
  /\ _InitCache broken_prop empty_world =
     (Raise ValueError,
      {| trace := [ EPullContent "/system/build.prop";
                    EShell "echo -n $EXTERNAL_STORAGE" ];
         per_device := ∅ |}).
Proof.
  assert (Hbad : Exists (fun line => malformed_line line = true)
                   (Py.splitlines ("ro.build.id=LMY48I" +:+ NL
                                   +:+ "nonsense" +:+ NL)))
    by (right; left; reflexivity).
  split; [reflexivity|split; [exact Hbad|]].
  refine (InitCache_malformed_build_prop broken_prop empty_world
            ("ro.build.id=LMY48I" +:+ NL +:+ "nonsense" +:+ NL)
            eq_refl eq_refl _ Hbad).
  discriminate.
Defined.

(** ** Mkstemp: further properties *)

Lemma choice_alnum i :
  Py.is_alnum
    (default "a"%char
       (String.get (Nat.modulo i (String.length Py.ascii_letters_digits))
          Py.ascii_letters_digits)) = true.
Proof.
  change (String.length Py.ascii_letters_digits) with 62%nat.
  pose proof (Nat.mod_upper_bound i 62 ltac:(lia)) as Hj.
  remember (Nat.modulo i 62) as j eqn:Ej; clear Ej.
  do 62 (destruct j as [|j]; [reflexivity|]).
  lia.
Qed.

Lemma random_chars_alnum host n w :
  exists r w1,
    random_chars host n w = (Ret r, w1)
    /\ String.length r = n
    /\ Py.all_chars Py.is_alnum r = true
    /\ trace w1 = repeat ERandom n ++ trace w.
Proof.
  revert w; induction n as [|n IH]; intros w.
  - exists "", w; repeat split.
  - cbn [random_chars]; unfold bind at 1; unfold random_choice.
    destruct (IH (record ERandom w)) as (r & w1 & E & Hl & Ha & Ht).
    unfold bind at 1; rewrite E.
    eexists _, w1; split; [reflexivity|].
    split; [simpl; rewrite Hl; reflexivity|].
    split.
    + cbn [Py.all_chars]; rewrite choice_alnum, Ha; reflexivity.
    + rewrite Ht; cbn [record trace].
      change (ERandom :: trace w) with ([ERandom] ++ trace w).
      rewrite app_assoc; f_equal.
      change [ERandom] with (repeat ERandom 1).
      rewrite <- repeat_app; f_equal; lia.
Qed.

Lemma all_chars_impl (p q : ascii -> bool) s :
  (forall c, p c = true -> q c = true) ->
  Py.all_chars p s = true -> Py.all_chars q s = true.
Proof.
  intros Hpq; induction s as [|c s IH]; [reflexivity|]; simpl.
  intros H; apply andb_true_iff in H as [Hc Hs].
  rewrite (Hpq _ Hc), (IH Hs); reflexivity.
Qed.

Lemma quote_alnum r :
  r <> "" -> Py.all_chars Py.is_alnum r = true -> Py.quote r = r.
Proof.
  intros Hne Ha; unfold Py.quote.
  rewrite (all_chars_impl Py.is_alnum Py.safechar r); [|
    intros c Hc; unfold Py.safechar; rewrite Hc; reflexivity|exact Ha].
  destruct r; [congruence|reflexivity].
Qed.

Lemma Mkstemp_loop_name host self attempts content prefix suffix w name w' :
  Mkstemp_loop host self attempts content prefix suffix w
  = (Ret (Some name), w') ->
  exists r h,
    name = "/data/local/tmp/" +:+ prefix +:+ r +:+ suffix
    /\ String.length r = 5%nat
    /\ Py.all_chars Py.is_alnum r = true
    /\ trace w' = EPushContent content name :: EStat name :: h
    /\ truthy_int (fst (fst (Stat_answer (_device self) h name))) = false
    /\ PushContent_answer (_device self) (EStat name :: h) content name = true.
Proof.
  revert w; induction attempts as [|n IH]; intros w H.
  - inversion H.
  - cbn [Mkstemp_loop] in H; unfold bind at 1 in H.
    destruct (random_chars_alnum host 5 w) as (r & w1 & E & Hl & Ha & _).
    rewrite E in H; unfold bind at 1 in H; unfold Stat, dev_Stat in H.
    destruct (Stat_answer (_device self) (trace w1)
                ("/data/local/tmp/" +:+ prefix +:+ r +:+ suffix))
      as [[mode sz] mt] eqn:Es.
    destruct (truthy_int mode) eqn:Em; [exact (IH _ H)|].
    unfold bind at 1 in H; unfold PushContent, dev_PushContent in H.
    destruct (PushContent_answer _ _ _ _) eqn:Ep; [|exact (IH _ H)].
    inversion H; subst; clear H.
    exists r, (trace w1); split; [reflexivity|].
    split; [exact Hl|split; [exact Ha|split; [reflexivity|]]].
    split; [rewrite Es; exact Em|exact Ep].
Qed.

(** X9. A name that [Mkstemp] returns is /data/local/tmp/, the prefix,
    five letters or digits (which need no shell quoting) and the suffix; and
    the last two device calls were a Stat of that name that found no file
    and the PushContent of the content to it, which succeeded. *)
Theorem Mkstemp_returns_fresh_name host self content prefix suffix w name w' :
  Mkstemp host self content prefix suffix w = (Ret (Some name), w') ->
  exists r h,
    name = "/data/local/tmp/" +:+ prefix +:+ r +:+ suffix
    /\ String.length r = 5%nat
    /\ Py.all_chars Py.is_alnum r = true
    /\ Py.quote r = r
    /\ trace w' = EPushContent content name :: EStat name :: h
    /\ truthy_int (fst (fst (Stat_answer (_device self) h name))) = false
    /\ PushContent_answer (_device self) (EStat name :: h) content name = true.
Proof.
  intros H; unfold Mkstemp in H.
  destruct (Mkstemp_loop_name _ _ _ _ _ _ _ _ _ H)
    as (r & h & Hn & Hl & Ha & Ht & Hs & Hp).
  exists r, h; repeat split; try assumption.
  apply quote_alnum; [|exact Ha].
  intros ->; discriminate Hl.
Qed.

Lemma Mkstemp_returns_fresh_name_witness :
  exists r h,
    "/data/local/tmp/python-adbabcde.sh"
    = "/data/local/tmp/" +:+ "python-adb" +:+ r +:+ ".sh"
    /\ Py.quote r = r
    /\ trace (snd (Mkstemp sample_host failing_scripts ("exit 1" +:+ NL)
                     "python-adb" ".sh" empty_world))
       = EPushContent ("exit 1" +:+ NL) "/data/local/tmp/python-adbabcde.sh"
         :: EStat "/data/local/tmp/python-adbabcde.sh" :: h.
Proof.
  destruct (Mkstemp_returns_fresh_name sample_host failing_scripts
              ("exit 1" +:+ NL) "python-adb" ".sh" empty_world
              "/data/local/tmp/python-adbabcde.sh"
              (snd (Mkstemp sample_host failing_scripts ("exit 1" +:+ NL)
                      "python-adb" ".sh" empty_world))
              eq_refl)
    as (r & h & Hn & _ & _ & Hq & Ht & _).
  exists r, h; split; [exact Hn|split; [exact Hq|exact Ht]].
Defined.

Lemma count_app p h1 h2 : count p (h1 ++ h2) = (count p h1 + count p h2)%nat.
Proof. unfold count; rewrite List.filter_app, length_app; reflexivity. Qed.

Lemma count_repeat_random n :
  count is_stat (repeat ERandom n) = 0%nat
  /\ count is_push (repeat ERandom n) = 0%nat
  /\ count is_random (repeat ERandom n) = n.
Proof.
  unfold count; induction n as [|n (H1 & H2 & H3)]; [repeat split|].
  cbn [repeat List.filter is_stat is_push is_random List.length].
  rewrite H3; repeat split; assumption.
Qed.

Lemma Mkstemp_loop_bounded host self attempts content prefix suffix w :
  exists r w' evs,
    Mkstemp_loop host self attempts content prefix suffix w = (Ret r, w')
    /\ trace w' = evs ++ trace w
    /\ (count is_stat evs <= attempts)%nat
    /\ (count is_push evs <= count is_stat evs)%nat
    /\ count is_random evs = (5 * count is_stat evs)%nat
    /\ List.length evs
       = (count is_stat evs + count is_push evs + count is_random evs)%nat
    /\ (r = None -> count is_stat evs = attempts).
Proof.
  revert w; induction attempts as [|n IH]; intros w.
  - exists None, w, []; repeat split; unfold count; simpl; intros; lia.
  - cbn [Mkstemp_loop]; unfold bind at 1.
    destruct (random_chars_alnum host 5 w) as (r & w1 & E & _ & _ & Ht1).
    rewrite E; unfold bind at 1; unfold Stat, dev_Stat.
    destruct (count_repeat_random 5) as (R1 & R2 & R3).
    set (name := "/data/local/tmp/" +:+ prefix +:+ r +:+ suffix).
    destruct (Stat_answer (_device self) (trace w1) name) as [[mode sz] mt].
    destruct (truthy_int mode).
    + destruct (IH (record (EStat name) w1))
        as (res & w' & evs & E' & Ht & Hs & Hp & Hr & Hlen & Hnone).
      exists res, w', (evs ++ EStat name :: repeat ERandom 5).
      split; [exact E'|].
      split; [rewrite Ht; cbn [record trace]; rewrite Ht1, <- app_assoc;
              reflexivity|].
      rewrite !count_app, length_app.
      change (EStat name :: repeat ERandom 5)
        with ([EStat name] ++ repeat ERandom 5).
      rewrite !count_app, length_app, R1, R2, R3, repeat_length.
      cbn [count List.filter is_stat is_push is_random List.length].
      repeat split; try lia.
      intros Hn; specialize (Hnone Hn); lia.
    + unfold bind at 1; unfold PushContent, dev_PushContent.
      destruct (PushContent_answer _ _ _ _).
      * eexists _, _, (EPushContent content name :: EStat name
                       :: repeat ERandom 5).
        split; [reflexivity|].
        split; [cbn [record trace]; rewrite Ht1; reflexivity|].
        change (EPushContent content name :: EStat name :: repeat ERandom 5)
          with ([EPushContent content name; EStat name] ++ repeat ERandom 5).
        rewrite !count_app, length_app, R1, R2, R3, repeat_length.
        cbn [count List.filter is_stat is_push is_random List.length].
        repeat split; try lia.
        discriminate.
      * destruct (IH (record (EPushContent content name)
                        (record (EStat name) w1)))
          as (res & w' & evs & E' & Ht & Hs & Hp & Hr & Hlen & Hnone).
        exists res, w',
          (evs ++ EPushContent content name :: EStat name :: repeat ERandom 5).
        split; [exact E'|].
        split; [rewrite Ht; cbn [record trace]; rewrite Ht1, <- app_assoc;
                reflexivity|].
        rewrite !count_app, length_app.
        change (EPushContent content name :: EStat name :: repeat ERandom 5)
          with ([EPushContent content name; EStat name] ++ repeat ERandom 5).
        rewrite !count_app, length_app, R1, R2, R3, repeat_length.
        cbn [count List.filter is_stat is_push is_random List.length].
        repeat split; try lia.
        intros Hn; specialize (Hnone Hn); lia.
Qed.

(** X10. [Mkstemp] always returns, after at most five Stat calls, at
    most one PushContent per Stat, five random draws per Stat and no other
    call; when it returns None it has made exactly five Stat calls. *)
Theorem Mkstemp_bounded host self content prefix suffix w :
  exists r w' evs,
    Mkstemp host self content prefix suffix w = (Ret r, w')
    /\ trace w' = evs ++ trace w
    /\ (count is_stat evs <= 5)%nat
    /\ (count is_push evs <= count is_stat evs)%nat
    /\ count is_random evs = (5 * count is_stat evs)%nat
    /\ List.length evs
       = (count is_stat evs + count is_push evs + count is_random evs)%nat
    /\ (r = None -> count is_stat evs = 5%nat).
Proof. apply Mkstemp_loop_bounded. Qed.

(** ** SetCPUScalingGovernor and SetCPUSpeed: further properties *)

Lemma wp_any {A : Type} (m : M A) Q w :
  (forall r w1, m w = (r, w1) -> Q r w1) -> wp m Q w.
Proof. intros H; unfold wp; apply H; destruct (m w); reflexivity. Qed.

Lemma wp_emit e Q w : Q (Ret tt) (record e w) -> wp (emit e) Q w.
Proof. auto. Qed.

Lemma wp_dev_PushContent d content path Q w :
  Q (Ret (PushContent_answer d (trace w) content path))
    (record (EPushContent content path) w) ->
  wp (dev_PushContent d content path) Q w.
Proof. auto. Qed.

(** As [wp_step], for the methods of HighDevice; a call whose body is not
    entered is replaced by its result. *)
Ltac wp_call :=
  first
    [ wp_step
    | match goal with
      | |- wp (PullContent _ _) _ _ => unfold PullContent at 1
      | |- wp (PushContent _ _ _) _ _ => unfold PushContent at 1
      | |- wp (dev_PushContent _ _ _) _ _ =>
          apply wp_dev_PushContent; cbv beta iota
      | |- wp (log _ _) _ _ => apply wp_emit; cbv beta iota
      | |- wp (unpack _) _ _ => unfold unpack at 1
      | |- wp (exit_code_of _) _ _ => unfold exit_code_of at 1
      | |- wp (first_frequency _) _ _ => unfold first_frequency at 1
      | |- wp _ _ _ =>
          let r := fresh "r" in
          let w1 := fresh "w" in
          let Hrun := fresh "Hrun" in
          apply wp_any; intros r w1 Hrun; destruct r; cbv beta iota
      end;
      cbn [trace per_device record] ];
  try solve [ match goal with
              | H : negb true = true |- _ => discriminate H
              | H : negb false = false |- _ => discriminate H
              | H : true = false |- _ => discriminate H
              | H : false = true |- _ => discriminate H
              end ].

Lemma SetCPUScalingGovernor_confirmed self shell speed governor w :
  (governor = "powersave" ->
   In "powersave" (available_governors (cache self))) ->
  wp (SetCPUScalingGovernor_with self shell speed governor)
     (fun r w' =>
        r = Ret true ->
        exists h content,
          trace w' = EPullContent scaling_governor :: h
          /\ PullContent_answer (_device self) h scaling_governor = Some content
          /\ Py.strip content = written_governor (cache self) governor
          /\ In (written_governor (cache self) governor)
                KNOWN_CPU_SCALING_GOVERNOR_VALUES) w.
Proof.
  intros Hps; unfold SetCPUScalingGovernor_with, written_governor.
  repeat wp_call.
  all: try (intros Hr; discriminate Hr).
  all: intros _.
  all: try solve [exfalso;
                  match goal with
                  | H : negb true = true |- _ => discriminate H
                  | H : negb false = false |- _ => discriminate H
                  end].
  all: repeat match goal with
              | H : negb _ = true |- _ => apply negb_true_iff in H
              | H : negb _ = false |- _ => apply negb_false_iff in H
              end.
  all: try solve [exfalso;
                  match goal with
                  | H1 : String.eqb ?g "powersave" = true,
                    H2 : Py.in_str ?g _ = false |- _ =>
                      apply String.eqb_eq in H1; subst;
                      rewrite (proj2 (in_str_spec _ _) (Hps eq_refl)) in H2;
                      discriminate H2
                  end].
  all: repeat match goal with
              | H : Py.in_str _ _ = _ |- _ => rewrite H
              | H : String.eqb _ _ = _ |- _ => rewrite H
              end.
  all: match goal with
       | E : String.eqb (Py.strip _) ?g = true,
         H : Py.in_str ?g KNOWN_CPU_SCALING_GOVERNOR_VALUES = true |- _ =>
           pose proof (proj1 (in_str_spec _ _) H) as Hknown
       end.
  all: try match goal with
           | E : String.eqb (Py.strip (default "" ?a)) _ = true |- _ =>
               apply String.eqb_eq in E;
               destruct a as [content|] eqn:Ea; simpl in E;
               [|exfalso; apply (known_governor_nonempty _ Hknown);
                 rewrite <- E; reflexivity]
           end.
  all: eexists _, _; (split; [reflexivity|]).
  all: split; [eassumption|].
  all: split; [first [eassumption|apply String.eqb_eq; assumption]
              |exact Hknown].
Qed.

(** X11. Unless it delegates to [SetCPUSpeed] (powersave missing from
    the cached list), [SetCPUScalingGovernor] returns True only after reading
    scaling_governor and finding in it, up to surrounding whitespace, the
    governor it set out to write: the requested one when the device has it,
    else the other one of ondemand and interactive.  That read is its last
    device call. *)
Theorem SetCPUScalingGovernor_true_is_confirmed host self n governor w w' :
  (governor = "powersave" ->
   In "powersave" (available_governors (cache self))) ->
  SetCPUScalingGovernor host self (S n) governor w = (Ret true, w') ->
  exists h content,
    trace w' = EPullContent scaling_governor :: h
    /\ PullContent_answer (_device self) h scaling_governor = Some content
    /\ Py.strip content = written_governor (cache self) governor
    /\ In (written_governor (cache self) governor)
          KNOWN_CPU_SCALING_GOVERNOR_VALUES.
Proof.
  intros Hps E; rewrite SetCPUScalingGovernor_S in E.
  pose proof (SetCPUScalingGovernor_confirmed self (Shell host self n)
                (SetCPUSpeed host self n) governor w Hps) as H.
  unfold wp in H; rewrite E in H; exact (H eq_refl).
Qed.

Lemma SetCPUScalingGovernor_true_is_confirmed_witness :
  exists h content,
    trace (snd (SetCPUScalingGovernor sample_host nexus 1 "ondemand"
                  empty_world))
    = EPullContent scaling_governor :: h
    /\ PullContent_answer (_device nexus) h scaling_governor = Some content
    /\ Py.strip content = "interactive".
Proof.
  assert (Hps : "ondemand" = "powersave" ->
                In "powersave" (available_governors (cache nexus)))
    by discriminate.
  destruct (SetCPUScalingGovernor_true_is_confirmed sample_host nexus 0
              "ondemand" empty_world
              (snd (SetCPUScalingGovernor sample_host nexus 1 "ondemand"
                      empty_world))
              Hps eq_refl)
    as (h & content & Ht & Ha & Hs & _).
  exists h, content; split; [exact Ht|split; [exact Ha|exact Hs]].
Defined.

(** X12. When the device lacks one of ondemand and interactive and has
    the other, asking for the missing one is asking for the other: same
    result, same device calls. *)
Theorem SetCPUScalingGovernor_substitutes host self n w :
  (~ In "ondemand" (available_governors (cache self)) ->
   In "interactive" (available_governors (cache self)) ->
   SetCPUScalingGovernor host self (S n) "ondemand" w =
   SetCPUScalingGovernor host self (S n) "interactive" w)
  /\ (~ In "interactive" (available_governors (cache self)) ->
      In "ondemand" (available_governors (cache self)) ->
      SetCPUScalingGovernor host self (S n) "interactive" w =
      SetCPUScalingGovernor host self (S n) "ondemand" w).
Proof.
  split; intros Hno Hyes;
    rewrite !SetCPUScalingGovernor_S; unfold SetCPUScalingGovernor_with;
    unfold bind at 1; symmetry; unfold bind at 1; symmetry;
    change (Py.in_str "ondemand" KNOWN_CPU_SCALING_GOVERNOR_VALUES) with true;
    change (Py.in_str "interactive" KNOWN_CPU_SCALING_GOVERNOR_VALUES) with true;
    cbn [assert ret];
    (destruct (available_governors (cache self)) as [|g gs] eqn:Hg;
     [destruct Hyes|]);
    cbn [truthy_list negb];
    rewrite (not_in_str _ _ Hno), (proj2 (in_str_spec _ _) Hyes);
    reflexivity.
Qed.

Lemma SetCPUScalingGovernor_substitutes_witness :
  ~ In "ondemand" (available_governors (cache nexus))
  /\ In "interactive" (available_governors (cache nexus))
  /\ SetCPUScalingGovernor sample_host nexus 1 "ondemand" empty_world =
     SetCPUScalingGovernor sample_host nexus 1 "interactive" empty_world.
Proof.
  assert (H1 : ~ In "ondemand" (available_governors (cache nexus))).
  { simpl; intros [H|[H|[H|[]]]]; discriminate H. }
  assert (H2 : In "interactive" (available_governors (cache nexus)))
    by (left; reflexivity).
  split; [exact H1|split; [exact H2|]].
  exact (proj1 (SetCPUScalingGovernor_substitutes sample_host nexus 0
                  empty_world) H1 H2).
Defined.

(** X13. A known governor other than powersave, ondemand and interactive
    that the device does not have is refused: with a non-empty cached list,
    [SetCPUScalingGovernor] returns False after logging one warning, without
    any device call. *)
Theorem SetCPUScalingGovernor_refuses host self n governor w :
  In governor ["conservative"; "performance"; "userspace"] ->
  available_governors (cache self) <> [] ->
  ~ In governor (available_governors (cache self)) ->
  SetCPUScalingGovernor host self (S n) governor w =
  (Ret false,
   record (ELog WARNING "%s.SetCPUScalingGovernor(): Can't switch to %s") w).
Proof.
  intros Hg Hne Hni.
  rewrite SetCPUScalingGovernor_S; unfold SetCPUScalingGovernor_with.
  destruct (available_governors (cache self)) as [|g gs] eqn:Ha;
    [congruence|].
  pose proof (not_in_str _ _ Hni) as Hn.
  destruct Hg as [<-|[<-|[<-|[]]]]; unfold bind;
    cbn [Py.in_str existsb KNOWN_CPU_SCALING_GOVERNOR_VALUES] in *;
    cbn [truthy_list negb]; rewrite Hn; reflexivity.
Qed.

Lemma SetCPUScalingGovernor_refuses_witness :
  In "conservative" ["conservative"; "performance"; "userspace"]
  /\ available_governors (cache nexus) <> []
  /\ ~ In "conservative" (available_governors (cache nexus))
  /\ SetCPUScalingGovernor sample_host nexus 1 "conservative" empty_world =
     (Ret false,
      record (ELog WARNING "%s.SetCPUScalingGovernor(): Can't switch to %s")
        empty_world).
Proof.
  assert (H1 : In "conservative" ["conservative"; "performance"; "userspace"])
    by (left; reflexivity).
  assert (H2 : available_governors (cache nexus) <> []) by discriminate.
  assert (H3 : ~ In "conservative" (available_governors (cache nexus))).
  { simpl; intros [H|[H|[H|[]]]]; discriminate H. }
  split; [exact H1|split; [exact H2|split; [exact H3|]]].
  exact (SetCPUScalingGovernor_refuses sample_host nexus 0 "conservative"
           empty_world H1 H2 H3).
Defined.

(** X14. [SetCPUSpeed] returns True only if the speed is in range and
    in the cached list, the switch to the userspace governor returned True,
    the write of the speed to scaling_setspeed succeeded, and the content
    read back from that file (empty when the read fails) is, up to
    surrounding whitespace, the decimal text of the speed.  The write and the
    read back are its last two device calls. *)
Theorem SetCPUSpeed_true_is_confirmed host self fuel speed w w' :
  SetCPUSpeed host self fuel speed w = (Ret true, w') ->
  10000 <= speed <= 10000000
  /\ supported (cache self) speed
  /\ exists w1,
      SetCPUScalingGovernor host self fuel "userspace" w = (Ret true, w1)
      /\ trace w' =
         EPullContent scaling_setspeed
         :: EPushContent (Py.str speed +:+ NL) scaling_setspeed :: trace w1
      /\ PushContent_answer (_device self) (trace w1) (Py.str speed +:+ NL)
           scaling_setspeed = true
      /\ Py.strip
           (default ""
              (PullContent_answer (_device self)
                 (EPushContent (Py.str speed +:+ NL) scaling_setspeed
                  :: trace w1) scaling_setspeed))
         = Py.str speed.
Proof.
  unfold SetCPUSpeed, SetCPUSpeed_with, supported.
  unfold bind at 1; unfold assert.
  destruct ((10000 <=? speed) && (speed <=? 10000000)) eqn:Hr;
    [|discriminate].
  apply andb_true_iff in Hr as [Hlo Hhi].
  apply Z.leb_le in Hlo, Hhi.
  cbv beta iota delta [ret].
  destruct (available_frequencies (cache self)) as [| |[|f l]];
    try discriminate.
  unfold bind at 1.
  destruct (Py.in_int speed (f :: l)) eqn:Hin; [|discriminate].
  cbv beta iota.
  unfold bind at 1.
  destruct (SetCPUScalingGovernor host self fuel "userspace" w)
    as [[success|e|] w1]; try discriminate.
  unfold bind at 1; unfold PushContent at 1, dev_PushContent at 1.
  destruct (PushContent_answer (_device self) (trace w1)
              (Py.str speed +:+ NL) scaling_setspeed) eqn:Hp;
    cbn [negb]; [|discriminate].
  unfold bind at 1; unfold PullContent at 1, dev_PullContent at 1.
  cbn [trace record].
  intros H; injection H as Hv Hw.
  apply andb_true_iff in Hv as [-> Hs].
  apply String.eqb_eq in Hs.
  split; [lia|split; [apply in_int_spec; exact Hin|]].
  exists w1; repeat split; try assumption.
  rewrite <- Hw; reflexivity.
Qed.

Lemma SetCPUSpeed_true_is_confirmed_witness :
  exists w',
    SetCPUSpeed sample_host writable 1 300000 empty_world = (Ret true, w')
    /\ 10000 <= 300000 <= 10000000
    /\ supported (cache writable) 300000.
Proof.
  exists (snd (SetCPUSpeed sample_host writable 1 300000 empty_world)).
  assert (E : SetCPUSpeed sample_host writable 1 300000 empty_world =
              (Ret true,
               snd (SetCPUSpeed sample_host writable 1 300000 empty_world)))
    by (vm_compute; reflexivity).
  split; [exact E|].
  destruct (SetCPUSpeed_true_is_confirmed sample_host writable 1 300000
              empty_world _ E) as (Hr & Hs & _).
  split; [exact Hr|exact Hs].
Defined.

Example SetCPUSpeed_on_writable :
  rev (trace (snd (SetCPUSpeed sample_host writable 1 300000 empty_world))) =
  [ EPullContent scaling_governor;
    ELog WARNING "%s.SetCPUScalingGovernor(): Failed to read %s";
    EPushContent ("userspace" +:+ NL) scaling_governor;
    EPullContent scaling_governor;
    EPushContent ("300000" +:+ NL) scaling_setspeed;
    EPullContent scaling_setspeed ].
Proof. vm_compute; reflexivity. Qed.

(** ** WaitForDevice and WaitUntilFullyBooted: further properties *)

Lemma WaitForDevice_loop_result host self start timeout path fuel :
  forall w r w',
    WaitForDevice_loop host self fuel start timeout path w = (r, w') ->
    (r = Ret true
     /\ exists h mode,
          trace w' = EStat path :: h
          /\ fst (fst (Stat_answer (_device self) h path)) = Some mode)
    \/ (r = Ret false
        /\ exists h,
             trace w' = ELog WARNING "%s.WaitForDevice() failed" :: ETime :: h
             /\ elapsed (clock host h) start timeout = true)
    \/ r = OutOfFuel.
Proof.
  induction fuel as [|n IH]; intros w r w' H.
  - inversion H; auto.
  - cbn [WaitForDevice_loop] in H; unfold bind at 1 in H.
    unfold time_time in H.
    destruct (elapsed (clock host (trace w)) start timeout) eqn:Et.
    + inversion H; subst; right; left; split; [reflexivity|].
      exists (trace w); split; [reflexivity|exact Et].
    + unfold bind at 1 in H; unfold Stat, dev_Stat in H.
      cbn [trace record] in H.
      destruct (Stat_answer (_device self) (ETime :: trace w) path)
        as [[mode sz] mt] eqn:Es.
      destruct mode as [m|].
      * inversion H; subst; left; split; [reflexivity|].
        exists (ETime :: trace w), m; split; [reflexivity|].
        rewrite Es; reflexivity.
      * unfold bind at 1 in H; unfold time_sleep, emit in H.
        exact (IH _ _ _ H).
Qed.

(** X15. [WaitForDevice] never raises.  It returns True only right
    after a Stat of the cached external storage path that gave a file mode,
    whatever the mode (0 included); it returns False either at once, without
    any call, when the cache has no such path, or after a clock reading past
    the deadline, measured from its own first reading. *)
Theorem WaitForDevice_result host self fuel timeout w r w' :
  WaitForDevice host self fuel timeout w = (r, w') ->
  (r = Ret true
   /\ exists path h mode,
        external_storage_path (cache self) = Some path
        /\ trace w' = EStat path :: h
        /\ fst (fst (Stat_answer (_device self) h path)) = Some mode)
  \/ (r = Ret false
      /\ ((truthy_str (external_storage_path (cache self)) = false /\ w' = w)
          \/ exists h,
               trace w' = ELog WARNING "%s.WaitForDevice() failed" :: ETime :: h
               /\ elapsed (clock host h) (clock host (trace w)) timeout = true))
  \/ r = OutOfFuel.
Proof.
  unfold WaitForDevice; intros H.
  destruct (external_storage_path (cache self)) as [[|c p]|] eqn:Ep;
    try (inversion H; subst; right; left; split; [reflexivity|left];
         split; reflexivity).
  unfold bind at 1 in H; unfold time_time at 1 in H.
  destruct (WaitForDevice_loop_result _ _ _ _ _ _ _ _ _ H)
    as [(-> & h & mode & Ht & Hs)|[(-> & h & Ht & He)| ->]].
  - left; split; [reflexivity|]; exists (String c p), h, mode; auto.
  - right; left; split; [reflexivity|]; right; exists h; auto.
  - right; right; reflexivity.
Qed.

Lemma WaitForDevice_result_witness :
  exists w' h mode,
    WaitForDevice sample_host booted 1 (inject_Z 5) empty_world = (Ret true, w')
    /\ trace w' = EStat "/sdcard" :: h
    /\ fst (fst (Stat_answer (_device booted) h "/sdcard")) = Some mode.
Proof.
  destruct (WaitForDevice_result sample_host booted 1 (inject_Z 5) empty_world
              (Ret true)
              (snd (WaitForDevice sample_host booted 1 (inject_Z 5)
                      empty_world))
              eq_refl)
    as [(_ & path & h & mode & Hp & Ht & Hs)|[(Hr & _)|Hr]];
    try discriminate Hr.
  injection Hp as <-.
  exists (snd (WaitForDevice sample_host booted 1 (inject_Z 5) empty_world)),
    h, mode.
  split; [reflexivity|split; [exact Ht|exact Hs]].
Defined.

Lemma package_manager_loop_true host self k fuel start timeout :
  IsShellOk (_device self) "pm path" = true ->
  forall w w',
    package_manager_loop host (Shell host self k) fuel start timeout w
    = (Ret true, w') ->
    exists h,
      trace w' = EShell "pm path" :: h
      /\ fst (Shell_answer (_device self) h "pm path") = Some pm_up.
Proof.
  intros Hok; induction fuel as [|n IH]; intros w w' H.
  - inversion H.
  - cbn [package_manager_loop] in H; unfold bind at 1 in H.
    unfold time_time in H.
    destruct (elapsed (clock host (trace w)) start timeout); [inversion H|].
    unfold bind at 1 in H.
    destruct k as [|k]; [inversion H|].
    rewrite (Shell_direct _ _ _ _ _ Hok) in H.
    unfold bind at 1 in H; cbn [unpack ret] in H.
    cbn [trace record] in H.
    destruct (Shell_answer (_device self) (ETime :: trace w) "pm path")
      as [out code] eqn:Ea; cbn [fst snd] in H.
    destruct (bool_decide (out = Some ("Error: no package specified" +:+ NL)))
      eqn:Eb.
    + inversion H; subst.
      exists (ETime :: trace w); split; [reflexivity|].
      rewrite Ea; apply bool_decide_eq_true in Eb; exact Eb.
    + unfold bind at 1 in H; unfold assert in H.
      destruct (bool_decide _) in H; [|inversion H].
      unfold bind at 1 in H; unfold time_sleep, emit in H.
      exact (IH _ _ H).
Qed.

(** X16. On a device that takes the [pm path] command directly,
    [WaitUntilFullyBooted] returns True only right after a [pm path] call
    whose output is exactly "Error: no package specified" and a newline. *)
Theorem WaitUntilFullyBooted_true_after_pm host self fuel timeout w w' :
  IsShellOk (_device self) "pm path" = true ->
  WaitUntilFullyBooted host self fuel timeout w = (Ret true, w') ->
  exists h,
    trace w' = EShell "pm path" :: h
    /\ fst (Shell_answer (_device self) h "pm path")
       = Some ("Error: no package specified" +:+ NL).
Proof.
  intros Hok H; unfold WaitUntilFullyBooted in H.
  unfold bind at 1 in H; unfold time_time at 1 in H.
  unfold bind at 1 in H.
  destruct (WaitForDevice host self fuel timeout (record ETime w))
    as [[[|]|e|] w1]; try discriminate H.
  cbn [negb] in H; unfold bind at 1 in H.
  destruct (bootanim_loop host (Shell host self fuel) fuel _ timeout w1)
    as [[[|]|e|] w2]; try discriminate H.
  cbn [negb] in H; unfold bind at 1 in H.
  destruct (package_manager_loop host (Shell host self fuel) fuel _ timeout w2)
    as [[[|]|e|] w3] eqn:E; try discriminate H.
  inversion H; subst.
  exact (package_manager_loop_true _ _ _ _ _ _ Hok _ _ E).
Qed.

Lemma WaitUntilFullyBooted_true_after_pm_witness :
  exists w' h,
    WaitUntilFullyBooted sample_host booted 1 (inject_Z 30) empty_world
    = (Ret true, w')
    /\ trace w' = EShell "pm path" :: h
    /\ fst (Shell_answer (_device booted) h "pm path")
       = Some ("Error: no package specified" +:+ NL).
Proof.
  destruct (WaitUntilFullyBooted_true_after_pm sample_host booted 1
              (inject_Z 30) empty_world
              (snd (WaitUntilFullyBooted sample_host booted 1 (inject_Z 30)
                      empty_world))
              eq_refl eq_refl) as (h & Ht & Ha).
  exists (snd (WaitUntilFullyBooted sample_host booted 1 (inject_Z 30)
                 empty_world)), h.
  split; [reflexivity|split; [exact Ht|exact Ha]].
Defined.

Example WaitUntilFullyBooted_on_booted :
  rev (trace (snd (WaitUntilFullyBooted sample_host booted 1 (inject_Z 30)
                     empty_world))) =
  [ ETime; ETime; ETime; EStat "/sdcard";
    ETime; EShell "getprop init.svc.bootanim";
    ETime; EShell "pm path" ].
Proof. vm_compute; reflexivity. Qed.

(** ** GetProp: proofs *)

Lemma rstrip_cons c s :
  Py.rstrip (String c s) =
  match Py.rstrip s with
  | EmptyString => if Py.isspace c then EmptyString else String c EmptyString
  | r => String c r
  end.
Proof. reflexivity. Qed.

Lemma rstrip_idempotent s : Py.rstrip (Py.rstrip s) = Py.rstrip s.
Proof.
  induction s as [|c s IH]; [reflexivity|].
  rewrite rstrip_cons.
  destruct (Py.rstrip s) as [|d r] eqn:E.
  - destruct (Py.isspace c) eqn:Ec; [reflexivity|].
    rewrite rstrip_cons; cbn [Py.rstrip]; rewrite Ec; reflexivity.
  - rewrite rstrip_cons, IH; reflexivity.
Qed.

Lemma rstrip_length s : (String.length (Py.rstrip s) <= String.length s)%nat.
Proof.
  induction s as [|c s IH]; [reflexivity|].
  rewrite rstrip_cons.
  destruct (Py.rstrip s) as [|d r].
  - destruct (Py.isspace c); simpl; lia.
  - simpl in *; lia.
Qed.

Lemma rstrip_snoc_space s c :
  Py.isspace c = true -> Py.rstrip (s +:+ String c "") = Py.rstrip s.
Proof.
  intros Hc; induction s as [|d s IH].
  - rewrite append_nil, rstrip_cons; cbn [Py.rstrip]; rewrite Hc; reflexivity.
  - rewrite append_cons, !rstrip_cons, IH; reflexivity.
Qed.

Lemma rstrip_fixed_no_trailing_space v s c :
  Py.rstrip v = v -> v = s +:+ String c "" -> Py.isspace c = false.
Proof.
  intros Hv ->; destruct (Py.isspace c) eqn:Hc; [|reflexivity].
  rewrite (rstrip_snoc_space _ _ Hc) in Hv.
  pose proof (rstrip_length s) as Hl; rewrite Hv, length_app_str in Hl.
  simpl in Hl; lia.
Qed.

(** X17. A value that [GetProp] returns never ends with a whitespace
    character (the newline that getprop prints is removed). *)
Theorem GetProp_no_trailing_whitespace host self fuel prop w v w' :
  GetProp host self fuel prop w = (Ret (Some v), w') ->
  Py.rstrip v = v
  /\ forall s c, v = s +:+ String c "" -> Py.isspace c = false.
Proof.
  unfold GetProp, GetProp_with; intros H.
  unfold bind at 1 in H.
  destruct (Shell host self fuel ("getprop " +:+ Py.quote prop) w)
    as [[[|out code]|e|] w1]; try discriminate H.
  unfold bind at 1 in H; cbn [unpack ret] in H.
  destruct (nonzero code); [discriminate H|].
  unfold bind at 1 in H.
  destruct out as [out|]; [|discriminate H].
  cbn [from_option ret] in H; injection H as <- <-.
  assert (Hr : Py.rstrip (Py.rstrip out) = Py.rstrip out)
    by apply rstrip_idempotent.
  split; [exact Hr|].
  intros s c; apply rstrip_fixed_no_trailing_space; exact Hr.
Qed.

Lemma GetProp_no_trailing_whitespace_witness :
  GetProp sample_host booted 1 "init.svc.bootanim" empty_world
  = (Ret (Some "stopped"),
     record (EShell "getprop init.svc.bootanim") empty_world)
  /\ Py.rstrip "stopped" = "stopped".
Proof.
  assert (E : GetProp sample_host booted 1 "init.svc.bootanim" empty_world
              = (Ret (Some "stopped"),
                 record (EShell "getprop init.svc.bootanim") empty_world))
    by reflexivity.
  split; [exact E|].
  exact (proj1 (GetProp_no_trailing_whitespace sample_host booted 1
                  "init.svc.bootanim" empty_world "stopped" _ E)).
Defined.

(** ** GetLastUID: proofs *)

Lemma fold_max_spec ns n :
  n <= fold_left Z.max ns n
  /\ Forall (fun x => x <= fold_left Z.max ns n) ns
  /\ (fold_left Z.max ns n = n \/ In (fold_left Z.max ns n) ns).
Proof.
  revert n; induction ns as [|x ns IH]; intros n.
  - cbn [fold_left]; split; [lia|split; [apply List.Forall_nil|left; reflexivity]].
  - cbn [fold_left].
    destruct (IH (Z.max n x)) as (H1 & H2 & H3).
    split; [lia|split].
    + apply List.Forall_cons; [lia|exact H2].
    + destruct H3 as [H3|H3]; [|right; right; exact H3].
      rewrite H3; destruct (Z.max_spec n x) as [[_ ->]|[_ ->]];
        [right; left; reflexivity|left; reflexivity].
Qed.

Lemma py_max_spec ns m :
  py_max ns = Some m -> In m ns /\ Forall (fun x => x <= m) ns.
Proof.
  destruct ns as [|n ns]; [discriminate|].
  cbn [py_max]; intros H; injection H as <-.
  destruct (fold_max_spec ns n) as (H1 & H2 & H3); split.
  - destruct H3 as [->|H3]; [left; reflexivity|right; exact H3].
  - apply List.Forall_cons; assumption.
Qed.

Lemma uids_spec lines ns :
  uids lines = inr ns ->
  forall n,
    In n ns <->
    exists l field,
      In l lines /\ (2 < String.length l)%nat
      /\ second_field l = Some field /\ Py.int field = Some n.
Proof.
  revert ns; induction lines as [|l lines IH]; intros ns H n.
  - injection H as <-; split; [intros []|intros (l & f & [] & _)].
  - cbn [uids] in H.
    destruct (Nat.ltb 2 (String.length l)) eqn:El.
    + destruct (second_field l) as [field|] eqn:Ef; [|discriminate].
      destruct (Py.int field) as [x|] eqn:Ei; [|discriminate].
      destruct (uids lines) as [e|ns'] eqn:Eu; [discriminate|].
      injection H as <-; specialize (IH ns' eq_refl n).
      apply Nat.ltb_lt in El; split.
      * intros [<-|Hin]; [exists l, field; repeat split; auto; left; auto|].
        apply IH in Hin as (l' & f' & Hl & Hrest).
        exists l', f'; split; [right; exact Hl|exact Hrest].
      * intros (l' & f' & [<-|Hl] & Hlen & Hf & Hi).
        -- left; congruence.
        -- right; apply IH; exists l', f'; auto.
    + specialize (IH ns H n); rewrite IH.
      apply Nat.ltb_ge in El; split.
      * intros (l' & f' & Hl & Hrest); exists l', f'; split;
          [right; exact Hl|exact Hrest].
      * intros (l' & f' & [<-|Hl] & Hlen & Hrest); [lia|].
        exists l', f'; auto.
Qed.

(** X18. When [GetLastUID] returns a number, that number is the second
    space-separated field of some line of packages.list longer than two
    characters, read as an integer, and no such line has a larger one; when
    the file cannot be read or is empty it returns None, after that single
    read in every case. *)
Theorem GetLastUID_is_maximum self w :
  (forall m w',
      GetLastUID self w = (Ret (Some m), w') ->
      exists out,
        PullContent_answer (_device self) (trace w) "/data/system/packages.list"
        = Some out
        /\ (exists l field,
              In l (Py.splitlines out) /\ (2 < String.length l)%nat
              /\ second_field l = Some field /\ Py.int field = Some m)
        /\ (forall l field n,
              In l (Py.splitlines out) -> (2 < String.length l)%nat ->
              second_field l = Some field -> Py.int field = Some n ->
              n <= m))
  /\ (truthy_str
        (PullContent_answer (_device self) (trace w)
           "/data/system/packages.list") = false ->
      GetLastUID self w
      = (Ret None, record (EPullContent "/data/system/packages.list") w))
  /\ trace (snd (GetLastUID self w))
     = EPullContent "/data/system/packages.list" :: trace w.
Proof.
  unfold GetLastUID; unfold bind at 1; unfold bind at 2; unfold bind at 3.
  unfold PullContent, dev_PullContent.
  destruct (PullContent_answer (_device self) (trace w)
              "/data/system/packages.list") as [[|c out]|] eqn:Ea.
  - split; [intros m w' H; discriminate H|split; reflexivity].
  - split; [|split; [discriminate|]].
    + intros m w' H.
      destruct (uids (Py.splitlines (String c out))) as [e|ns] eqn:Eu;
        [discriminate H|].
      unfold bind at 1 in H.
      destruct (py_max ns) as [m'|] eqn:Em; [|discriminate H].
      cbn [from_option ret] in H; injection H as -> _.
      destruct (py_max_spec _ _ Em) as [Hin Hall].
      exists (String c out); split; [reflexivity|split].
      * apply (uids_spec _ _ Eu); exact Hin.
      * intros l field n Hl Hlen Hf Hi.
        rewrite List.Forall_forall in Hall; apply Hall.
        apply (uids_spec _ _ Eu); exists l, field; auto.
    + destruct (uids (Py.splitlines (String c out))) as [e|ns];
        [reflexivity|].
      unfold bind; destruct (py_max ns); reflexivity.
  - split; [intros m w' H; discriminate H|split; reflexivity].
Qed.

Lemma GetLastUID_is_maximum_witness :
  GetLastUID trusting empty_world
  = (Ret (Some 10057),
     record (EPullContent "/data/system/packages.list") empty_world)
  /\ exists l field,
      (2 < String.length l)%nat
      /\ second_field l = Some field /\ Py.int field = Some 10057.
Proof.
  assert (E : GetLastUID trusting empty_world
              = (Ret (Some 10057),
                 record (EPullContent "/data/system/packages.list")
                   empty_world)) by (vm_compute; reflexivity).
  split; [exact E|].
  destruct (proj1 (GetLastUID_is_maximum trusting empty_world) 10057 _ E)
    as (out & _ & (l & field & _ & Hlen & Hf & Hi) & _).
  exists l, field; auto.
Defined.

(** ** PushKeys: proofs *)

Lemma elem_of_keys (l : list string) k :
  k ∈ (list_to_set l : gset string) <-> In k l.
Proof. rewrite elem_of_list_to_set; apply list_elem_of_In. Qed.

(** X19. When the adb_keys file of the device has content and every
    public key is one of its lines, [PushKeys] returns True after that single
    read: nothing is written and no shell command is run. *)
Theorem PushKeys_already_trusted host self fuel public_keys w old :
  PullContent_answer (_device self) (trace w) adb_keys = Some old ->
  old <> "" ->
  (forall k, In k public_keys -> In k (Py.splitlines (Py.strip old))) ->
  PushKeys host self fuel public_keys w
  = (Ret true, record (EPullContent adb_keys) w).
Proof.
  intros Ha Hne Hsub; unfold PushKeys.
  unfold bind at 1; unfold PullContent at 1, dev_PullContent at 1.
  rewrite Ha; destruct old as [|c old]; [congruence|].
  unfold bind at 1.
  destruct (decide (_ ⊆ _)) as [_|Hn]; [reflexivity|].
  exfalso; apply Hn; intros k Hk.
  apply elem_of_keys; apply Hsub; apply elem_of_keys; exact Hk.
Qed.

Lemma PushKeys_already_trusted_witness :
  PullContent_answer (_device trusting) (trace empty_world) adb_keys
  = Some ("key-b host" +:+ NL +:+ "key-a host" +:+ NL)
  /\ PushKeys sample_host trusting 1 ["key-a host"] empty_world
     = (Ret true, record (EPullContent adb_keys) empty_world).
Proof.
  split; [reflexivity|].
  refine (PushKeys_already_trusted sample_host trusting 1 ["key-a host"]
            empty_world ("key-b host" +:+ NL +:+ "key-a host" +:+ NL)
            eq_refl _ _).
  - discriminate.
  - intros k [<-|[]]; right; left; reflexivity.
Defined.

Lemma sorted_elements_spec (X : gset string) :
  Sorted Py.str_le (Py.sorted_str (elements X))
  /\ List.NoDup (Py.sorted_str (elements X))
  /\ forall k, In k (Py.sorted_str (elements X)) <-> k ∈ X.
Proof.
  unfold Py.sorted_str.
  pose proof (merge_sort_Permutation Py.str_le (elements X)) as Hp.
  split; [apply (Sorted_merge_sort Py.str_le)|split].
  - apply NoDup_ListNoDup; rewrite Hp; apply NoDup_elements.
  - intros k; rewrite <- list_elem_of_In, Hp; apply elem_of_elements.
Qed.

Lemma wp_Shell_direct host self n cmd Q w :
  IsShellOk (_device self) cmd = true ->
  Q (Ret (ShTuple (fst (Shell_answer (_device self) (trace w) cmd))
                  (snd (Shell_answer (_device self) (trace w) cmd))))
    (record (EShell cmd) w) ->
  wp (Shell host self (S n) cmd) Q w.
Proof.
  intros Hok H; unfold wp; rewrite (Shell_direct _ _ _ _ _ Hok); exact H.
Qed.

Lemma PushKeys_pushes host self n public_keys w :
  IsShellOk (_device self) "mkdir -p /data/misc/adb" = true ->
  IsShellOk (_device self) "restorecon /data/misc/adb" = true ->
  IsShellOk (_device self) "restorecon /data/misc/adb/adb_keys" = true ->
  wp (PushKeys host self (S n) public_keys)
     (fun _ w' =>
        forall content path,
          In (EPushContent content path) (trace w') ->
          In (EPushContent content path) (trace w)
          \/ (path = adb_keys
              /\ exists keys,
                   content = key_lines keys
                   /\ Sorted Py.str_le keys
                   /\ List.NoDup keys
                   /\ forall k,
                        In k keys <->
                        In k public_keys
                        \/ In k (trusted_keys
                                   (PullContent_answer (_device self) (trace w)
                                      adb_keys)))) w.
Proof.
  intros H1 H2 H3; unfold PushKeys, trusted_keys.
  repeat first
    [ apply wp_Shell_direct; [assumption|]; cbv beta iota;
      cbn [trace per_device record]
    | wp_call ].
  all: intros content path Hin; cbn [In] in Hin.
  all: repeat (destruct Hin as [Hin|Hin]; [try discriminate Hin|]).
  all: try (left; exact Hin).
  all: injection Hin as <- <-; right; split; [reflexivity|].
  all: eexists; split; [reflexivity|].
  all: match goal with
       | |- Sorted _ (Py.sorted_str (elements ?X)) /\ _ =>
           destruct (sorted_elements_spec X) as (Hs & Hn & Hk)
       end.
  all: split; [exact Hs|split; [exact Hn|]].
  all: intros k; rewrite Hk, ?elem_of_union, !elem_of_keys.
  all: try reflexivity.
  all: split; [intros H; left; exact H|intros [H|[]]; exact H].
Qed.

(** X20. On a device that takes the mkdir and restorecon commands
    directly, the only file [PushKeys] writes is the adb_keys file, and what
    it writes there is one line per key, sorted and without duplicates, for
    exactly the public keys together with the keys the file already had: no
    previously trusted key is removed. *)
Theorem PushKeys_never_removes host self n public_keys w :
  IsShellOk (_device self) "mkdir -p /data/misc/adb" = true ->
  IsShellOk (_device self) "restorecon /data/misc/adb" = true ->
  IsShellOk (_device self) "restorecon /data/misc/adb/adb_keys" = true ->
  forall content path,
    In (EPushContent content path)
       (trace (snd (PushKeys host self (S n) public_keys w))) ->
    In (EPushContent content path) (trace w)
    \/ (path = adb_keys
        /\ exists keys,
             content = key_lines keys
             /\ Sorted Py.str_le keys
             /\ List.NoDup keys
             /\ forall k,
                  In k keys <->
                  In k public_keys
                  \/ In k (trusted_keys
                             (PullContent_answer (_device self) (trace w)
                                adb_keys))).
Proof.
  intros H1 H2 H3.
  exact (PushKeys_pushes host self n public_keys w H1 H2 H3).
Qed.

Lemma PushKeys_never_removes_witness :
  In (EPushContent
        ("key-a host" +:+ NL +:+ "key-b host" +:+ NL +:+ "key-c host" +:+ NL)
        adb_keys)
     (trace (snd (PushKeys sample_host trusting 1
                    ["key-c host"; "key-a host"] empty_world)))
  /\ exists keys,
      "key-a host" +:+ NL +:+ "key-b host" +:+ NL +:+ "key-c host" +:+ NL
      = key_lines keys
      /\ forall k,
           In k keys <->
           In k ["key-c host"; "key-a host"]
           \/ In k (trusted_keys
                      (PullContent_answer (_device trusting)
                         (trace empty_world) adb_keys)).
Proof.
  assert (Hin : In (EPushContent
                      ("key-a host" +:+ NL +:+ "key-b host" +:+ NL
                       +:+ "key-c host" +:+ NL) adb_keys)
                   (trace (snd (PushKeys sample_host trusting 1
                                  ["key-c host"; "key-a host"] empty_world))))
    by (vm_compute; right; left; reflexivity).
  split; [exact Hin|].
  destruct (PushKeys_never_removes sample_host trusting 0
              ["key-c host"; "key-a host"] empty_world
              eq_refl eq_refl eq_refl _ _ Hin)
    as [[]|(_ & keys & Hc & _ & _ & Hk)].
  exists keys; split; [exact Hc|exact Hk].
Defined.
